(** * Isaac Sim 5.0 Python bindings: session orchestration

    A shallow embedding of [src/bindings/simulation_app.py],
    [src/bindings/webrtc_client.py], [src/bindings/rest_client.py] and
    [src/bindings/environment.py], and the properties of the orchestration
    contract proved (or refuted) on it.

    Conventions of the embedding.
    - A method of a class is a computation in the monad [Py S], where [S] is
      the record of the object's attributes.  A computation threads the
      object and the trace of observable events, and finishes either by
      returning a value or by raising a Python exception; attribute updates
      made before a [raise] persist, as in Python.
    - Everything outside the four classes (the operating system, the
      [websockets] and [aiohttp] libraries, the user's callbacks) is an
      [oracle]: each external call asks the oracle for its outcome at the
      current tick, the tick being the length of the trace.  Every external
      call appends an event, so two calls never share a tick and the oracle
      can script any sequence of outcomes.
    - [await] is sequencing: the code runs on one cooperative thread.
    - Only instances of [Exception] are modelled ([except Exception] catches
      all of them); [BaseException]s such as task cancellation are not.
    - A [logger] call is an event carrying the level and the text of the
      format string as written in the source (placeholders are not
      filled in); logging does not raise.
    - Handles of transports, sessions and processes, and callbacks, are
      numbers; such objects are truthy, [None] is the only falsy one.
    - [aiohttp.ClientSession()] allocates a local object and does not
      raise; [json.loads] and [urljoin] are not re-implemented: an inbound
      message is given by what [json.loads] makes of it, and [urljoin] is
      a parameter, a function that returns a URL or raises.
    - A [str] is the string of its bytes. *)

From Stdlib Require Import ZArith DecimalString Lia.
From stdpp Require Import base gmap strings list.

Local Open Scope Z_scope.
Local Open Scope string_scope.
Local Open Scope list_scope.

(** ** Python values, exceptions, results *)

(** The JSON-shaped values that travel through the clients: [None],
    booleans, integers, floats (by their bit pattern; nothing looks into
    one), strings, lists and dicts with string keys. *)
#[warnings="-register-all"]
Inductive pyval : Type :=
| VNone
| VBool (b : bool)
| VInt (z : Z)
| VFloat (bits : Z)
| VStr (s : string)
| VList (l : list pyval)
| VDict (d : gmap string pyval).

(** [str(n)] for an [int]. *)
Definition str_int (z : Z) : string := NilZero.string_of_int (Z.to_int z).

(** The exception classes the code distinguishes in its [except] clauses,
    each with the text [str(e)] gives. *)
Inductive exn : Type :=
| ConnectionClosed (msg : string)
| JSONDecodeError (msg : string)
| AttributeError (msg : string)
| OtherException (msg : string).

Definition str_exn (e : exn) : string :=
  match e with
  | ConnectionClosed m | JSONDecodeError m | AttributeError m
  | OtherException m => m
  end.

Inductive result (A : Type) : Type :=
| Return (a : A)
| Raise (e : exn).
Arguments Return {A} a.
Arguments Raise {A} e.

(** [key in v] for a string [key]: key membership on a dict, element
    membership on a list, substring on a string; [None], booleans and
    numbers are not containers and the test raises [TypeError]. *)
Definition py_in (key : string) (v : pyval) : result bool :=
  match v with
  | VDict d => Return (bool_decide (is_Some (d !! key)))
  | VList l =>
      Return (existsb (fun x => match x with
                                | VStr s => String.eqb s key
                                | _ => false
                                end) l)
  | VStr s =>
      Return (match String.index 0 key s with Some _ => true | None => false end)
  | VNone | VBool _ | VInt _ | VFloat _ =>
      Raise (OtherException "argument of this type is not iterable")
  end.

(** [v[key]] for a string [key]: the entry of a dict, [KeyError] when it
    has none; a list or a string cannot be indexed by a string, and
    [None], booleans and numbers cannot be indexed at all ([TypeError]). *)
Definition py_getitem (key : string) (v : pyval) : result pyval :=
  match v with
  | VDict d =>
      match d !! key with
      | Some x => Return x
      | None => Raise (OtherException key)
      end
  | VList _ =>
      Raise (OtherException "list indices must be integers or slices, not str")
  | VStr _ => Raise (OtherException "string indices must be integers, not 'str'")
  | VNone | VBool _ | VInt _ | VFloat _ =>
      Raise (OtherException "object is not subscriptable")
  end.

(** ** Events and the outside world *)

Definition handle := nat.
Definition callback := nat.

Inductive level := DEBUG | INFO | WARNING | ERROR.

Inductive event : Type :=
| EvLog (l : level) (template : string)
| EvWsConnect (url : string)
| EvWsClose (ws : handle)
| EvWsSend (ws : handle) (message : gmap string pyval)
| EvWsIter (ws : handle)
| EvWsRecv (ws : handle)
| EvCallback (cb : callback) (payload : pyval)
| EvSessionNew
| EvSessionClose (sess : handle)
| EvHttpRequest (sess : handle) (method url : string)
    (json : option (gmap string pyval))
| EvPgrep
| EvPopen (cmd : list string)
| EvSleep (seconds : Z)
| EvPoll (proc : handle)
| EvTerminate (proc : handle)
| EvWait (proc : handle).

(** How an [async for message in websocket] ends: the iterator is exhausted
    or it raises. *)
Inductive iter_end := IterStop | IterRaise (e : exn).

(** An HTTP response object: its status and what [text()] and [json()]
    give when awaited.  [json()] gives whatever JSON value the body
    holds, not only an object. *)
Record response := {
  status : Z;
  body_text : result string;
  body_json : result pyval }.

(** The outcome of each kind of external call at a tick:
    [websockets.connect], [websocket.close], [websocket.send]; the
    messages one iteration over the websocket delivers and how it ends
    (an iteration that never ends is outside the model); an awaited
    consumer; [aiohttp.ClientSession()], [session.close],
    [session.request]; [subprocess.run(['pgrep', ...])] (its return code),
    [subprocess.Popen], [process.poll], [process.terminate],
    [process.wait]. *)
Record oracle := {
  o_ws_connect : nat -> result handle;
  o_ws_close : nat -> result unit;
  o_ws_send : nat -> result unit;
  o_ws_inbound : nat -> list (result pyval) * iter_end;
  o_callback : nat -> result unit;
  o_session_new : nat -> handle;
  o_session_close : nat -> result unit;
  o_http : nat -> result response;
  o_pgrep : nat -> result Z;
  o_popen : nat -> result handle;
  o_poll : nat -> option Z;
  o_terminate : nat -> result unit;
  o_wait : nat -> result unit }.

(** ** The monad of methods *)

Module Py.

Definition t (S A : Type) : Type :=
  S -> list event -> result A * S * list event.

Definition ret {S A} (a : A) : t S A := fun s tr => (Return a, s, tr).

Definition raise {S A} (e : exn) : t S A := fun s tr => (Raise e, s, tr).

Definition bind {S A B} (m : t S A) (k : A -> t S B) : t S B :=
  fun s tr =>
    match m s tr with
    | (Return a, s', tr') => k a s' tr'
    | (Raise e, s', tr') => (Raise e, s', tr')
    end.

(** [try: body / except Exception as e: handler e]. *)
Definition try_except {S A} (body : t S A) (handler : exn -> t S A) : t S A :=
  fun s tr =>
    match body s tr with
    | (Return a, s', tr') => (Return a, s', tr')
    | (Raise e, s', tr') => handler e s' tr'
    end.

(** The outcome of a pure library function that may raise. *)
Definition of_result {S A} (r : result A) : t S A := fun s tr => (r, s, tr).

Definition gets {S A} (f : S -> A) : t S A := fun s tr => (Return (f s), s, tr).

Definition modify {S} (f : S -> S) : t S unit := fun s tr => (Return tt, f s, tr).

Definition emit {S} (ev : event) : t S unit :=
  fun s tr => (Return tt, s, tr ++ [ev]).

(** An external call: one event, and the outcome the oracle gives at the
    tick of the call. *)
Definition call {S A} (ev : event) (outcome : nat -> result A) : t S A :=
  fun s tr => (outcome (length tr), s, tr ++ [ev]).

Definition log {S} (l : level) (template : string) : t S unit :=
  emit (EvLog l template).

(** Run a method of the object held in an attribute that may be [None]:
    calling a method on [None] raises [AttributeError]. *)
Definition on_attr {S T A} (get : S -> option T) (set : option T -> S -> S)
    (m : t T A) : t S A :=
  fun s tr =>
    match get s with
    | Some o => let '(r, o', tr') := m o tr in (r, set (Some o') s, tr')
    | None =>
        (Raise (AttributeError "'NoneType' object has no attribute"), s, tr)
    end.

Definition value {S A} (x : result A * S * list event) : result A := x.1.1.
Definition state {S A} (x : result A * S * list event) : S := x.1.2.
Definition trace {S A} (x : result A * S * list event) : list event := x.2.

End Py.

Declare Scope py_scope.
Delimit Scope py_scope with py.
Notation "'let*' x ':=' m 'in' k" := (Py.bind m (fun x => k))
  (at level 10, x name, m at level 100, k at level 200) : py_scope.
Notation "m '>>' k" := (Py.bind m (fun _ => k))
  (at level 100, k at level 200, right associativity) : py_scope.
Local Open Scope py_scope.

(** ** [simulation_app.py]: class [SimulationApp] *)

Module SimulationApp.

(** The attributes [start], [stop] and [_is_isaac_running] read or write. *)
Record t := {
  process : option handle;
  is_running : bool;
  webrtc_port : Z;
  rest_port : Z;
  headless : bool;
  livestream : string }.

Definition set_process (p : option handle) (a : t) : t :=
  {| process := p; is_running := is_running a;
     webrtc_port := webrtc_port a; rest_port := rest_port a;
     headless := headless a; livestream := livestream a |}.

Definition set_is_running (b : bool) (a : t) : t :=
  {| process := process a; is_running := b;
     webrtc_port := webrtc_port a; rest_port := rest_port a;
     headless := headless a; livestream := livestream a |}.

(** The attributes of [__init__] once the four configuration entries are
    read (with their defaults 8211, 3009, [True], ['webrtc']); what the
    constructor does to [sys.path] and [os.environ] is in [of_config]
    below. *)
Definition __init__ (webrtc_port rest_port : Z) (headless : bool)
    (livestream : string) : t :=
  {| process := None; is_running := false;
     webrtc_port := webrtc_port; rest_port := rest_port;
     headless := headless; livestream := livestream |}.

(** Truthiness of a [str]: the empty string is falsy. *)
Definition truthy_str (s : string) : bool :=
  match s with EmptyString => false | _ => true end.

(** The command line of [start], after [[arg for arg in isaac_cmd if arg]]. *)
Definition isaac_cmd (a : t) : list string :=
  List.filter truthy_str
    [ "/workspace/isaac-sim-5.0/_build/linux-x86_64/release/omni.isaac.sim";
      if headless a then "--headless" else "";
      "--livestream"; livestream a;
      "--webrtc-port"; str_int (webrtc_port a);
      "--rest-port"; str_int (rest_port a) ].

(** The number the operating system gives the process behind a handle:
    handles of processes are numbered by pid. *)
Definition pid (p : handle) : Z := Z.of_nat p.

(** The table [env_vars] of [_setup_environment], in the order of the dict
    literal. *)
Definition env_vars (a : t) : list (string * string) :=
  [ ("HEADLESS", if headless a then "1" else "0");
    ("OMNI_LIVESTREAM", livestream a);
    ("OMNI_WEBRTC_PORT_HTTP", str_int (webrtc_port a));
    ("OMNI_WEBRTC_PORT_UDP", "49100");
    ("OMNI_KIT_ALLOW_ROOT", "1");
    ("ACCEPT_EULA", "Y");
    ("PRIVACY_CONSENT", "Y");
    ("ISAAC_SIM_PATH", "/workspace/isaac-sim-5.0");
    ("ISAAC_LAB_PATH", "/workspace/isaac-lab-2.2") ].

(** Whether a string holds a NUL byte. *)
Fixpoint has_nul (s : string) : bool :=
  match s with
  | EmptyString => false
  | String c rest => Ascii.eqb c Ascii.zero || has_nul rest
  end.

(** [os.environ[key] = value] for every entry of a table in turn.
    [os.environ] is the process-wide table of environment variables; the
    assignment raises [ValueError] for a value that holds a NUL byte, and
    the entries assigned before stay assigned.  (The keys of [env_vars]
    are constants that the assignment accepts, and a value is the string
    of its bytes, which the assignment can always encode.) *)
Fixpoint set_environ (vars : list (string * string))
    (environ : gmap string string) : result unit * gmap string string :=
  match vars with
  | [] => (Return tt, environ)
  | (key, value) :: rest =>
      if has_nul value then
        (Raise (OtherException "embedded null byte"), environ)
      else set_environ rest (<[key := value]> environ)
  end.

(** [_setup_environment] as a function of [os.environ]. *)
Definition _setup_environment (a : t) (environ : gmap string string)
    : result unit * gmap string string :=
  set_environ (env_vars a) environ.

Definition isaac_paths : list string :=
  [ "/workspace/isaac-sim-5.0";
    "/workspace/isaac-sim-5.0/_build/linux-x86_64/release";
    "/workspace/isaac-sim-5.0/_build/linux-x86_64/release/exts";
    "/workspace/isaac-sim-5.0/_build/linux-x86_64/release/omni.isaac.sim" ].

(** The loop of [_setup_isaac_paths] over some paths, as a function of
    [sys.path]; [exists_] is [os.path.exists], the state of the file
    system. *)
Fixpoint add_paths (exists_ : string -> bool) (paths : list string)
    (sys_path : list string) : list string :=
  match paths with
  | [] => sys_path
  | path :: rest =>
      add_paths exists_ rest
        (if negb (bool_decide (path ∈ sys_path)) && exists_ path
         then path :: sys_path
         else sys_path)
  end.

Definition _setup_isaac_paths (exists_ : string -> bool)
    (sys_path : list string) : list string :=
  add_paths exists_ isaac_paths sys_path.

(** The configuration dict of [SimulationApp], seen through the four keys
    [__init__] looks up: an absent key is [None].  Entries whose value has
    another type than the attribute they set are outside the model. *)
Record config := {
  cfg_webrtc_port : option Z;
  cfg_rest_port : option Z;
  cfg_headless : option bool;
  cfg_livestream : option string }.

Definition empty_config : config :=
  {| cfg_webrtc_port := None; cfg_rest_port := None;
     cfg_headless := None; cfg_livestream := None |}.

(** The attribute assignments of [__init__(config)]: [config or {}], then
    [config.get(key, default)] for each attribute. *)
Definition attributes (config : option config) : t :=
  let cfg := default empty_config config in
  __init__ (default 8211 (cfg_webrtc_port cfg))
    (default 3009 (cfg_rest_port cfg))
    (default true (cfg_headless cfg))
    (default "webrtc" (cfg_livestream cfg)).

(** The state of the interpreter that constructing a [SimulationApp]
    changes. *)
Record interpreter := {
  sys_path : list string;
  environ : gmap string string }.

(** [__init__(config)] as a whole: the attribute assignments, then
    [_setup_isaac_paths] and [_setup_environment].  When the latter
    raises, so does the constructor, and no object is made; what was
    written to [sys.path] and [os.environ] before stays.  The log lines of
    the constructor are not traced. *)
Definition of_config (exists_ : string -> bool) (config : option config)
    (I : interpreter) : result t * interpreter :=
  let a := attributes config in
  let paths := _setup_isaac_paths exists_ (sys_path I) in
  let r := _setup_environment a (environ I) in
  (match r.1 with
   | Return _ => Return a
   | Raise e => Raise e
   end,
   {| sys_path := paths; environ := r.2 |}).

Section Methods.
Variable O : oracle.

(** [_is_isaac_running]: [pgrep -f isaac-sim] exits with 0; any exception of
    [subprocess.run] counts as not running. *)
Definition _is_isaac_running : Py.t t bool :=
  Py.try_except
    (let* returncode := Py.call EvPgrep (o_pgrep O) in
     Py.ret (Z.eqb returncode 0))
    (fun _ => Py.ret false).

(** [self.process.poll()] on the handle just stored. *)
Definition poll : Py.t t (option Z) :=
  let* p := Py.gets process in
  match p with
  | Some h => Py.call (EvPoll h) (fun n => Return (o_poll O n))
  | None => Py.raise (AttributeError "'NoneType' object has no attribute 'poll'")
  end.

Definition start : Py.t t bool :=
  let* running := Py.gets is_running in
  if running then
    Py.log WARNING "Isaac Sim 5.0 is already running" >>
    Py.ret true
  else
    Py.try_except
      (let* found := _is_isaac_running in
       if found then
         Py.log INFO "Isaac Sim 5.0 is already running" >>
         Py.modify (set_is_running true) >>
         Py.ret true
       else
         let* cmd := Py.gets isaac_cmd in
         Py.log INFO "Starting Isaac Sim 5.0 with command: {' '.join(isaac_cmd)}" >>
         let* p := Py.call (EvPopen cmd) (o_popen O) in
         Py.modify (set_process (Some p)) >>
         Py.emit (EvSleep 2) >>
         let* code := poll in
         match code with
         | None =>
             Py.modify (set_is_running true) >>
             Py.log INFO "Isaac Sim 5.0 started successfully" >>
             Py.ret true
         | Some _ =>
             Py.log ERROR "Isaac Sim 5.0 failed to start" >>
             Py.ret false
         end)
      (fun _ =>
         Py.log ERROR "Error starting Isaac Sim 5.0: {e}" >>
         Py.ret false).

Definition stop : Py.t t unit :=
  let* p := Py.gets process in
  match p with
  | Some h =>
      Py.call (EvTerminate h) (o_terminate O) >>
      Py.call (EvWait h) (o_wait O) >>
      Py.modify (set_process None)
  | None => Py.ret tt
  end >>
  Py.modify (set_is_running false) >>
  Py.log INFO "Isaac Sim 5.0 stopped".


Definition restart : Py.t t bool :=
  stop >>
  Py.emit (EvSleep 1) >>
  start.

(** [get_status]: the five configuration entries, and for a process
    handle its pid and what [poll()] gives now. *)
Definition get_status : Py.t t (gmap string pyval) :=
  let* a := Py.gets (fun a => a) in
  let status : gmap string pyval :=
    {[ "is_running" := VBool (is_running a);
       "webrtc_port" := VInt (webrtc_port a);
       "rest_port" := VInt (rest_port a);
       "headless" := VBool (headless a);
       "livestream" := VStr (livestream a) ]} in
  let* p := Py.gets process in
  match p with
  | Some h =>
      let* code := Py.call (EvPoll h) (fun n => Return (o_poll O n)) in
      Py.ret (<["returncode" := match code with
                                | Some z => VInt z
                                | None => VNone
                                end]> (<["pid" := VInt (pid h)]> status))
  | None => Py.ret status
  end.

(** [__enter__] returns [self]; the result of [start] is dropped. *)
Definition __enter__ : Py.t t unit :=
  start >> Py.ret tt.

Definition __exit__ : Py.t t unit := stop.

Definition __del__ : Py.t t unit :=
  let* running := Py.gets is_running in
  if running then stop else Py.ret tt.

End Methods.
End SimulationApp.

(** ** [webrtc_client.py]: class [WebRTCClient] *)

Module WebRTCClient.

Record t := {
  host : string;
  port : Z;
  base_url : string;
  webrtc_url : string;
  websocket : option handle;
  is_connected : bool;
  on_frame_callback : option callback;
  on_audio_callback : option callback }.

Definition set_websocket (w : option handle) (c : t) : t :=
  {| host := host c; port := port c; base_url := base_url c;
     webrtc_url := webrtc_url c; websocket := w;
     is_connected := is_connected c;
     on_frame_callback := on_frame_callback c;
     on_audio_callback := on_audio_callback c |}.

Definition set_is_connected (b : bool) (c : t) : t :=
  {| host := host c; port := port c; base_url := base_url c;
     webrtc_url := webrtc_url c; websocket := websocket c;
     is_connected := b;
     on_frame_callback := on_frame_callback c;
     on_audio_callback := on_audio_callback c |}.

Definition set_on_frame_callback (f : option callback) (c : t) : t :=
  {| host := host c; port := port c; base_url := base_url c;
     webrtc_url := webrtc_url c; websocket := websocket c;
     is_connected := is_connected c;
     on_frame_callback := f;
     on_audio_callback := on_audio_callback c |}.

Definition set_on_audio_callback (f : option callback) (c : t) : t :=
  {| host := host c; port := port c; base_url := base_url c;
     webrtc_url := webrtc_url c; websocket := websocket c;
     is_connected := is_connected c;
     on_frame_callback := on_frame_callback c;
     on_audio_callback := f |}.

Definition __init__ (host : string) (port : Z) : t :=
  {| host := host; port := port;
     base_url := "http://" +:+ host +:+ ":" +:+ str_int port;
     webrtc_url := "ws://" +:+ host +:+ ":" +:+ str_int port +:+ "/streaming/webrtc";
     websocket := None;
     is_connected := false;
     on_frame_callback := None;
     on_audio_callback := None |}.

(** [data.get(key)]: on a dict the value or [None]; anything else has no
    [get] attribute. *)
Definition py_get {S} (data : pyval) (key : string) : Py.t S pyval :=
  match data with
  | VDict d => Py.ret (default VNone (d !! key))
  | _ => Py.raise (AttributeError "object has no attribute 'get'")
  end.

(** [v == 'literal']. *)
Definition eq_str (v : pyval) (s : string) : bool :=
  match v with
  | VStr s' => String.eqb s' s
  | _ => false
  end.

Definition start_message : gmap string pyval :=
  {[ "type" := VStr "start_streaming"; "format" := VStr "webrtc" ]}.

Definition stop_message : gmap string pyval :=
  {[ "type" := VStr "stop_streaming" ]}.

Section Methods.
Variable O : oracle.

Definition connect : Py.t t bool :=
  Py.try_except
    (Py.log INFO "Connecting to WebRTC service at {self.webrtc_url}" >>
     let* url := Py.gets webrtc_url in
     let* ws := Py.call (EvWsConnect url) (o_ws_connect O) in
     Py.modify (set_websocket (Some ws)) >>
     Py.modify (set_is_connected true) >>
     Py.log INFO "WebRTC connection established" >>
     Py.ret true)
    (fun _ =>
       Py.log ERROR "Failed to connect to WebRTC service: {e}" >>
       Py.modify (set_is_connected false) >>
       Py.ret false).

Definition disconnect : Py.t t unit :=
  let* w := Py.gets websocket in
  match w with
  | Some ws =>
      Py.call (EvWsClose ws) (o_ws_close O) >>
      Py.modify (set_websocket None)
  | None => Py.ret tt
  end >>
  Py.modify (set_is_connected false) >>
  Py.log INFO "WebRTC connection closed".

Definition send_message (message : gmap string pyval) : Py.t t unit :=
  let* c := Py.gets is_connected in
  let* w := Py.gets websocket in
  match c, w with
  | true, Some ws =>
      Py.try_except
        (Py.call (EvWsSend ws message) (o_ws_send O) >>
         Py.log DEBUG "Sent message: {message}")
        (fun _ => Py.log ERROR "Failed to send message: {e}")
  | _, _ => Py.log ERROR "Not connected to WebRTC service"
  end.

Definition _handle_message (data : pyval) : Py.t t unit :=
  let* message_type := py_get data "type" in
  if eq_str message_type "frame" then
    let* cb := Py.gets on_frame_callback in
    match cb with
    | Some f =>
        let* payload := py_get data "frame" in
        Py.call (EvCallback f payload) (o_callback O)
    | None => Py.ret tt
    end
  else if eq_str message_type "audio" then
    let* cb := Py.gets on_audio_callback in
    match cb with
    | Some f =>
        let* payload := py_get data "audio" in
        Py.call (EvCallback f payload) (o_callback O)
    | None => Py.ret tt
    end
  else if eq_str message_type "status" then
    Py.log INFO "Status update: {data.get('status')}"
  else
    Py.log DEBUG "Received message type: {message_type}".

(** The body of the [async for]: an inbound message is given by what
    [json.loads] makes of it. *)
Definition on_message (message : result pyval) : Py.t t unit :=
  Py.try_except
    (let* data := Py.of_result message in
     _handle_message data)
    (fun e =>
       match e with
       | JSONDecodeError _ => Py.log WARNING "Received non-JSON message"
       | _ => Py.log ERROR "Error handling message: {e}"
       end).

Fixpoint for_each (ws : handle) (messages : list (result pyval)) : Py.t t unit :=
  match messages with
  | [] => Py.ret tt
  | message :: rest =>
      Py.emit (EvWsRecv ws) >>
      on_message message >>
      for_each ws rest
  end.

(** [async for message in self.websocket: ...]: the messages the transport
    delivers until the iteration ends, each handled before the next is
    read; then the iterator stops or raises. *)
Definition async_for (ws : handle) : Py.t t unit :=
  fun c tr =>
    let inbound := o_ws_inbound O (length tr) in
    (for_each ws inbound.1 >>
     match inbound.2 with
     | IterStop => Py.ret tt
     | IterRaise e => Py.raise e
     end) c (tr ++ [EvWsIter ws]).

Definition receive_messages : Py.t t unit :=
  let* c := Py.gets is_connected in
  let* w := Py.gets websocket in
  match c, w with
  | true, Some ws =>
      Py.try_except
        (async_for ws)
        (fun e =>
           match e with
           | ConnectionClosed _ =>
               Py.log INFO "WebRTC connection closed" >>
               Py.modify (set_is_connected false)
           | _ => Py.log ERROR "Error receiving messages: {e}"
           end)
  | _, _ => Py.log ERROR "Not connected to WebRTC service"
  end.

Definition set_frame_callback (cb : option callback) : Py.t t unit :=
  Py.modify (set_on_frame_callback cb).

Definition set_audio_callback (cb : option callback) : Py.t t unit :=
  Py.modify (set_on_audio_callback cb).

Definition start_streaming : Py.t t bool :=
  let send_start :=
    send_message start_message >>
    Py.log INFO "Started WebRTC streaming" >>
    Py.ret true in
  let* c := Py.gets is_connected in
  if negb c then
    let* ok := connect in
    if negb ok then Py.ret false else send_start
  else send_start.

Definition stop_streaming : Py.t t unit :=
  let* c := Py.gets is_connected in
  if c then
    send_message stop_message >>
    Py.log INFO "Stopped WebRTC streaming"
  else Py.ret tt.


Definition get_stream_url : Py.t t string :=
  let* base := Py.gets base_url in
  Py.ret (base +:+ "/streaming/webrtc-client").

Definition get_status : Py.t t (gmap string pyval) :=
  let* c := Py.gets (fun c => c) in
  let* url := get_stream_url in
  Py.ret ({[ "is_connected" := VBool (is_connected c);
             "host" := VStr (host c);
             "port" := VInt (port c);
             "base_url" := VStr (base_url c);
             "stream_url" := VStr url ]} : gmap string pyval).

(** [__aenter__] returns [self]; the result of [connect] is dropped. *)
Definition __aenter__ : Py.t t unit :=
  connect >> Py.ret tt.

Definition __aexit__ : Py.t t unit := disconnect.

End Methods.
End WebRTCClient.

(** ** [rest_client.py]: class [RESTClient] *)

Module RESTClient.

Record t := {
  host : string;
  port : Z;
  base_url : string;
  session : option handle }.

Definition set_session (h : option handle) (c : t) : t :=
  {| host := host c; port := port c; base_url := base_url c; session := h |}.

Definition __init__ (host : string) (port : Z) : t :=
  {| host := host; port := port;
     base_url := "http://" +:+ host +:+ ":" +:+ str_int port;
     session := None |}.

(** [{'error': reason}]. *)
Definition error_value (reason : string) : gmap string pyval :=
  {[ "error" := VStr reason ]}.

(** ['error' in result]. *)
Definition has_error (d : gmap string pyval) : bool :=
  bool_decide (is_Some (d !! "error")).

(** [config or {}]: [None] and the empty dict are falsy. *)
Definition or_empty (config : option (gmap string pyval)) : gmap string pyval :=
  match config with
  | Some d => if bool_decide (d = ∅) then ∅ else d
  | None => ∅
  end.

Section Methods.
Variable O : oracle.
(** [urllib.parse.urljoin], a pure library function; it raises
    [ValueError] on a base or an endpoint it cannot parse. *)
Variable urljoin : string -> string -> result string.

Definition connect : Py.t t unit :=
  let* s := Py.gets session in
  match s with
  | None =>
      let* h := Py.call EvSessionNew (fun n => Return (o_session_new O n)) in
      Py.modify (set_session (Some h)) >>
      Py.log INFO "REST client session created"
  | Some _ => Py.ret tt
  end.

Definition disconnect : Py.t t unit :=
  let* s := Py.gets session in
  match s with
  | Some h =>
      Py.call (EvSessionClose h) (o_session_close O) >>
      Py.modify (set_session None) >>
      Py.log INFO "REST client session closed"
  | None => Py.ret tt
  end.

(** [self.session.request(method, url, json=data)] entered as a context
    manager. *)
Definition request (method url : string) (data : option (gmap string pyval))
    : Py.t t response :=
  let* s := Py.gets session in
  match s with
  | Some h => Py.call (EvHttpRequest h method url data) (o_http O)
  | None =>
      Py.raise (AttributeError "'NoneType' object has no attribute 'request'")
  end.

Definition _make_request (method endpoint : string)
    (data : option (gmap string pyval)) : Py.t t pyval :=
  let* s := Py.gets session in
  match s with
  | None => connect
  | Some _ => Py.ret tt
  end >>
  let* base := Py.gets base_url in
  let* url := Py.of_result (urljoin base endpoint) in
  Py.try_except
    (let* resp := request method url data in
     if Z.eqb (status resp) 200 then
       Py.of_result (body_json resp)
     else
       Py.of_result (body_text resp) >>
       Py.log ERROR "HTTP {response.status}: {await response.text()}" >>
       Py.ret (VDict (error_value ("HTTP " +:+ str_int (status resp)))))
    (fun e =>
       Py.log ERROR "Request failed: {e}" >>
       Py.ret (VDict (error_value (str_exn e)))).

Definition start_simulation (config : option (gmap string pyval))
    : Py.t t pyval :=
  _make_request "POST" "/simulation/start" (Some (or_empty config)).

Definition stop_simulation : Py.t t pyval :=
  _make_request "POST" "/simulation/stop" None.


Definition get_version : Py.t t pyval :=
  _make_request "GET" "/version" None.

Definition get_health : Py.t t pyval :=
  _make_request "GET" "/health" None.

Definition get_status : Py.t t pyval :=
  _make_request "GET" "/status" None.

Definition pause_simulation : Py.t t pyval :=
  _make_request "POST" "/simulation/pause" None.

Definition resume_simulation : Py.t t pyval :=
  _make_request "POST" "/simulation/resume" None.

Definition get_simulation_status : Py.t t pyval :=
  _make_request "GET" "/simulation/status" None.

Definition load_scene (scene_path : string) : Py.t t pyval :=
  _make_request "POST" "/scene/load" (Some {[ "path" := VStr scene_path ]}).

Definition get_scene_info : Py.t t pyval :=
  _make_request "GET" "/scene/info" None.

Definition set_camera (camera_config : gmap string pyval)
    : Py.t t pyval :=
  _make_request "POST" "/camera/set" (Some camera_config).

Definition get_camera_info : Py.t t pyval :=
  _make_request "GET" "/camera/info" None.

Definition set_lighting (lighting_config : gmap string pyval)
    : Py.t t pyval :=
  _make_request "POST" "/lighting/set" (Some lighting_config).

Definition get_lighting_info : Py.t t pyval :=
  _make_request "GET" "/lighting/info" None.

Definition get_physics_info : Py.t t pyval :=
  _make_request "GET" "/physics/info" None.

Definition set_physics_config (physics_config : gmap string pyval)
    : Py.t t pyval :=
  _make_request "POST" "/physics/config" (Some physics_config).

Definition get_entities : Py.t t pyval :=
  _make_request "GET" "/entities" None.

Definition create_entity (entity_config : gmap string pyval)
    : Py.t t pyval :=
  _make_request "POST" "/entities/create" (Some entity_config).

Definition delete_entity (entity_id : string) : Py.t t pyval :=
  _make_request "DELETE" ("/entities/" +:+ entity_id) None.

Definition get_logs (level : string) (limit : Z) : Py.t t pyval :=
  _make_request "GET"
    ("/logs?level=" +:+ level +:+ "&limit=" +:+ str_int limit) None.

Definition get_status_info : Py.t t (gmap string pyval) :=
  let* c := Py.gets (fun c => c) in
  Py.ret ({[ "host" := VStr (host c);
             "port" := VInt (port c);
             "base_url" := VStr (base_url c);
             "session_active" := VBool (bool_decide (is_Some (session c))) ]}
          : gmap string pyval).

Definition __aenter__ : Py.t t unit := connect.

Definition __aexit__ : Py.t t unit := disconnect.

End Methods.
End RESTClient.

(** ** [environment.py]: class [IsaacSimEnvironment] *)

Module IsaacSimEnvironment.

(** The three components are attributes that start as [None] in
    [__init__] and are tested with [if self.webrtc_client:] and the like,
    so they are optional here too. *)
Record t := {
  simulation_app : option SimulationApp.t;
  webrtc_client : option WebRTCClient.t;
  rest_client : option RESTClient.t;
  is_initialized : bool }.

Definition set_simulation_app (a : option SimulationApp.t) (e : t) : t :=
  {| simulation_app := a; webrtc_client := webrtc_client e;
     rest_client := rest_client e; is_initialized := is_initialized e |}.

Definition set_webrtc_client (c : option WebRTCClient.t) (e : t) : t :=
  {| simulation_app := simulation_app e; webrtc_client := c;
     rest_client := rest_client e; is_initialized := is_initialized e |}.

Definition set_rest_client (c : option RESTClient.t) (e : t) : t :=
  {| simulation_app := simulation_app e; webrtc_client := webrtc_client e;
     rest_client := c; is_initialized := is_initialized e |}.

Definition set_is_initialized (b : bool) (e : t) : t :=
  {| simulation_app := simulation_app e; webrtc_client := webrtc_client e;
     rest_client := rest_client e; is_initialized := b |}.

(** [__init__] once [host], [webrtc_port] and [rest_port] are read from the
    configuration, given the [SimulationApp] built from its [simulation]
    entry. *)
Definition __init__ (sim : SimulationApp.t) (host : string)
    (webrtc_port rest_port : Z) : t :=
  {| simulation_app := Some sim;
     webrtc_client := Some (WebRTCClient.__init__ host webrtc_port);
     rest_client := Some (RESTClient.__init__ host rest_port);
     is_initialized := false |}.

(** The configuration dict of the environment, seen through the keys
    [_init_simulation_app] and [_init_clients] look up. *)
Record config := {
  cfg_simulation : option SimulationApp.config;
  cfg_host : option string;
  cfg_webrtc_port : option Z;
  cfg_rest_port : option Z }.

Definition empty_config : config :=
  {| cfg_simulation := None; cfg_host := None;
     cfg_webrtc_port := None; cfg_rest_port := None |}.

(** [_init_simulation_app]: the [SimulationApp] of
    [config.get('simulation', {})]; its constructor may raise. *)
Definition _init_simulation_app (exists_ : string -> bool) (cfg : config)
    (I : SimulationApp.interpreter)
    : result SimulationApp.t * SimulationApp.interpreter :=
  SimulationApp.of_config exists_
    (Some (default SimulationApp.empty_config (cfg_simulation cfg))) I.

(** [__init__(config)] as a whole: [config or {}], then
    [_init_simulation_app] and, when that returned, [_init_clients].  The
    log lines of the constructor are not traced. *)
Definition of_config (exists_ : string -> bool) (config : option config)
    (I : SimulationApp.interpreter)
    : result t * SimulationApp.interpreter :=
  let cfg := default empty_config config in
  let r := _init_simulation_app exists_ cfg I in
  (match r.1 with
   | Return sim =>
       Return (__init__ sim
                 (default "3.239.124.24" (cfg_host cfg))
                 (default 8211 (cfg_webrtc_port cfg))
                 (default 3009 (cfg_rest_port cfg)))
   | Raise e => Raise e
   end,
   r.2).

Section Methods.
Variable O : oracle.
Variable urljoin : string -> string -> result string.

Definition on_simulation_app {A} (m : Py.t SimulationApp.t A) : Py.t t A :=
  Py.on_attr simulation_app set_simulation_app m.

Definition on_webrtc_client {A} (m : Py.t WebRTCClient.t A) : Py.t t A :=
  Py.on_attr webrtc_client set_webrtc_client m.

Definition on_rest_client {A} (m : Py.t RESTClient.t A) : Py.t t A :=
  Py.on_attr rest_client set_rest_client m.

Definition initialize : Py.t t bool :=
  Py.try_except
    (Py.log INFO "Initializing Isaac Sim 5.0 environment..." >>
     let* started := on_simulation_app (SimulationApp.start O) in
     if negb started then
       Py.log ERROR "Failed to start Isaac Sim 5.0" >>
       Py.ret false
     else
       let* connected := on_webrtc_client (WebRTCClient.connect O) in
       (if negb connected then
          Py.log WARNING "Failed to connect to WebRTC service"
        else Py.ret tt) >>
       on_rest_client (RESTClient.connect O) >>
       Py.modify (set_is_initialized true) >>
       Py.log INFO "Isaac Sim 5.0 environment initialized successfully" >>
       Py.ret true)
    (fun _ =>
       Py.log ERROR "Failed to initialize environment: {e}" >>
       Py.ret false).

Definition cleanup : Py.t t unit :=
  Py.try_except
    (Py.log INFO "Cleaning up Isaac Sim 5.0 environment..." >>
     let* w := Py.gets webrtc_client in
     match w with
     | Some _ => on_webrtc_client (WebRTCClient.disconnect O)
     | None => Py.ret tt
     end >>
     let* r := Py.gets rest_client in
     match r with
     | Some _ => on_rest_client (RESTClient.disconnect O)
     | None => Py.ret tt
     end >>
     let* a := Py.gets simulation_app in
     match a with
     | Some _ => on_simulation_app (SimulationApp.stop O)
     | None => Py.ret tt
     end >>
     Py.modify (set_is_initialized false) >>
     Py.log INFO "Isaac Sim 5.0 environment cleaned up")
    (fun _ => Py.log ERROR "Error during cleanup: {e}").

Definition start_simulation (config : option (gmap string pyval))
    : Py.t t bool :=
  let delegate :=
    Py.try_except
      (let* result :=
         on_rest_client (RESTClient.start_simulation O urljoin config) in
       let* has_error := Py.of_result (py_in "error" result) in
       if negb has_error then
         Py.log INFO "Simulation started successfully" >>
         Py.ret true
       else
         Py.of_result (py_getitem "error" result) >>
         Py.log ERROR "Failed to start simulation: {result['error']}" >>
         Py.ret false)
      (fun _ =>
         Py.log ERROR "Error starting simulation: {e}" >>
         Py.ret false) in
  let* i := Py.gets is_initialized in
  if negb i then
    let* ok := initialize in
    if negb ok then Py.ret false else delegate
  else delegate.

Definition stop_simulation : Py.t t bool :=
  Py.try_except
    (let* result := on_rest_client (RESTClient.stop_simulation O urljoin) in
     let* has_error := Py.of_result (py_in "error" result) in
     if negb has_error then
       Py.log INFO "Simulation stopped successfully" >>
       Py.ret true
     else
       Py.of_result (py_getitem "error" result) >>
       Py.log ERROR "Failed to stop simulation: {result['error']}" >>
       Py.ret false)
    (fun _ =>
       Py.log ERROR "Error stopping simulation: {e}" >>
       Py.ret false).


Definition get_simulation_status : Py.t t pyval :=
  on_rest_client (RESTClient.get_simulation_status O urljoin).

Definition start_streaming : Py.t t bool :=
  Py.try_except
    (on_webrtc_client (WebRTCClient.start_streaming O))
    (fun _ =>
       Py.log ERROR "Error starting streaming: {e}" >>
       Py.ret false).

Definition stop_streaming : Py.t t unit :=
  Py.try_except
    (on_webrtc_client (WebRTCClient.stop_streaming O))
    (fun _ => Py.log ERROR "Error stopping streaming: {e}").

(** [x.get_status() if x else None] for a component. *)
Definition status_of {T} (get : t -> option T) (set : option T -> t -> t)
    (m : Py.t T (gmap string pyval)) : Py.t t pyval :=
  let* x := Py.gets get in
  match x with
  | Some _ => let* d := Py.on_attr get set m in Py.ret (VDict d)
  | None => Py.ret VNone
  end.

Definition get_status : Py.t t (gmap string pyval) :=
  let* i := Py.gets is_initialized in
  let* app := status_of simulation_app set_simulation_app
                (SimulationApp.get_status O) in
  let* webrtc := status_of webrtc_client set_webrtc_client
                   (WebRTCClient.get_status) in
  let* rest := status_of rest_client set_rest_client
                 (RESTClient.get_status_info) in
  let status : gmap string pyval :=
    {[ "is_initialized" := VBool i;
       "simulation_app" := app;
       "webrtc_client" := webrtc;
       "rest_client" := rest ]} in
  let* i := Py.gets is_initialized in
  if i then
    Py.try_except
      (let* sim := get_simulation_status in
       Py.ret (<["simulation_status" := sim]> status))
      (fun e =>
         Py.ret (<["simulation_status" :=
                     VDict {[ "error" := VStr (str_exn e) ]}]> status))
  else Py.ret status.

(** The shape shared by [load_scene], [create_entity] and
    [delete_entity]: the call on the control client inside a guard, and
    [True] when its result has no ['error'] key. *)
Definition load_scene (scene_path : string) : Py.t t bool :=
  Py.try_except
    (let* result := on_rest_client (RESTClient.load_scene O urljoin scene_path) in
     let* has_error := Py.of_result (py_in "error" result) in
     if negb has_error then
       Py.log INFO "Scene loaded successfully: {scene_path}" >>
       Py.ret true
     else
       Py.of_result (py_getitem "error" result) >>
       Py.log ERROR "Failed to load scene: {result['error']}" >>
       Py.ret false)
    (fun _ =>
       Py.log ERROR "Error loading scene: {e}" >>
       Py.ret false).

Definition get_scene_info : Py.t t pyval :=
  on_rest_client (RESTClient.get_scene_info O urljoin).

Definition get_entities : Py.t t pyval :=
  on_rest_client (RESTClient.get_entities O urljoin).

Definition create_entity (entity_config : gmap string pyval) : Py.t t bool :=
  Py.try_except
    (let* result :=
       on_rest_client (RESTClient.create_entity O urljoin entity_config) in
     let* has_error := Py.of_result (py_in "error" result) in
     if negb has_error then
       Py.log INFO "Entity created successfully" >>
       Py.ret true
     else
       Py.of_result (py_getitem "error" result) >>
       Py.log ERROR "Failed to create entity: {result['error']}" >>
       Py.ret false)
    (fun _ =>
       Py.log ERROR "Error creating entity: {e}" >>
       Py.ret false).

Definition delete_entity (entity_id : string) : Py.t t bool :=
  Py.try_except
    (let* result :=
       on_rest_client (RESTClient.delete_entity O urljoin entity_id) in
     let* has_error := Py.of_result (py_in "error" result) in
     if negb has_error then
       Py.log INFO "Entity deleted successfully: {entity_id}" >>
       Py.ret true
     else
       Py.of_result (py_getitem "error" result) >>
       Py.log ERROR "Failed to delete entity: {result['error']}" >>
       Py.ret false)
    (fun _ =>
       Py.log ERROR "Error deleting entity: {e}" >>
       Py.ret false).

Definition set_frame_callback (cb : option callback) : Py.t t unit :=
  let* w := Py.gets webrtc_client in
  match w with
  | Some _ => on_webrtc_client (WebRTCClient.set_frame_callback cb)
  | None => Py.ret tt
  end.

Definition set_audio_callback (cb : option callback) : Py.t t unit :=
  let* w := Py.gets webrtc_client in
  match w with
  | Some _ => on_webrtc_client (WebRTCClient.set_audio_callback cb)
  | None => Py.ret tt
  end.

(** [__aenter__] returns [self]; the result of [initialize] is dropped. *)
Definition __aenter__ : Py.t t unit :=
  initialize >> Py.ret tt.

(** [__aexit__] returns [None], so an exception of the body is not
    suppressed. *)
Definition __aexit__ : Py.t t unit := cleanup.

(** [async with env: body]: enter, run the body, and exit on every path;
    an exception of the body is raised again after the exit, one of the
    exit itself takes its place. *)
Definition async_with {A} (body : Py.t t A) : Py.t t A :=
  __aenter__ >>
  fun env tr =>
    match body env tr with
    | (Return a, env', tr') => (__aexit__ >> Py.ret a) env' tr'
    | (Raise e, env', tr') => (__aexit__ >> Py.raise e) env' tr'
    end.

End Methods.
End IsaacSimEnvironment.

(** ** Vocabulary of the properties *)

(** The events of a launch by [SimulationApp.start], up to and including
    the single liveness probe. *)
Definition launch_events (a : SimulationApp.t) (p : handle) : list event :=
  [ EvPgrep;
    EvLog INFO "Starting Isaac Sim 5.0 with command: {' '.join(isaac_cmd)}";
    EvPopen (SimulationApp.isaac_cmd a); EvSleep 2; EvPoll p ].

(** An outside world that answers every call of one kind the same way at
    every tick; the concrete scenarios are built from it. *)
Definition constant_oracle (ws_connect : result handle)
    (ws_close ws_send : result unit)
    (inbound : list (result pyval) * iter_end) (cb : result unit)
    (session_close : result unit) (http : result response)
    (pgrep : result Z) (popen : result handle) (poll : option Z)
    (terminate : result unit) : oracle :=
  {| o_ws_connect := fun _ => ws_connect;
     o_ws_close := fun _ => ws_close;
     o_ws_send := fun _ => ws_send;
     o_ws_inbound := fun _ => inbound;
     o_callback := fun _ => cb;
     o_session_new := fun _ => 5%nat;
     o_session_close := fun _ => session_close;
     o_http := fun _ => http;
     o_pgrep := fun _ => pgrep;
     o_popen := fun _ => popen;
     o_poll := fun _ => poll;
     o_terminate := fun _ => terminate;
     o_wait := fun _ => Return tt |}.

Definition ok_response (body : gmap string pyval) : response :=
  {| status := 200; body_text := Return ""; body_json := Return (VDict body) |}.

(** Every external call succeeds; no simulator is found running, the
    launched one stays alive, and the transport delivers nothing. *)
Definition calm : oracle :=
  constant_oracle (Return 7%nat) (Return tt) (Return tt) ([], IterStop)
    (Return tt) (Return tt) (Return (ok_response ∅)) (Return 1) (Return 42%nat)
    None (Return tt).

(** As [calm], but the launched process has exited with code 1 by the time
    it is probed. *)
Definition crashing : oracle :=
  constant_oracle (Return 7%nat) (Return tt) (Return tt) ([], IterStop)
    (Return tt) (Return tt) (Return (ok_response ∅)) (Return 1) (Return 42%nat)
    (Some 1) (Return tt).

Definition default_app : SimulationApp.t :=
  SimulationApp.__init__ 8211 3009 true "webrtc".

(** *** The streaming session *)

(** The invariant of the streaming client: a session marked connected has
    a transport handle. *)
Definition transport_present (c : WebRTCClient.t) : Prop :=
  WebRTCClient.is_connected c = true -> is_Some (WebRTCClient.websocket c).

(** The public operations of the streaming client. *)
Inductive op : Type :=
| OpConnect
| OpDisconnect
| OpSendMessage (message : gmap string pyval)
| OpReceiveMessages
| OpStartStreaming
| OpStopStreaming
| OpSetFrameCallback (cb : option callback)
| OpSetAudioCallback (cb : option callback).

(** The client and the trace after one operation, whether the operation
    returned or raised (the caller may catch the exception and go on). *)
Definition exec (O : oracle) (o : op) (c : WebRTCClient.t) (tr : list event)
    : WebRTCClient.t * list event :=
  match o with
  | OpConnect =>
      let x := WebRTCClient.connect O c tr in (Py.state x, Py.trace x)
  | OpDisconnect =>
      let x := WebRTCClient.disconnect O c tr in (Py.state x, Py.trace x)
  | OpSendMessage m =>
      let x := WebRTCClient.send_message O m c tr in (Py.state x, Py.trace x)
  | OpReceiveMessages =>
      let x := WebRTCClient.receive_messages O c tr in (Py.state x, Py.trace x)
  | OpStartStreaming =>
      let x := WebRTCClient.start_streaming O c tr in (Py.state x, Py.trace x)
  | OpStopStreaming =>
      let x := WebRTCClient.stop_streaming O c tr in (Py.state x, Py.trace x)
  | OpSetFrameCallback cb =>
      let x := WebRTCClient.set_frame_callback cb c tr in
      (Py.state x, Py.trace x)
  | OpSetAudioCallback cb =>
      let x := WebRTCClient.set_audio_callback cb c tr in
      (Py.state x, Py.trace x)
  end.

Fixpoint run (O : oracle) (ops : list op) (c : WebRTCClient.t)
    (tr : list event) : WebRTCClient.t * list event :=
  match ops with
  | [] => (c, tr)
  | o :: rest => let x := exec O o c tr in run O rest x.1 x.2
  end.

(** The consumer invocations of a trace, in order: which callback, with
    which payload. *)
Fixpoint calls (evs : list event) : list (callback * pyval) :=
  match evs with
  | [] => []
  | EvCallback cb payload :: rest => (cb, payload) :: calls rest
  | _ :: rest => calls rest
  end.

(** The dispatch table of the receive loop read as a function: the consumer
    invocations one inbound message gives rise to. *)
Definition expected_calls (c : WebRTCClient.t) (message : result pyval)
    : list (callback * pyval) :=
  match message with
  | Return (VDict d) =>
      let tag := default VNone (d !! "type") in
      if WebRTCClient.eq_str tag "frame" then
        match WebRTCClient.on_frame_callback c with
        | Some f => [(f, default VNone (d !! "frame"))]
        | None => []
        end
      else if WebRTCClient.eq_str tag "audio" then
        match WebRTCClient.on_audio_callback c with
        | Some f => [(f, default VNone (d !! "audio"))]
        | None => []
        end
      else []
  | _ => []
  end.

(** A client of localhost:9000 that is connected over transport 1. *)
Definition connected_client : WebRTCClient.t :=
  WebRTCClient.set_is_connected true
    (WebRTCClient.set_websocket (Some 1%nat)
       (WebRTCClient.__init__ "localhost" 9000)).

(** As [calm], but the inbound iteration ends at once with an error that is
    not a closed connection. *)
Definition failing_iteration : oracle :=
  constant_oracle (Return 7%nat) (Return tt) (Return tt)
    ([], IterRaise (OtherException "boom"))
    (Return tt) (Return tt) (Return (ok_response ∅)) (Return 1) (Return 42%nat)
    None (Return tt).

(** As [calm], but the inbound iteration ends at once because the
    connection is closed. *)
Definition closing_iteration : oracle :=
  constant_oracle (Return 7%nat) (Return tt) (Return tt)
    ([], IterRaise (ConnectionClosed "closed"))
    (Return tt) (Return tt) (Return (ok_response ∅)) (Return 1) (Return 42%nat)
    None (Return tt).

(** The client connects and runs the receive loop in the world
    [failing_iteration]. *)
Definition failed_receive : WebRTCClient.t * list event :=
  run failing_iteration [OpConnect; OpReceiveMessages]
    (WebRTCClient.__init__ "localhost" 9000) [].

(** As [calm], but every send over the transport raises. *)
Definition send_failing : oracle :=
  constant_oracle (Return 7%nat) (Return tt)
    (Raise (OtherException "send failed")) ([], IterStop)
    (Return tt) (Return tt) (Return (ok_response ∅)) (Return 1) (Return 42%nat)
    None (Return tt).

(** As [calm], but no transport can be opened. *)
Definition unreachable : oracle :=
  constant_oracle (Raise (OtherException "connection refused")) (Return tt)
    (Return tt) ([], IterStop)
    (Return tt) (Return tt) (Return (ok_response ∅)) (Return 1) (Return 42%nat)
    None (Return tt).

Definition frame_msg : gmap string pyval :=
  {[ "type" := VStr "frame"; "frame" := VStr "f0" ]}.
Definition audio_msg : gmap string pyval :=
  {[ "type" := VStr "audio"; "audio" := VStr "a0" ]}.
Definition status_msg : gmap string pyval :=
  {[ "type" := VStr "status"; "status" := VStr "ok" ]}.
Definition unknown_msg : gmap string pyval :=
  {[ "type" := VStr "unknown" ]}.

(** The transport delivers frame, audio, status, unknown and is then
    exhausted; every consumer raises when invoked. *)
Definition four_messages : oracle :=
  constant_oracle (Return 7%nat) (Return tt) (Return tt)
    ([ Return (VDict frame_msg); Return (VDict audio_msg);
       Return (VDict status_msg); Return (VDict unknown_msg) ], IterStop)
    (Raise (OtherException "consumer failed")) (Return tt)
    (Return (ok_response ∅)) (Return 1) (Return 42%nat) None (Return tt).

(** [connected_client] with frame consumer 11 and audio consumer 12. *)
Definition listening_client : WebRTCClient.t :=
  WebRTCClient.set_on_audio_callback (Some 12%nat)
    (WebRTCClient.set_on_frame_callback (Some 11%nat) connected_client).

(** *** The control session *)

(** The client and the trace once [_make_request] has made sure there is
    a session. *)
Definition session_ready (O : oracle) (c : RESTClient.t) (tr : list event)
    : RESTClient.t * list event :=
  match RESTClient.session c with
  | None =>
      (RESTClient.set_session (Some (o_session_new O (length tr))) c,
       tr ++ [EvSessionNew; EvLog INFO "REST client session created"])
  | Some _ => (c, tr)
  end.

(** [urljoin] on a base without a path and an absolute endpoint. *)
Definition concat_url (base endpoint : string) : result string :=
  Return (base +:+ endpoint).

(** As [calm], but the control plane answers every request with a 500. *)
Definition server_error : oracle :=
  constant_oracle (Return 7%nat) (Return tt) (Return tt) ([], IterStop)
    (Return tt) (Return tt)
    (Return {| status := 500; body_text := Return "Internal Server Error";
               body_json := Return (VDict ∅) |})
    (Return 1) (Return 42%nat) None (Return tt).

(** As [calm], but every request fails in the transport. *)
Definition network_down : oracle :=
  constant_oracle (Return 7%nat) (Return tt) (Return tt) ([], IterStop)
    (Return tt) (Return tt) (Raise (OtherException "Cannot connect to host"))
    (Return 1) (Return 42%nat) None (Return tt).

(** As [server_error], but the body of the 500 cannot be read. *)
Definition unreadable_error : oracle :=
  constant_oracle (Return 7%nat) (Return tt) (Return tt) ([], IterStop)
    (Return tt) (Return tt)
    (Return {| status := 500;
               body_text := Raise (OtherException "Response payload is not completed");
               body_json := Raise (OtherException "Response payload is not completed") |})
    (Return 1) (Return 42%nat) None (Return tt).

(** [urljoin] on a base it cannot parse, such as [http://[::1:3009]. *)
Definition bad_urljoin (base endpoint : string) : result string :=
  Raise (OtherException "Invalid IPv6 URL").

(** *** The orchestrator *)

(** Nothing is open: no transport, no session, no process handle in the
    components the environment holds. *)
Definition idle (env : IsaacSimEnvironment.t) : Prop :=
  (forall c, IsaacSimEnvironment.webrtc_client env = Some c ->
     WebRTCClient.websocket c = None) /\
  (forall c, IsaacSimEnvironment.rest_client env = Some c ->
     RESTClient.session c = None) /\
  (forall a, IsaacSimEnvironment.simulation_app env = Some a ->
     SimulationApp.process a = None).

(** The streaming client, the control client and the process controller
    are all torn down. *)
Definition torn_down (env : IsaacSimEnvironment.t) : Prop :=
  (forall c, IsaacSimEnvironment.webrtc_client env = Some c ->
     WebRTCClient.websocket c = None /\ WebRTCClient.is_connected c = false) /\
  (forall c, IsaacSimEnvironment.rest_client env = Some c ->
     RESTClient.session c = None) /\
  (forall a, IsaacSimEnvironment.simulation_app env = Some a ->
     SimulationApp.process a = None /\ SimulationApp.is_running a = false).

(** The environment of the scenario localhost, 9000, 4000, as
    constructed. *)
Definition fresh_env : IsaacSimEnvironment.t :=
  IsaacSimEnvironment.__init__ default_app "localhost" 9000 4000.

(** The same environment up and running: process 42, transport 1,
    session 5. *)
Definition ready_env : IsaacSimEnvironment.t :=
  {| IsaacSimEnvironment.simulation_app :=
       Some (SimulationApp.set_is_running true
               (SimulationApp.set_process (Some 42%nat) default_app));
     IsaacSimEnvironment.webrtc_client := Some connected_client;
     IsaacSimEnvironment.rest_client :=
       Some (RESTClient.set_session (Some 5%nat)
               (RESTClient.__init__ "localhost" 4000));
     IsaacSimEnvironment.is_initialized := true |}.

(** As [calm], but closing the streaming transport raises. *)
Definition close_failing : oracle :=
  constant_oracle (Return 7%nat) (Raise (OtherException "close failed"))
    (Return tt) ([], IterStop)
    (Return tt) (Return tt) (Return (ok_response ∅)) (Return 1) (Return 42%nat)
    None (Return tt).

(** As [calm], but closing the control session raises; but [terminate]
    raises; but [wait] raises. *)
Definition session_close_failing : oracle :=
  constant_oracle (Return 7%nat) (Return tt) (Return tt) ([], IterStop)
    (Return tt) (Raise (OtherException "session close failed"))
    (Return (ok_response ∅)) (Return 1) (Return 42%nat) None (Return tt).

Definition terminate_failing : oracle :=
  constant_oracle (Return 7%nat) (Return tt) (Return tt) ([], IterStop)
    (Return tt) (Return tt) (Return (ok_response ∅)) (Return 1) (Return 42%nat)
    None (Raise (OtherException "Permission denied")).

Definition wait_failing : oracle :=
  {| o_ws_connect := o_ws_connect calm;
     o_ws_close := o_ws_close calm;
     o_ws_send := o_ws_send calm;
     o_ws_inbound := o_ws_inbound calm;
     o_callback := o_callback calm;
     o_session_new := o_session_new calm;
     o_session_close := o_session_close calm;
     o_http := o_http calm;
     o_pgrep := o_pgrep calm;
     o_popen := o_popen calm;
     o_poll := o_poll calm;
     o_terminate := o_terminate calm;
     o_wait := fun _ => Raise (OtherException "No child processes") |}.

(** The running environment once its streaming client is disconnected,
    and once its control client is too. *)
Definition stream_closed_env : IsaacSimEnvironment.t :=
  IsaacSimEnvironment.set_webrtc_client
    (Some (WebRTCClient.set_is_connected false
             (WebRTCClient.set_websocket None connected_client)))
    ready_env.

Definition clients_closed_env : IsaacSimEnvironment.t :=
  IsaacSimEnvironment.set_rest_client
    (Some (RESTClient.__init__ "localhost" 4000)) stream_closed_env.

(** In that world: the environment is initialised, then cleaned up. *)
Definition initialized : result bool * IsaacSimEnvironment.t * list event :=
  IsaacSimEnvironment.initialize close_failing fresh_env [].

Definition cleaned_up : result unit * IsaacSimEnvironment.t * list event :=
  IsaacSimEnvironment.cleanup close_failing (Py.state initialized)
    (Py.trace initialized).


(** *** Further vocabulary *)

(** The number of messages read from the transport in a trace. *)
Fixpoint received (evs : list event) : nat :=
  match evs with
  | [] => 0
  | EvWsRecv _ :: rest => S (received rest)
  | _ :: rest => received rest
  end.

(** The number of HTTP requests, and of sessions created, in a trace. *)
Fixpoint requests (evs : list event) : nat :=
  match evs with
  | [] => 0
  | EvHttpRequest _ _ _ _ :: rest => S (requests rest)
  | _ :: rest => requests rest
  end.

Fixpoint sessions_created (evs : list event) : nat :=
  match evs with
  | [] => 0
  | EvSessionNew :: rest => S (sessions_created rest)
  | _ :: rest => sessions_created rest
  end.

(** Two streaming clients with the same endpoint. *)
Definition same_endpoint (c c' : WebRTCClient.t) : Prop :=
  WebRTCClient.host c' = WebRTCClient.host c /\
  WebRTCClient.port c' = WebRTCClient.port c /\
  WebRTCClient.base_url c' = WebRTCClient.base_url c /\
  WebRTCClient.webrtc_url c' = WebRTCClient.webrtc_url c.

(** The calls of the control client on the remote API. *)
Inductive api_call : Type :=
| GetVersion
| GetHealth
| GetStatus
| StartSimulation (config : option (gmap string pyval))
| StopSimulation
| PauseSimulation
| ResumeSimulation
| GetSimulationStatus
| LoadScene (scene_path : string)
| GetSceneInfo
| SetCamera (camera_config : gmap string pyval)
| GetCameraInfo
| SetLighting (lighting_config : gmap string pyval)
| GetLightingInfo
| GetPhysicsInfo
| SetPhysicsConfig (physics_config : gmap string pyval)
| GetEntities
| CreateEntity (entity_config : gmap string pyval)
| DeleteEntity (entity_id : string)
| GetLogs (level : string) (limit : Z).

Definition perform (O : oracle) (urljoin : string -> string -> result string)
    (call : api_call) : Py.t RESTClient.t pyval :=
  match call with
  | GetVersion => RESTClient.get_version O urljoin
  | GetHealth => RESTClient.get_health O urljoin
  | GetStatus => RESTClient.get_status O urljoin
  | StartSimulation config => RESTClient.start_simulation O urljoin config
  | StopSimulation => RESTClient.stop_simulation O urljoin
  | PauseSimulation => RESTClient.pause_simulation O urljoin
  | ResumeSimulation => RESTClient.resume_simulation O urljoin
  | GetSimulationStatus => RESTClient.get_simulation_status O urljoin
  | LoadScene scene_path => RESTClient.load_scene O urljoin scene_path
  | GetSceneInfo => RESTClient.get_scene_info O urljoin
  | SetCamera cfg => RESTClient.set_camera O urljoin cfg
  | GetCameraInfo => RESTClient.get_camera_info O urljoin
  | SetLighting cfg => RESTClient.set_lighting O urljoin cfg
  | GetLightingInfo => RESTClient.get_lighting_info O urljoin
  | GetPhysicsInfo => RESTClient.get_physics_info O urljoin
  | SetPhysicsConfig cfg => RESTClient.set_physics_config O urljoin cfg
  | GetEntities => RESTClient.get_entities O urljoin
  | CreateEntity cfg => RESTClient.create_entity O urljoin cfg
  | DeleteEntity entity_id => RESTClient.delete_entity O urljoin entity_id
  | GetLogs level limit => RESTClient.get_logs O urljoin level limit
  end.

(** The method, the endpoint and the JSON payload of each call. *)
Definition api_method (call : api_call) : string :=
  match call with
  | GetVersion | GetHealth | GetStatus | GetSimulationStatus | GetSceneInfo
  | GetCameraInfo | GetLightingInfo | GetPhysicsInfo | GetEntities
  | GetLogs _ _ => "GET"
  | StartSimulation _ | StopSimulation | PauseSimulation | ResumeSimulation
  | LoadScene _ | SetCamera _ | SetLighting _ | SetPhysicsConfig _
  | CreateEntity _ => "POST"
  | DeleteEntity _ => "DELETE"
  end.

Definition api_endpoint (call : api_call) : string :=
  match call with
  | GetVersion => "/version"
  | GetHealth => "/health"
  | GetStatus => "/status"
  | StartSimulation _ => "/simulation/start"
  | StopSimulation => "/simulation/stop"
  | PauseSimulation => "/simulation/pause"
  | ResumeSimulation => "/simulation/resume"
  | GetSimulationStatus => "/simulation/status"
  | LoadScene _ => "/scene/load"
  | GetSceneInfo => "/scene/info"
  | SetCamera _ => "/camera/set"
  | GetCameraInfo => "/camera/info"
  | SetLighting _ => "/lighting/set"
  | GetLightingInfo => "/lighting/info"
  | GetPhysicsInfo => "/physics/info"
  | SetPhysicsConfig _ => "/physics/config"
  | GetEntities => "/entities"
  | CreateEntity _ => "/entities/create"
  | DeleteEntity entity_id => "/entities/" +:+ entity_id
  | GetLogs level limit =>
      "/logs?level=" +:+ level +:+ "&limit=" +:+ str_int limit
  end.

Definition api_body (call : api_call) : option (gmap string pyval) :=
  match call with
  | StartSimulation config => Some (RESTClient.or_empty config)
  | LoadScene scene_path => Some {[ "path" := VStr scene_path ]}
  | SetCamera cfg | SetLighting cfg | SetPhysicsConfig cfg
  | CreateEntity cfg => Some cfg
  | _ => None
  end.

(** The decoded body of a request that went through (status 200 and a
    readable JSON body); [None] for every other outcome. *)
Definition http_body (r : result response) : option pyval :=
  match r with
  | Return resp =>
      if Z.eqb (status resp) 200 then
        match body_json resp with
        | Return d => Some d
        | Raise _ => None
        end
      else None
  | Raise _ => None
  end.

(** The calls of the orchestrator that go straight to the control client
    and report a boolean. *)
Inductive control_call : Type :=
| CallStopSimulation
| CallLoadScene (scene_path : string)
| CallCreateEntity (entity_config : gmap string pyval)
| CallDeleteEntity (entity_id : string).

Definition issue (O : oracle) (urljoin : string -> string -> result string)
    (call : control_call) : Py.t IsaacSimEnvironment.t bool :=
  match call with
  | CallStopSimulation => IsaacSimEnvironment.stop_simulation O urljoin
  | CallLoadScene p => IsaacSimEnvironment.load_scene O urljoin p
  | CallCreateEntity cfg => IsaacSimEnvironment.create_entity O urljoin cfg
  | CallDeleteEntity i => IsaacSimEnvironment.delete_entity O urljoin i
  end.

(** The call on the control client each of them makes. *)
Definition api_of (call : control_call) : api_call :=
  match call with
  | CallStopSimulation => StopSimulation
  | CallLoadScene p => LoadScene p
  | CallCreateEntity cfg => CreateEntity cfg
  | CallDeleteEntity i => DeleteEntity i
  end.

(** What the orchestrator makes of a value of the control client:
    ['error' not in result], and [False] when that test raises. *)
Definition no_error (v : pyval) : bool :=
  match py_in "error" v with
  | Return b => negb b
  | Raise _ => false
  end.

(** As [calm], but [pgrep] finds a simulator already running. *)
Definition found_running : oracle :=
  constant_oracle (Return 7%nat) (Return tt) (Return tt) ([], IterStop)
    (Return tt) (Return tt) (Return (ok_response ∅)) (Return 0) (Return 42%nat)
    None (Return tt).

(** A control client of localhost:4000 holding session 5. *)
Definition open_client : RESTClient.t :=
  RESTClient.set_session (Some 5%nat) (RESTClient.__init__ "localhost" 4000).





(** An app that holds the handle of a launch that failed. *)
Definition failed_app : SimulationApp.t :=
  SimulationApp.set_process (Some 42%nat) default_app.

(** * Properties *)

Arguments SimulationApp.isaac_cmd : simpl never.
Arguments str_int : simpl never.
Arguments SimulationApp.start : simpl never.
Arguments WebRTCClient.connect : simpl never.
Arguments RESTClient.connect : simpl never.
Arguments RESTClient.start_simulation : simpl never.
Arguments RESTClient.stop_simulation : simpl never.
Arguments RESTClient.has_error : simpl never.

Ltac py_unfold :=
  unfold Py.bind, Py.try_except, Py.ret, Py.raise, Py.gets, Py.modify,
    Py.log, Py.emit, Py.call, Py.of_result, Py.on_attr in *.

(** Bring the ticks of successive external calls to the form
    [length tr + n]. *)
Ltac ticks :=
  repeat rewrite length_app in *; cbn [length] in *;
  repeat rewrite <- Nat.add_assoc in *; cbn [Nat.add] in *.

Ltac trace_eq := rewrite <- ?app_assoc; cbn [app]; try reflexivity.

(** Case analysis on whatever the computation inspects next. *)
Ltac py_cases :=
  repeat match goal with
         | |- context [match ?x with _ => _ end] =>
             lazymatch x with
             | context [match _ with _ => _ end] => fail
             | _ => destruct x eqn:?; cbn
             end
         end.

(** ** The process controller *)

Section ProcessController.
Import SimulationApp.
Variable O : oracle.

Lemma start_running a tr :
  is_running a = true ->
  start O a tr =
    (Return true, a, tr ++ [EvLog WARNING "Isaac Sim 5.0 is already running"]).
Proof. intros Hr. unfold start. py_unfold. now rewrite Hr. Qed.

Lemma start_adopt a tr :
  is_running a = false ->
  o_pgrep O (length tr) = Return 0 ->
  start O a tr =
    (Return true, set_is_running true a,
     tr ++ [EvPgrep; EvLog INFO "Isaac Sim 5.0 is already running"]).
Proof.
  intros Hr Hp. unfold start, _is_isaac_running. py_unfold.
  rewrite Hr, Hp. cbn. trace_eq.
Qed.

Lemma start_launch a tr p :
  is_running a = false ->
  o_pgrep O (length tr) <> Return 0 ->
  o_popen O (length tr + 2)%nat = Return p ->
  start O a tr =
    match o_poll O (length tr + 4)%nat with
    | None =>
        (Return true, set_is_running true (set_process (Some p) a),
         tr ++ launch_events a p ++
           [EvLog INFO "Isaac Sim 5.0 started successfully"])
    | Some _ =>
        (Return false, set_process (Some p) a,
         tr ++ launch_events a p ++
           [EvLog ERROR "Isaac Sim 5.0 failed to start"])
    end.
Proof.
  intros Hr Hp Hq. unfold start, _is_isaac_running, poll, launch_events.
  py_unfold. rewrite Hr.
  destruct (o_pgrep O (length tr)) as [z|e] eqn:E.
  - destruct (Z.eqb_spec z 0) as [->|Hz]; [congruence|].
    cbn. ticks. rewrite Hq. cbn. ticks.
    destruct (o_poll O (length tr + 4)); cbn; trace_eq.
  - cbn. ticks. rewrite Hq. cbn. ticks.
    destruct (o_poll O (length tr + 4)); cbn; trace_eq.
Qed.

Lemma start_launch_error a tr e :
  is_running a = false ->
  o_pgrep O (length tr) <> Return 0 ->
  o_popen O (length tr + 2)%nat = Raise e ->
  start O a tr =
    (Return false, a,
     tr ++ [ EvPgrep;
             EvLog INFO "Starting Isaac Sim 5.0 with command: {' '.join(isaac_cmd)}";
             EvPopen (isaac_cmd a);
             EvLog ERROR "Error starting Isaac Sim 5.0: {e}" ]).
Proof.
  intros Hr Hp Hq. unfold start, _is_isaac_running, poll. py_unfold.
  rewrite Hr.
  destruct (o_pgrep O (length tr)) as [z|e'] eqn:E.
  - destruct (Z.eqb_spec z 0) as [->|Hz]; [congruence|].
    cbn. ticks. rewrite Hq. cbn. trace_eq.
  - cbn. ticks. rewrite Hq. cbn. trace_eq.
Qed.

(** [start] never raises: whatever the outside world does it returns a
    boolean. *)
Lemma start_returns a tr :
  exists b a' evs, start O a tr = (Return b, a', tr ++ evs).
Proof.
  destruct (is_running a) eqn:Hr.
  { rewrite start_running by done. eauto. }
  assert (o_pgrep O (length tr) = Return 0 \/
          o_pgrep O (length tr) <> Return 0) as [Hp|Hp].
  { destruct (o_pgrep O (length tr)) as [z|e]; [|right; congruence].
    destruct (decide (z = 0)) as [->|Hz]; [left|right]; congruence. }
  { rewrite start_adopt by done. eauto. }
  destruct (o_popen O (length tr + 2)%nat) as [p|e] eqn:Hq.
  - rewrite (start_launch a tr p) by done.
    destruct (o_poll O (length tr + 4)); eauto.
  - rewrite (start_launch_error a tr e) by done. eauto.
Qed.

(** C9. [start] is a no-op success when already running; it adopts an
    external instance that [pgrep] finds, without launching; otherwise it
    launches the process once, sleeps the fixed two seconds, polls the
    process exactly once, and returns [False] when the process has exited
    and [True] when it is alive; an exception of the launch becomes a
    [False] return.  In no case does [start] raise. *)
Theorem start_contract a tr :
  (exists b a' evs, start O a tr = (Return b, a', tr ++ evs)) /\
  (is_running a = true ->
   start O a tr =
     (Return true, a,
      tr ++ [EvLog WARNING "Isaac Sim 5.0 is already running"])) /\
  (is_running a = false ->
   o_pgrep O (length tr) = Return 0 ->
   start O a tr =
     (Return true, set_is_running true a,
      tr ++ [EvPgrep; EvLog INFO "Isaac Sim 5.0 is already running"])) /\
  (forall p,
   is_running a = false ->
   o_pgrep O (length tr) <> Return 0 ->
   o_popen O (length tr + 2)%nat = Return p ->
   start O a tr =
     match o_poll O (length tr + 4)%nat with
     | None =>
         (Return true, set_is_running true (set_process (Some p) a),
          tr ++ launch_events a p ++
            [EvLog INFO "Isaac Sim 5.0 started successfully"])
     | Some _ =>
         (Return false, set_process (Some p) a,
          tr ++ launch_events a p ++
            [EvLog ERROR "Isaac Sim 5.0 failed to start"])
     end) /\
  (forall e,
   is_running a = false ->
   o_pgrep O (length tr) <> Return 0 ->
   o_popen O (length tr + 2)%nat = Raise e ->
   start O a tr =
     (Return false, a,
      tr ++ [ EvPgrep;
              EvLog INFO "Starting Isaac Sim 5.0 with command: {' '.join(isaac_cmd)}";
              EvPopen (isaac_cmd a);
              EvLog ERROR "Error starting Isaac Sim 5.0: {e}" ])).
Proof.
  split; [apply start_returns|].
  split; [apply start_running|].
  split; [apply start_adopt|].
  split; [intros p; apply start_launch|intros e; apply start_launch_error].
Qed.

End ProcessController.

(** A process that exits right after the launch: one launch, one sleep, one
    probe, and [False]. *)
Lemma start_contract_witness :
  SimulationApp.start crashing default_app [] =
    (Return false, SimulationApp.set_process (Some 42%nat) default_app,
     launch_events default_app 42%nat ++
       [EvLog ERROR "Isaac Sim 5.0 failed to start"]).
Proof.
  destruct (start_contract crashing default_app []) as (_ & _ & _ & H & _).
  apply (H 42%nat); [reflexivity | discriminate | reflexivity].
Defined.

(** ** The streaming session *)

Section StreamingSession.
Import WebRTCClient.
Variable O : oracle.

Lemma calls_app evs1 evs2 : calls (evs1 ++ evs2) = calls evs1 ++ calls evs2.
Proof.
  induction evs1 as [|ev evs1 IH]; [reflexivity|].
  destruct ev; cbn; rewrite ?IH; reflexivity.
Qed.

Lemma connect_ok c tr ws :
  o_ws_connect O (length tr + 1)%nat = Return ws ->
  connect O c tr =
    (Return true, set_is_connected true (set_websocket (Some ws) c),
     tr ++ [ EvLog INFO "Connecting to WebRTC service at {self.webrtc_url}";
             EvWsConnect (webrtc_url c);
             EvLog INFO "WebRTC connection established" ]).
Proof.
  intros H. unfold connect. py_unfold. ticks. rewrite H. cbn. trace_eq.
Qed.

Lemma connect_fail c tr e :
  o_ws_connect O (length tr + 1)%nat = Raise e ->
  connect O c tr =
    (Return false, set_is_connected false c,
     tr ++ [ EvLog INFO "Connecting to WebRTC service at {self.webrtc_url}";
             EvWsConnect (webrtc_url c);
             EvLog ERROR "Failed to connect to WebRTC service: {e}" ]).
Proof.
  intros H. unfold connect. py_unfold. ticks. rewrite H. cbn. trace_eq.
Qed.

(** [send_message] returns without raising and leaves the client as it
    is, whatever the transport does. *)
Lemma send_message_frame m c tr :
  exists evs, send_message O m c tr = (Return tt, c, tr ++ evs) /\
    (forall url, ~ In (EvWsConnect url) evs) /\
    (forall ws, is_connected c = true -> websocket c = Some ws ->
       exists evs', evs = EvWsSend ws m :: evs').
Proof.
  unfold send_message. py_unfold.
  destruct (is_connected c) eqn:Hc; [destruct (websocket c) as [ws|] eqn:Hw|].
  - destruct (o_ws_send O (length tr)) as [[]|e]; cbn;
      rewrite <- ?app_assoc; cbn [app];
      (eexists; split; [reflexivity|split]);
      [ intros url [?|[?|[]]]; discriminate
      | intros ws' _ [= <-]; eauto
      | intros url [?|[?|[]]]; discriminate
      | intros ws' _ [= <-]; eauto ].
  - eexists; split; [reflexivity|split].
    + intros url [?|[]]; discriminate.
    + intros ws' _ ?; discriminate.
  - eexists; split; [reflexivity|split].
    + intros url [?|[]]; discriminate.
    + intros ws' ?; discriminate.
Qed.

(** One inbound message: the handler never lets an exception out, leaves
    the client as it is, and invokes the consumers the dispatch table
    names, whether or not the consumer itself raises. *)
Lemma on_message_calls m c tr :
  exists evs, on_message O m c tr = (Return tt, c, tr ++ evs) /\
    calls evs = expected_calls c m.
Proof.
  unfold on_message, _handle_message, expected_calls, py_get. py_unfold.
  destruct m as [data|e].
  2:{ destruct e; eexists; split; reflexivity. }
  destruct data as [| | | | | |d];
    try (eexists; split; reflexivity).
  destruct (eq_str (default VNone (d !! "type")) "frame").
  { destruct (on_frame_callback c) as [f|].
    - destruct (o_callback O (length tr)) as [[]|e];
        [|destruct e]; eexists; split; try reflexivity;
        rewrite <- ?app_assoc; reflexivity.
    - exists []. rewrite app_nil_r. split; reflexivity. }
  destruct (eq_str (default VNone (d !! "type")) "audio").
  { destruct (on_audio_callback c) as [f|].
    - destruct (o_callback O (length tr)) as [[]|e];
        [|destruct e]; eexists; split; try reflexivity;
        rewrite <- ?app_assoc; reflexivity.
    - exists []. rewrite app_nil_r. split; reflexivity. }
  destruct (eq_str (default VNone (d !! "type")) "status");
    eexists; split; reflexivity.
Qed.

Lemma for_each_calls ws msgs c tr :
  exists evs, for_each O ws msgs c tr = (Return tt, c, tr ++ evs) /\
    calls evs = flat_map (expected_calls c) msgs.
Proof.
  revert tr. induction msgs as [|m msgs IH]; intros tr.
  - exists []. rewrite app_nil_r. split; reflexivity.
  - cbn [for_each flat_map]. unfold Py.bind at 1 2, Py.emit.
    destruct (on_message_calls m c (tr ++ [EvWsRecv ws])) as (evs1 & -> & H1).
    destruct (IH ((tr ++ [EvWsRecv ws]) ++ evs1)) as (evs2 & -> & H2).
    exists (EvWsRecv ws :: evs1 ++ evs2). split.
    + rewrite <- !app_assoc. reflexivity.
    + cbn. rewrite calls_app, H1, H2. reflexivity.
Qed.

(** The receive loop on a connected client: it returns, and only a closed
    connection changes the client. *)
Lemma receive_messages_connected c tr ws :
  is_connected c = true -> websocket c = Some ws ->
  exists evs,
    receive_messages O c tr =
      (Return tt,
       match (o_ws_inbound O (length tr)).2 with
       | IterRaise (ConnectionClosed _) => set_is_connected false c
       | _ => c
       end,
       tr ++ EvWsIter ws :: evs) /\
    calls evs = flat_map (expected_calls c) (o_ws_inbound O (length tr)).1.
Proof.
  intros Hc Hw. unfold receive_messages, async_for.
  unfold Py.bind at 1 2, Py.gets. rewrite Hc, Hw.
  unfold Py.try_except, Py.bind.
  destruct (for_each_calls ws (o_ws_inbound O (length tr)).1 c
              (tr ++ [EvWsIter ws])) as (evs & -> & HC).
  destruct (o_ws_inbound O (length tr)).2 as [|e].
  - exists evs. cbn. rewrite <- app_assoc. split; [reflexivity|exact HC].
  - destruct e; py_unfold; cbn; eexists;
      (split; [rewrite <- !app_assoc; cbn [app]; reflexivity|]);
      rewrite calls_app, HC; cbn; apply app_nil_r.
Qed.

Lemma receive_messages_not_connected c tr :
  is_connected c = false \/ websocket c = None ->
  receive_messages O c tr =
    (Return tt, c, tr ++ [EvLog ERROR "Not connected to WebRTC service"]).
Proof.
  intros H. unfold receive_messages. py_unfold.
  destruct (is_connected c), (websocket c); destruct H; try discriminate;
    reflexivity.
Qed.

Lemma start_streaming_connected c tr :
  is_connected c = true ->
  exists evs, start_streaming O c tr = (Return true, c, tr ++ evs) /\
    (forall url, ~ In (EvWsConnect url) evs) /\
    (forall ws, websocket c = Some ws ->
       exists evs', evs = EvWsSend ws start_message :: evs').
Proof.
  intros Hc. unfold start_streaming.
  unfold Py.bind at 1, Py.gets. rewrite Hc. cbn [negb].
  destruct (send_message_frame start_message c tr) as (evs & Hs & Hn & Hw).
  unfold Py.bind at 1. rewrite Hs. py_unfold.
  exists (evs ++ [EvLog INFO "Started WebRTC streaming"]).
  split; [now rewrite app_assoc|split].
  - intros url [H|[H|[]]]%in_app_or; [now apply (Hn url)|discriminate].
  - intros ws Hws. destruct (Hw ws Hc Hws) as (evs' & ->). eauto.
Qed.

Lemma start_streaming_connects c tr ws :
  is_connected c = false ->
  o_ws_connect O (length tr + 1)%nat = Return ws ->
  exists evs,
    start_streaming O c tr =
      (Return true, set_is_connected true (set_websocket (Some ws) c),
       tr ++ [ EvLog INFO "Connecting to WebRTC service at {self.webrtc_url}";
               EvWsConnect (webrtc_url c);
               EvLog INFO "WebRTC connection established" ] ++
         EvWsSend ws start_message :: evs).
Proof.
  intros Hc Ho. unfold start_streaming.
  unfold Py.bind at 1, Py.gets. rewrite Hc. cbn [negb].
  unfold Py.bind at 1. rewrite (connect_ok c tr ws Ho). cbn [negb].
  unfold Py.bind at 1.
  match goal with
  | |- context [send_message O ?m ?c' ?tr'] =>
      destruct (send_message_frame m c' tr') as (evs & Hs & _ & Hw)
  end.
  destruct (Hw ws eq_refl eq_refl) as (evs' & ->).
  rewrite Hs. py_unfold.
  exists (evs' ++ [EvLog INFO "Started WebRTC streaming"]).
  rewrite <- !app_assoc. reflexivity.
Qed.

Lemma start_streaming_connect_fails c tr e :
  is_connected c = false ->
  o_ws_connect O (length tr + 1)%nat = Raise e ->
  start_streaming O c tr =
    (Return false, set_is_connected false c,
     tr ++ [ EvLog INFO "Connecting to WebRTC service at {self.webrtc_url}";
             EvWsConnect (webrtc_url c);
             EvLog ERROR "Failed to connect to WebRTC service: {e}" ]).
Proof.
  intros Hc Ho. unfold start_streaming.
  unfold Py.bind at 1, Py.gets. rewrite Hc. cbn [negb].
  unfold Py.bind at 1. rewrite (connect_fail c tr e Ho). reflexivity.
Qed.

(** [start_streaming] on a client that satisfies the invariant. *)
Lemma start_streaming_cases c tr :
  transport_present c ->
  (exists b, Py.value (start_streaming O c tr) = Return b) /\
  (Py.value (start_streaming O c tr) = Return false <->
   is_connected c = false /\
   exists e, o_ws_connect O (length tr + 1)%nat = Raise e) /\
  (Py.value (start_streaming O c tr) <> Return false ->
   Py.value (start_streaming O c tr) = Return true /\
   exists ws evs evs',
     websocket (Py.state (start_streaming O c tr)) = Some ws /\
     Py.trace (start_streaming O c tr) =
       tr ++ evs ++ EvWsSend ws start_message :: evs').
Proof.
  intros Hinv.
  destruct (is_connected c) eqn:Hc.
  - destruct (Hinv Hc) as (ws & Hws).
    destruct (start_streaming_connected c tr Hc) as (evs & -> & _ & Hw).
    destruct (Hw ws Hws) as (evs' & ->). cbn.
    split; [eauto|split; [split|]].
    + discriminate.
    + intros [? _]; discriminate.
    + intros _. split; [reflexivity|]. exists ws, [], evs'. now split.
  - destruct (o_ws_connect O (length tr + 1)%nat) as [ws|e] eqn:Ho.
    + destruct (start_streaming_connects c tr ws Hc Ho) as (evs & ->). cbn.
      split; [eauto|split; [split|]].
      * discriminate.
      * intros [_ [e ?]]; discriminate.
      * intros _. split; [reflexivity|]. exists ws; eexists [_; _; _], evs. split; reflexivity.
    + rewrite (start_streaming_connect_fails c tr e Hc Ho). cbn.
      split; [eauto|split; [split|]].
      * eauto.
      * reflexivity.
      * intros H; now destruct H.
Qed.

Lemma disconnect_state c tr :
  Py.state (disconnect O c tr) = c \/
  is_connected (Py.state (disconnect O c tr)) = false.
Proof.
  unfold disconnect. py_unfold.
  destruct (websocket c) as [ws|]; [|right; reflexivity].
  destruct (o_ws_close O (length tr)) as [[]|e]; [right|left]; reflexivity.
Qed.

Lemma stop_streaming_state c tr :
  exists evs, stop_streaming O c tr = (Return tt, c, tr ++ evs).
Proof.
  unfold stop_streaming. unfold Py.bind at 1, Py.gets.
  destruct (is_connected c).
  - destruct (send_message_frame stop_message c tr) as (evs & Hs & _).
    unfold Py.bind. rewrite Hs. py_unfold.
    eexists. rewrite <- app_assoc. reflexivity.
  - exists []. now rewrite app_nil_r.
Qed.

(** Every operation keeps the invariant, whether it returns or raises. *)
Lemma exec_transport_present o c tr :
  transport_present c -> transport_present (exec O o c tr).1.
Proof.
  intros Hinv. destruct o; cbn [exec fst].
  - destruct (o_ws_connect O (length tr + 1)%nat) as [ws|e] eqn:Ho.
    + rewrite (connect_ok c tr ws Ho). intros _. cbn. eauto.
    + rewrite (connect_fail c tr e Ho). intros H. discriminate.
  - destruct (disconnect_state c tr) as [->|H]; [exact Hinv|].
    intros H'. congruence.
  - destruct (send_message_frame message c tr) as (evs & -> & _).
    exact Hinv.
  - destruct (is_connected c) eqn:Hc.
    + destruct (Hinv Hc) as (ws & Hws).
      destruct (receive_messages_connected c tr ws Hc Hws) as (evs & -> & _).
      cbn. destruct (o_ws_inbound O (length tr)).2 as [|[]]; try exact Hinv.
      intros H. discriminate.
    + rewrite receive_messages_not_connected by (now left). exact Hinv.
  - destruct (is_connected c) eqn:Hc.
    + destruct (start_streaming_connected c tr Hc) as (evs & -> & _).
      exact Hinv.
    + destruct (o_ws_connect O (length tr + 1)%nat) as [ws|e] eqn:Ho.
      * destruct (start_streaming_connects c tr ws Hc Ho) as (evs & ->).
        intros _. cbn. eauto.
      * rewrite (start_streaming_connect_fails c tr e Hc Ho).
        intros H. discriminate.
  - destruct (stop_streaming_state c tr) as (evs & ->). exact Hinv.
  - exact Hinv.
  - exact Hinv.
Qed.

Lemma run_transport_present ops c tr :
  transport_present c -> transport_present (run O ops c tr).1.
Proof.
  revert c tr. induction ops as [|o ops IH]; intros c tr Hinv; [exact Hinv|].
  cbn [run]. apply IH, exec_transport_present, Hinv.
Qed.

(** C10. From the freshly constructed client, after every sequence of
    operations (whatever the outside world answers, and whether each
    operation returns or raises), a client marked connected holds a
    transport handle. *)
Theorem connected_has_transport host port ops :
  is_connected (run O ops (__init__ host port) []).1 = true ->
  is_Some (websocket (run O ops (__init__ host port) []).1).
Proof.
  apply run_transport_present. intros H. discriminate.
Qed.

(** C8. In every state the client can reach from its construction,
    [start_streaming] returns [False] exactly when the client is not
    connected and the connect it then makes fails; in every other case it
    hands the begin-streaming message to the transport and returns [True],
    whatever the send does.  It never raises. *)
Theorem start_streaming_contract host port ops :
  let c := (run O ops (__init__ host port) []).1 in
  let tr := (run O ops (__init__ host port) []).2 in
  (exists b, Py.value (start_streaming O c tr) = Return b) /\
  (Py.value (start_streaming O c tr) = Return false <->
   is_connected c = false /\
   exists e, o_ws_connect O (length tr + 1)%nat = Raise e) /\
  (Py.value (start_streaming O c tr) <> Return false ->
   Py.value (start_streaming O c tr) = Return true /\
   exists ws evs evs',
     websocket (Py.state (start_streaming O c tr)) = Some ws /\
     Py.trace (start_streaming O c tr) =
       tr ++ evs ++ EvWsSend ws start_message :: evs').
Proof.
  cbv zeta. apply start_streaming_cases, run_transport_present.
  intros H. discriminate.
Qed.

(** C3, as the code has it.  When the iteration over the transport ends
    with an exception, the receive loop returns without raising; a
    [ConnectionClosed] leaves the client marked disconnected, and any
    other exception is only logged: the client stays marked connected and
    keeps its transport handle. *)
Theorem receive_loop_end c tr ws e :
  is_connected c = true ->
  websocket c = Some ws ->
  (o_ws_inbound O (length tr)).2 = IterRaise e ->
  Py.value (receive_messages O c tr) = Return tt /\
  websocket (Py.state (receive_messages O c tr)) = Some ws /\
  is_connected (Py.state (receive_messages O c tr)) =
    match e with
    | ConnectionClosed _ => false
    | _ => true
    end.
Proof.
  intros Hc Hw He.
  destruct (receive_messages_connected c tr ws Hc Hw) as (evs & -> & _).
  rewrite He. cbn. destruct e; cbn; auto.
Qed.

(** C4, as the code has it.  [start_streaming] on a connected client makes
    no connect: it returns [True] with the client, transport handle
    included, exactly as it was, and a [start_streaming] that returned
    [True] leaves the client connected, so a second one in a row opens
    nothing.  [connect] itself always opens a transport: on a connected
    client a successful open replaces the handle, a failed one marks the
    client disconnected. *)
Theorem connect_when_connected c tr :
  (is_connected c = true ->
   exists evs, start_streaming O c tr = (Return true, c, tr ++ evs) /\
     forall url, ~ In (EvWsConnect url) evs) /\
  (Py.value (start_streaming O c tr) = Return true ->
   is_connected (Py.state (start_streaming O c tr)) = true) /\
  (forall ws, is_connected c = true ->
   o_ws_connect O (length tr + 1)%nat = Return ws ->
   connect O c tr =
     (Return true, set_is_connected true (set_websocket (Some ws) c),
      tr ++ [ EvLog INFO "Connecting to WebRTC service at {self.webrtc_url}";
              EvWsConnect (webrtc_url c);
              EvLog INFO "WebRTC connection established" ])) /\
  (forall e, is_connected c = true ->
   o_ws_connect O (length tr + 1)%nat = Raise e ->
   connect O c tr =
     (Return false, set_is_connected false c,
      tr ++ [ EvLog INFO "Connecting to WebRTC service at {self.webrtc_url}";
              EvWsConnect (webrtc_url c);
              EvLog ERROR "Failed to connect to WebRTC service: {e}" ])).
Proof.
  split; [|split; [|split]].
  - intros Hc.
    destruct (start_streaming_connected c tr Hc) as (evs & H & Hn & _).
    eauto.
  - destruct (is_connected c) eqn:Hc.
    + destruct (start_streaming_connected c tr Hc) as (evs & -> & _).
      intros _. exact Hc.
    + destruct (o_ws_connect O (length tr + 1)%nat) as [ws|e] eqn:Ho.
      * destruct (start_streaming_connects c tr ws Hc Ho) as (evs & ->).
        reflexivity.
      * rewrite (start_streaming_connect_fails c tr e Hc Ho). discriminate.
  - intros ws _. apply connect_ok.
  - intros e _. apply connect_fail.
Qed.

(** C7. [_handle_message] invokes, for a message tagged [frame], the
    registered frame consumer and nothing else, with the message's [frame]
    payload; for a message tagged [audio], the registered audio consumer
    with the [audio] payload; for [status] and every other tag no consumer,
    only a log line.  The receive loop handles the messages one after the
    other, so on the inbound sequence frame, audio, status, unknown the
    consumer invocations are exactly one of the frame consumer followed by
    one of the audio consumer, whether or not a consumer raises. *)
Theorem dispatch_contract c tr :
  (forall d f,
   d !! "type" = Some (VStr "frame") ->
   on_frame_callback c = Some f ->
   _handle_message O (VDict d) c tr =
     (o_callback O (length tr), c,
      tr ++ [EvCallback f (default VNone (d !! "frame"))])) /\
  (forall d f,
   d !! "type" = Some (VStr "audio") ->
   on_audio_callback c = Some f ->
   _handle_message O (VDict d) c tr =
     (o_callback O (length tr), c,
      tr ++ [EvCallback f (default VNone (d !! "audio"))])) /\
  (forall d,
   eq_str (default VNone (d !! "type")) "frame" = false ->
   eq_str (default VNone (d !! "type")) "audio" = false ->
   exists l template,
     _handle_message O (VDict d) c tr =
       (Return tt, c, tr ++ [EvLog l template])) /\
  (forall ws f a df da ds du fin,
   is_connected c = true ->
   websocket c = Some ws ->
   on_frame_callback c = Some f ->
   on_audio_callback c = Some a ->
   df !! "type" = Some (VStr "frame") ->
   da !! "type" = Some (VStr "audio") ->
   ds !! "type" = Some (VStr "status") ->
   eq_str (default VNone (du !! "type")) "frame" = false ->
   eq_str (default VNone (du !! "type")) "audio" = false ->
   o_ws_inbound O (length tr) =
     ([Return (VDict df); Return (VDict da); Return (VDict ds);
       Return (VDict du)], fin) ->
   exists c' evs,
     receive_messages O c tr = (Return tt, c', tr ++ evs) /\
     calls evs =
       [(f, default VNone (df !! "frame"));
        (a, default VNone (da !! "audio"))]).
Proof.
  split; [|split; [|split]].
  - intros d f Ht Hf. unfold _handle_message, py_get. py_unfold.
    rewrite Ht. cbn. rewrite Hf. reflexivity.
  - intros d f Ht Hf. unfold _handle_message, py_get. py_unfold.
    rewrite Ht. cbn. rewrite Hf. reflexivity.
  - intros d Hf Ha. unfold _handle_message, py_get. py_unfold.
    rewrite Hf, Ha.
    destruct (eq_str (default VNone (d !! "type")) "status"); eauto.
  - intros ws f a df da ds du fin Hc Hw Hf Ha Tf Ta Ts Tu1 Tu2 Hin.
    destruct (receive_messages_connected c tr ws Hc Hw) as (evs & -> & HC).
    rewrite Hin in HC. eexists _, (EvWsIter ws :: evs).
    split; [reflexivity|].
    cbn [calls]. rewrite HC. cbn [flat_map fst expected_calls].
    rewrite Tf, Ta, Ts, Tu1, Tu2, Hf, Ha. reflexivity.
Qed.

End StreamingSession.

(** The loop ends on a closed connection: the client is marked
    disconnected. *)
Lemma receive_loop_end_witness :
  WebRTCClient.is_connected
    (Py.state (WebRTCClient.receive_messages closing_iteration
                 connected_client [])) = false.
Proof.
  destruct (receive_loop_end closing_iteration connected_client [] 1%nat
              (ConnectionClosed "closed") eq_refl eq_refl eq_refl)
    as (_ & _ & H).
  exact H.
Defined.

(** C3 as stated fails.  The client connects, and the iteration over the
    transport ends with an exception that is not a closed connection: the
    loop logs it and returns, and the client is still marked connected. *)
Lemma receive_error_stays_connected :
  WebRTCClient.is_connected failed_receive.1 = true /\
  failed_receive.2 =
    [ EvLog INFO "Connecting to WebRTC service at {self.webrtc_url}";
      EvWsConnect "ws://localhost:9000/streaming/webrtc";
      EvLog INFO "WebRTC connection established";
      EvWsIter 7%nat;
      EvLog ERROR "Error receiving messages: {e}" ].
Proof. repeat split. Qed.

(** A [start_streaming] on the connected client leaves it untouched. *)
Lemma connect_when_connected_witness :
  exists evs,
    WebRTCClient.start_streaming calm connected_client [] =
      (Return true, connected_client, [] ++ evs) /\
    forall url, ~ In (EvWsConnect url) evs.
Proof.
  destruct (connect_when_connected calm connected_client []) as (H & _).
  apply H. reflexivity.
Defined.

(** C4 as stated fails.  [connect] on a client connected over transport 1
    opens another transport and puts its handle in place of the first; two
    connects in a row open two transports. *)
Lemma connect_replaces_transport :
  WebRTCClient.is_connected connected_client = true /\
  WebRTCClient.websocket connected_client = Some 1%nat /\
  WebRTCClient.websocket
    (Py.state (WebRTCClient.connect calm connected_client [])) = Some 7%nat /\
  (run calm [OpConnect; OpConnect]
     (WebRTCClient.__init__ "localhost" 9000) []).2 =
    [ EvLog INFO "Connecting to WebRTC service at {self.webrtc_url}";
      EvWsConnect "ws://localhost:9000/streaming/webrtc";
      EvLog INFO "WebRTC connection established";
      EvLog INFO "Connecting to WebRTC service at {self.webrtc_url}";
      EvWsConnect "ws://localhost:9000/streaming/webrtc";
      EvLog INFO "WebRTC connection established" ].
Proof. repeat split. Qed.

(** frame, audio, status, unknown with raising consumers: consumer 11 once
    with the frame, then consumer 12 once with the audio. *)
Lemma dispatch_contract_witness :
  exists c' evs,
    WebRTCClient.receive_messages four_messages listening_client [] =
      (Return tt, c', [] ++ evs) /\
    calls evs = [(11%nat, VStr "f0"); (12%nat, VStr "a0")].
Proof.
  destruct (dispatch_contract four_messages listening_client [])
    as (_ & _ & _ & H).
  apply (H 1%nat 11%nat 12%nat frame_msg audio_msg status_msg unknown_msg
           IterStop); reflexivity.
Defined.

(** After a connect, the send of the begin-streaming message fails and
    [start_streaming] still returns [True]; on the client as constructed,
    with no transport to open, it returns [False]. *)
Lemma start_streaming_contract_witness :
  Py.value
    (WebRTCClient.start_streaming send_failing
       (run send_failing [OpConnect]
          (WebRTCClient.__init__ "localhost" 9000) []).1
       (run send_failing [OpConnect]
          (WebRTCClient.__init__ "localhost" 9000) []).2)
    = Return true /\
  Py.value
    (WebRTCClient.start_streaming unreachable
       (run unreachable [] (WebRTCClient.__init__ "localhost" 9000) []).1
       (run unreachable [] (WebRTCClient.__init__ "localhost" 9000) []).2)
    = Return false.
Proof.
  split.
  - destruct (start_streaming_contract send_failing "localhost" 9000
                [OpConnect]) as (_ & _ & H).
    apply H. discriminate.
  - destruct (start_streaming_contract unreachable "localhost" 9000 [])
      as (_ & H & _).
    apply H. split; [reflexivity|]. eexists; reflexivity.
Defined.

(** After a successful connect the client is connected and has its
    transport. *)
Lemma connected_has_transport_witness :
  WebRTCClient.is_connected
    (run calm [OpConnect] (WebRTCClient.__init__ "localhost" 9000) []).1
    = true /\
  is_Some (WebRTCClient.websocket
    (run calm [OpConnect] (WebRTCClient.__init__ "localhost" 9000) []).1).
Proof.
  split; [reflexivity|].
  apply (connected_has_transport calm "localhost" 9000 [OpConnect]).
  reflexivity.
Defined.

(** ** The control session *)

Section ControlSession.
Import RESTClient.
Variable O : oracle.
Variable urljoin : string -> string -> result string.

Lemma has_error_error_value reason : has_error (error_value reason) = true.
Proof.
  unfold has_error, error_value. apply bool_decide_eq_true.
  rewrite lookup_singleton_eq. eauto.
Qed.

Lemma connect_returns c tr :
  exists c' evs, connect O c tr = (Return tt, c', tr ++ evs) /\
    is_Some (session c').
Proof.
  unfold connect. py_unfold. destruct (session c) as [h|] eqn:Hs.
  - exists c, []. rewrite app_nil_r, Hs. eauto.
  - eexists _, [_; _]. rewrite <- app_assoc. cbn. eauto.
Qed.

(** [_make_request] first makes sure there is a session, then builds the
    URL, which may raise; then it performs one request and turns its
    outcome into the returned value. *)
Lemma _make_request_unfold method endpoint data c tr :
  exists h, session (session_ready O c tr).1 = Some h /\
  _make_request O urljoin method endpoint data c tr =
    let c1 := (session_ready O c tr).1 in
    let tr1 := (session_ready O c tr).2 in
    match urljoin (base_url c) endpoint with
    | Raise e => (Raise e, c1, tr1)
    | Return url =>
        let ev := EvHttpRequest h method url data in
        match o_http O (length tr1) with
        | Return resp =>
            if Z.eqb (status resp) 200 then
              match body_json resp with
              | Return v => (Return v, c1, tr1 ++ [ev])
              | Raise e =>
                  (Return (VDict (error_value (str_exn e))), c1,
                   tr1 ++ [ev; EvLog ERROR "Request failed: {e}"])
              end
            else
              match body_text resp with
              | Return _ =>
                  (Return (VDict (error_value
                                    ("HTTP " +:+ str_int (status resp)))),
                   c1,
                   tr1 ++ [ev; EvLog ERROR
                             "HTTP {response.status}: {await response.text()}"])
              | Raise e =>
                  (Return (VDict (error_value (str_exn e))), c1,
                   tr1 ++ [ev; EvLog ERROR "Request failed: {e}"])
              end
        | Raise e =>
            (Return (VDict (error_value (str_exn e))), c1,
             tr1 ++ [ev; EvLog ERROR "Request failed: {e}"])
        end
    end.
Proof.
  unfold _make_request, session_ready, connect, request. py_unfold.
  destruct (session c) as [h|] eqn:Hs; cbn [fst snd set_session session base_url].
  - exists h. split; [exact Hs|].
    destruct (urljoin (base_url c) endpoint) as [url|e]; [|reflexivity].
    rewrite Hs.
    destruct (o_http O (length tr)) as [resp|e]; [|trace_eq].
    destruct (Z.eqb (status resp) 200).
    + destruct (body_json resp); trace_eq.
    + destruct (body_text resp); trace_eq.
  - eexists. split; [reflexivity|]. cbn. rewrite ?Hs. cbn.
    destruct (urljoin (base_url c) endpoint) as [url|e]; [|trace_eq].
    ticks.
    destruct (o_http O (length tr + 2)) as [resp|e]; [|trace_eq].
    destruct (Z.eqb (status resp) 200).
    + destruct (body_json resp); trace_eq.
    + destruct (body_text resp); trace_eq.
Qed.

(** C6, as the code has it.  For a request whose URL [urljoin] builds:
    the call returns a value and does not raise.  When the response has a
    status other than 200 and its text can be read, the value is exactly
    [{'error': 'HTTP <status>'}]; when the transport raises (in the
    request itself, or afterwards while the body is read: [text()] of a
    response that is not a 200, [json()] of a 200) the value is exactly
    [{'error': str(e)}]; these values have the ['error'] key. *)
Theorem request_contract method endpoint data c tr url :
  urljoin (base_url c) endpoint = Return url ->
  let tick := length (session_ready O c tr).2 in
  let result := Py.value (_make_request O urljoin method endpoint data c tr) in
  (exists v, result = Return v) /\
  (forall resp text,
   o_http O tick = Return resp ->
   status resp <> 200 ->
   body_text resp = Return text ->
   result =
     Return (VDict {[ "error" := VStr ("HTTP " +:+ str_int (status resp)) ]})) /\
  (forall e,
   o_http O tick = Raise e ->
   result = Return (VDict {[ "error" := VStr (str_exn e) ]})) /\
  (forall resp e,
   o_http O tick = Return resp ->
   status resp <> 200 ->
   body_text resp = Raise e ->
   result = Return (VDict {[ "error" := VStr (str_exn e) ]})) /\
  (forall resp e,
   o_http O tick = Return resp ->
   status resp = 200 ->
   body_json resp = Raise e ->
   result = Return (VDict {[ "error" := VStr (str_exn e) ]})) /\
  (forall reason,
   py_in "error" (VDict {[ "error" := VStr reason ]}) = Return true).
Proof.
  intros Hurl tick result. subst tick result.
  destruct (_make_request_unfold method endpoint data c tr) as (h & _ & ->).
  cbv zeta. rewrite Hurl.
  split; [|split; [|split; [|split; [|split]]]].
  - destruct (o_http O _) as [resp|e]; [|cbn; eauto].
    destruct (Z.eqb (status resp) 200).
    + destruct (body_json resp); cbn; eauto.
    + destruct (body_text resp); cbn; eauto.
  - intros resp text -> Hs Ht.
    destruct (Z.eqb_spec (status resp) 200) as [E|_]; [contradiction|].
    rewrite Ht. reflexivity.
  - intros e ->. reflexivity.
  - intros resp e -> Hs Ht.
    destruct (Z.eqb_spec (status resp) 200) as [E|_]; [contradiction|].
    rewrite Ht. reflexivity.
  - intros resp e -> Hs Hj. rewrite Hs, Hj. reflexivity.
  - intros reason. cbn [py_in].
    rewrite bool_decide_eq_true_2; [reflexivity|].
    rewrite lookup_singleton_eq. eauto.
Qed.

End ControlSession.

(** A 500 gives [{'error': 'HTTP 500'}], a transport failure gives the
    text of the exception. *)
Lemma request_contract_witness :
  Py.value (RESTClient._make_request server_error concat_url "GET" "/status"
              None (RESTClient.__init__ "localhost" 4000) [])
    = Return (VDict {[ "error" := VStr "HTTP 500" ]}) /\
  Py.value (RESTClient._make_request network_down concat_url "GET" "/status"
              None (RESTClient.__init__ "localhost" 4000) [])
    = Return (VDict {[ "error" := VStr "Cannot connect to host" ]}).
Proof.
  split.
  - destruct (request_contract server_error concat_url "GET" "/status" None
                (RESTClient.__init__ "localhost" 4000) []
                "http://localhost:4000/status" eq_refl)
      as (_ & H & _).
    apply (H {| status := 500; body_text := Return "Internal Server Error";
                body_json := Return (VDict ∅) |} "Internal Server Error");
      [reflexivity | discriminate | reflexivity].
  - destruct (request_contract network_down concat_url "GET" "/status" None
                (RESTClient.__init__ "localhost" 4000) []
                "http://localhost:4000/status" eq_refl)
      as (_ & _ & H & _).
    apply (H (OtherException "Cannot connect to host")). reflexivity.
Defined.

(** C6 as stated fails.  A 500 whose text cannot be read gives the text of
    the exception, not [{'error': 'HTTP 500'}]; and when [urljoin] raises
    on the base URL, the request call raises, having sent nothing. *)
Lemma request_claim_fails :
  Py.value (RESTClient._make_request unreadable_error concat_url "GET"
              "/status" None (RESTClient.__init__ "localhost" 4000) [])
    = Return (VDict {[ "error" := VStr "Response payload is not completed" ]}) /\
  VStr "Response payload is not completed" <> VStr "HTTP 500" /\
  RESTClient._make_request calm bad_urljoin "GET" "/status" None
    (RESTClient.__init__ "[::1" 3009) []
    = (Raise (OtherException "Invalid IPv6 URL"),
       RESTClient.set_session (Some 5%nat) (RESTClient.__init__ "[::1" 3009),
       [EvSessionNew; EvLog INFO "REST client session created"]).
Proof. split; [reflexivity|]. split; [discriminate|reflexivity]. Qed.

(** ** The orchestrator *)

Section Orchestrator.
Import IsaacSimEnvironment.
Variable O : oracle.
Variable urljoin : string -> string -> result string.

(** [cleanup] never raises, and the initialised flag ends cleared or as it
    was. *)
Lemma cleanup_returns env tr :
  exists env' evs, cleanup O env tr = (Return tt, env', tr ++ evs) /\
    (is_initialized env' = false \/ is_initialized env' = is_initialized env).
Proof.
  unfold cleanup, on_webrtc_client, on_rest_client, on_simulation_app,
    WebRTCClient.disconnect, RESTClient.disconnect, SimulationApp.stop.
  py_unfold. cbn.
  py_cases; rewrite <- ?app_assoc; cbn [app];
    (eexists _, _; split; [reflexivity|cbn; auto]).
Qed.

(** When nothing is open there is nothing to close: [cleanup] clears the
    flag whatever the outside world would answer, and nothing is open
    afterwards either. *)
Lemma cleanup_idle env tr :
  idle env ->
  is_initialized (Py.state (cleanup O env tr)) = false /\
  idle (Py.state (cleanup O env tr)).
Proof.
  intros (Hw & Hr & Ha). destruct env as [a w r i]. cbn in Hw, Hr, Ha.
  unfold cleanup, on_webrtc_client, on_rest_client, on_simulation_app,
    WebRTCClient.disconnect, RESTClient.disconnect, SimulationApp.stop.
  py_unfold. cbn.
  destruct w as [wc|]; cbn; [rewrite (Hw wc eq_refl); cbn|];
    (destruct r as [rc|]; cbn; [rewrite (Hr rc eq_refl); cbn|]);
    (destruct a as [app|]; cbn; [rewrite (Ha app eq_refl); cbn|]);
    (split; [reflexivity|]);
    (split; [|split]); intros ? [= <-]; cbn; eauto.
Qed.

(** When no teardown call raises, [cleanup] goes through the three steps
    and clears the flag. *)
Lemma cleanup_quiet env tr :
  (forall n, o_ws_close O n = Return tt) ->
  (forall n, o_session_close O n = Return tt) ->
  (forall n, o_terminate O n = Return tt) ->
  (forall n, o_wait O n = Return tt) ->
  is_initialized (Py.state (cleanup O env tr)) = false /\
  torn_down (Py.state (cleanup O env tr)).
Proof.
  intros H1 H2 H3 H4. destruct env as [a w r i].
  unfold cleanup, on_webrtc_client, on_rest_client, on_simulation_app,
    WebRTCClient.disconnect, RESTClient.disconnect, SimulationApp.stop.
  py_unfold. cbn.
  py_cases;
    try match goal with
        | H : o_ws_close O _ = Raise _ |- _ => rewrite H1 in H; discriminate
        | H : o_session_close O _ = Raise _ |- _ =>
            rewrite H2 in H; discriminate
        | H : o_terminate O _ = Raise _ |- _ => rewrite H3 in H; discriminate
        | H : o_wait O _ = Raise _ |- _ => rewrite H4 in H; discriminate
        end;
    (split; [reflexivity|]);
    (split; [|split]); intros ? [= <-]; cbn; eauto.
Qed.

(** The three steps share one guard: when closing the streaming transport
    raises, the control session and the process are not touched and the
    flag is not cleared. *)
Lemma cleanup_close_raises env tr wc ws e :
  webrtc_client env = Some wc ->
  WebRTCClient.websocket wc = Some ws ->
  o_ws_close O (length tr + 1)%nat = Raise e ->
  cleanup O env tr =
    (Return tt, env,
     tr ++ [ EvLog INFO "Cleaning up Isaac Sim 5.0 environment...";
             EvWsClose ws;
             EvLog ERROR "Error during cleanup: {e}" ]).
Proof.
  intros Hw Hws Hc. destruct env as [a w r i]. cbn in Hw. subst w.
  unfold cleanup, on_webrtc_client, WebRTCClient.disconnect.
  py_unfold. cbn. rewrite Hws. cbn. ticks. rewrite Hc. cbn.
  rewrite <- !app_assoc. reflexivity.
Qed.

(** When closing the control session raises, the streaming client has
    been disconnected, the process is not touched and the flag is not
    cleared. *)
Lemma cleanup_session_close_raises env tr wc wc' tr1 rc sess e :
  webrtc_client env = Some wc ->
  WebRTCClient.disconnect O wc
    (tr ++ [EvLog INFO "Cleaning up Isaac Sim 5.0 environment..."]) =
    (Return tt, wc', tr1) ->
  rest_client env = Some rc ->
  RESTClient.session rc = Some sess ->
  o_session_close O (length tr1) = Raise e ->
  cleanup O env tr =
    (Return tt, set_webrtc_client (Some wc') env,
     tr1 ++ [ EvSessionClose sess;
              EvLog ERROR "Error during cleanup: {e}" ]).
Proof.
  intros Hw Hd Hr Hrs Hc. destruct env as [a w r i]. cbn in Hw, Hr.
  subst w r.
  unfold cleanup, on_webrtc_client, on_rest_client, RESTClient.disconnect.
  py_unfold. cbn -[WebRTCClient.disconnect]. rewrite Hd.
  cbn. rewrite Hrs. cbn. rewrite Hc. cbn.
  rewrite <- !app_assoc. reflexivity.
Qed.

(** When [terminate] of the process raises, the two clients have been
    disconnected, the process handle is kept, [wait] is not called and the
    flag is not cleared. *)
Lemma cleanup_terminate_raises env tr wc wc' tr1 rc rc' tr2 app proc e :
  webrtc_client env = Some wc ->
  WebRTCClient.disconnect O wc
    (tr ++ [EvLog INFO "Cleaning up Isaac Sim 5.0 environment..."]) =
    (Return tt, wc', tr1) ->
  rest_client env = Some rc ->
  RESTClient.disconnect O rc tr1 = (Return tt, rc', tr2) ->
  simulation_app env = Some app ->
  SimulationApp.process app = Some proc ->
  o_terminate O (length tr2) = Raise e ->
  cleanup O env tr =
    (Return tt,
     {| simulation_app := Some app;
        webrtc_client := Some wc';
        rest_client := Some rc';
        is_initialized := is_initialized env |},
     tr2 ++ [ EvTerminate proc;
              EvLog ERROR "Error during cleanup: {e}" ]).
Proof.
  intros Hw Hd Hr Hrd Ha Hap Hc. destruct env as [a w r i].
  cbn in Hw, Hr, Ha. subst a w r.
  unfold cleanup, on_webrtc_client, on_rest_client, on_simulation_app,
    SimulationApp.stop.
  py_unfold. cbn -[WebRTCClient.disconnect RESTClient.disconnect].
  rewrite Hd. cbn -[RESTClient.disconnect]. rewrite Hrd.
  cbn. rewrite Hap. cbn. rewrite Hc. cbn.
  rewrite <- !app_assoc. reflexivity.
Qed.

(** When [wait] on the process raises, the two clients have been
    disconnected and the process terminated, but the handle and the
    running flag are kept and the flag is not cleared. *)
Lemma cleanup_wait_raises env tr wc wc' tr1 rc rc' tr2 app proc e :
  webrtc_client env = Some wc ->
  WebRTCClient.disconnect O wc
    (tr ++ [EvLog INFO "Cleaning up Isaac Sim 5.0 environment..."]) =
    (Return tt, wc', tr1) ->
  rest_client env = Some rc ->
  RESTClient.disconnect O rc tr1 = (Return tt, rc', tr2) ->
  simulation_app env = Some app ->
  SimulationApp.process app = Some proc ->
  o_terminate O (length tr2) = Return tt ->
  o_wait O (length tr2 + 1)%nat = Raise e ->
  cleanup O env tr =
    (Return tt,
     {| simulation_app := Some app;
        webrtc_client := Some wc';
        rest_client := Some rc';
        is_initialized := is_initialized env |},
     tr2 ++ [ EvTerminate proc;
              EvWait proc;
              EvLog ERROR "Error during cleanup: {e}" ]).
Proof.
  intros Hw Hd Hr Hrd Ha Hap Ht Hc. destruct env as [a w r i].
  cbn in Hw, Hr, Ha. subst a w r.
  unfold cleanup, on_webrtc_client, on_rest_client, on_simulation_app,
    SimulationApp.stop.
  py_unfold. cbn -[WebRTCClient.disconnect RESTClient.disconnect].
  rewrite Hd. cbn -[RESTClient.disconnect]. rewrite Hrd.
  cbn. rewrite Hap. cbn. rewrite Ht. cbn. ticks. rewrite Hc. cbn.
  rewrite <- !app_assoc. reflexivity.
Qed.

(** With everything open and no teardown call raising, the order of the
    steps: streaming transport, control session, process. *)
Lemma cleanup_order env tr wc ws rc sess app proc :
  webrtc_client env = Some wc -> WebRTCClient.websocket wc = Some ws ->
  rest_client env = Some rc -> RESTClient.session rc = Some sess ->
  simulation_app env = Some app -> SimulationApp.process app = Some proc ->
  o_ws_close O (length tr + 1)%nat = Return tt ->
  o_session_close O (length tr + 3)%nat = Return tt ->
  o_terminate O (length tr + 5)%nat = Return tt ->
  o_wait O (length tr + 6)%nat = Return tt ->
  Py.trace (cleanup O env tr) =
    tr ++ [ EvLog INFO "Cleaning up Isaac Sim 5.0 environment...";
            EvWsClose ws;
            EvLog INFO "WebRTC connection closed";
            EvSessionClose sess;
            EvLog INFO "REST client session closed";
            EvTerminate proc;
            EvWait proc;
            EvLog INFO "Isaac Sim 5.0 stopped";
            EvLog INFO "Isaac Sim 5.0 environment cleaned up" ].
Proof.
  intros Hw Hws Hr Hrs Ha Hap H1 H2 H3 H4.
  destruct env as [a w r i]. cbn in Hw, Hr, Ha. subst a w r.
  unfold cleanup, on_webrtc_client, on_rest_client, on_simulation_app,
    WebRTCClient.disconnect, RESTClient.disconnect, SimulationApp.stop.
  py_unfold. cbn. rewrite Hws. cbn. ticks. rewrite H1. cbn.
  rewrite Hrs. cbn. ticks. rewrite H2. cbn.
  rewrite Hap. cbn. ticks. rewrite H3. cbn. ticks. rewrite H4. cbn.
  rewrite <- !app_assoc. reflexivity.
Qed.

(** C1, as the code has it.  [cleanup] runs the streaming disconnect, the
    control-plane disconnect and the process stop in this order inside one
    guard.  It never raises.  When no step raises it ends with the flag
    cleared and the three components torn down; that is so in particular
    when nothing is open (before any [initialize], or after a [cleanup]
    that went through), and then nothing is open afterwards.  When a step
    raises (closing the streaming transport, closing the control session,
    [terminate] or [wait] of the process), what the steps before it did
    stays done, the rest is skipped and the flag keeps its value: it ends
    cleared or as it was. *)
Theorem cleanup_contract env tr :
  (exists env' evs, cleanup O env tr = (Return tt, env', tr ++ evs) /\
     (is_initialized env' = false \/
      is_initialized env' = is_initialized env)) /\
  ((forall n, o_ws_close O n = Return tt) ->
   (forall n, o_session_close O n = Return tt) ->
   (forall n, o_terminate O n = Return tt) ->
   (forall n, o_wait O n = Return tt) ->
   is_initialized (Py.state (cleanup O env tr)) = false /\
   torn_down (Py.state (cleanup O env tr))) /\
  (idle env ->
   is_initialized (Py.state (cleanup O env tr)) = false /\
   idle (Py.state (cleanup O env tr))) /\
  (forall wc ws rc sess app proc,
   webrtc_client env = Some wc -> WebRTCClient.websocket wc = Some ws ->
   rest_client env = Some rc -> RESTClient.session rc = Some sess ->
   simulation_app env = Some app -> SimulationApp.process app = Some proc ->
   o_ws_close O (length tr + 1)%nat = Return tt ->
   o_session_close O (length tr + 3)%nat = Return tt ->
   o_terminate O (length tr + 5)%nat = Return tt ->
   o_wait O (length tr + 6)%nat = Return tt ->
   Py.trace (cleanup O env tr) =
     tr ++ [ EvLog INFO "Cleaning up Isaac Sim 5.0 environment...";
             EvWsClose ws;
             EvLog INFO "WebRTC connection closed";
             EvSessionClose sess;
             EvLog INFO "REST client session closed";
             EvTerminate proc;
             EvWait proc;
             EvLog INFO "Isaac Sim 5.0 stopped";
             EvLog INFO "Isaac Sim 5.0 environment cleaned up" ]) /\
  (forall wc ws e,
   webrtc_client env = Some wc ->
   WebRTCClient.websocket wc = Some ws ->
   o_ws_close O (length tr + 1)%nat = Raise e ->
   cleanup O env tr =
     (Return tt, env,
      tr ++ [ EvLog INFO "Cleaning up Isaac Sim 5.0 environment...";
              EvWsClose ws;
              EvLog ERROR "Error during cleanup: {e}" ])) /\
  (forall wc wc' tr1 rc sess e,
   webrtc_client env = Some wc ->
   WebRTCClient.disconnect O wc
     (tr ++ [EvLog INFO "Cleaning up Isaac Sim 5.0 environment..."]) =
     (Return tt, wc', tr1) ->
   rest_client env = Some rc ->
   RESTClient.session rc = Some sess ->
   o_session_close O (length tr1) = Raise e ->
   cleanup O env tr =
     (Return tt, set_webrtc_client (Some wc') env,
      tr1 ++ [ EvSessionClose sess;
               EvLog ERROR "Error during cleanup: {e}" ])) /\
  (forall wc wc' tr1 rc rc' tr2 app proc e,
   webrtc_client env = Some wc ->
   WebRTCClient.disconnect O wc
     (tr ++ [EvLog INFO "Cleaning up Isaac Sim 5.0 environment..."]) =
     (Return tt, wc', tr1) ->
   rest_client env = Some rc ->
   RESTClient.disconnect O rc tr1 = (Return tt, rc', tr2) ->
   simulation_app env = Some app ->
   SimulationApp.process app = Some proc ->
   o_terminate O (length tr2) = Raise e ->
   cleanup O env tr =
     (Return tt,
      {| simulation_app := Some app;
         webrtc_client := Some wc';
         rest_client := Some rc';
         is_initialized := is_initialized env |},
      tr2 ++ [ EvTerminate proc;
               EvLog ERROR "Error during cleanup: {e}" ])) /\
  (forall wc wc' tr1 rc rc' tr2 app proc e,
   webrtc_client env = Some wc ->
   WebRTCClient.disconnect O wc
     (tr ++ [EvLog INFO "Cleaning up Isaac Sim 5.0 environment..."]) =
     (Return tt, wc', tr1) ->
   rest_client env = Some rc ->
   RESTClient.disconnect O rc tr1 = (Return tt, rc', tr2) ->
   simulation_app env = Some app ->
   SimulationApp.process app = Some proc ->
   o_terminate O (length tr2) = Return tt ->
   o_wait O (length tr2 + 1)%nat = Raise e ->
   cleanup O env tr =
     (Return tt,
      {| simulation_app := Some app;
         webrtc_client := Some wc';
         rest_client := Some rc';
         is_initialized := is_initialized env |},
      tr2 ++ [ EvTerminate proc;
               EvWait proc;
               EvLog ERROR "Error during cleanup: {e}" ])).
Proof.
  split; [apply cleanup_returns|].
  split; [apply cleanup_quiet|].
  split; [apply cleanup_idle|].
  split; [apply cleanup_order|].
  split; [apply cleanup_close_raises|].
  split; [apply cleanup_session_close_raises|].
  split; [apply cleanup_terminate_raises|apply cleanup_wait_raises].
Qed.

Lemma webrtc_connect_returns c tr :
  exists b c' evs, WebRTCClient.connect O c tr = (Return b, c', tr ++ evs).
Proof.
  destruct (o_ws_connect O (length tr + 1)%nat) as [ws|e] eqn:Ho.
  - rewrite (connect_ok O c tr ws Ho). eauto.
  - rewrite (connect_fail O c tr e Ho). eauto.
Qed.

(** [initialize] never raises; a [True] comes with the flag set, a
    [False] leaves the flag as it was. *)
Lemma initialize_returns env tr :
  exists b env' evs, initialize O env tr = (Return b, env', tr ++ evs) /\
    is_initialized env' = (b || is_initialized env).
Proof.
  destruct env as [a w r i].
  unfold initialize, on_webrtc_client, on_rest_client, on_simulation_app.
  py_unfold. cbn.
  destruct a as [app|]; cbn.
  2:{ eexists false, _, [_; _]. rewrite <- app_assoc. split; reflexivity. }
  destruct (start_returns O app
              (tr ++ [EvLog INFO "Initializing Isaac Sim 5.0 environment..."]))
    as (b & app' & evs & ->).
  destruct b; cbn.
  2:{ eexists false, _, (_ :: evs ++ [_]).
      rewrite <- !app_assoc. split; reflexivity. }
  destruct w as [wc|]; cbn.
  2:{ eexists false, _, (_ :: evs ++ [_]).
      rewrite <- !app_assoc. split; reflexivity. }
  match goal with
  | |- context [WebRTCClient.connect O wc ?t] =>
      destruct (webrtc_connect_returns wc t) as (b & wc' & evs1 & ->)
  end.
  cbn.
  destruct r as [rc|].
  - destruct b; cbn;
      match goal with
      | |- context [RESTClient.connect O rc ?t] =>
          destruct (connect_returns O rc t) as (rc' & evs2 & -> & _)
      end; cbn;
      eexists true, _, _; rewrite <- !app_assoc; cbn [List.app];
      (split; [reflexivity|reflexivity]).
  - destruct b; cbn; eexists false, _, _; rewrite <- !app_assoc; cbn [List.app];
      (split; [reflexivity|reflexivity]).
Qed.


Lemma initialize_start_ok env tr app app' tr1 wc rc :
  simulation_app env = Some app ->
  webrtc_client env = Some wc ->
  rest_client env = Some rc ->
  SimulationApp.start O app
    (tr ++ [EvLog INFO "Initializing Isaac Sim 5.0 environment..."]) =
    (Return true, app', tr1) ->
  let x := WebRTCClient.connect O wc tr1 in
  let warning :=
    match Py.value x with
    | Return true => []
    | _ => [EvLog WARNING "Failed to connect to WebRTC service"]
    end in
  let y := RESTClient.connect O rc (Py.trace x ++ warning) in
  initialize O env tr =
    (Return true,
     {| simulation_app := Some app';
        webrtc_client := Some (Py.state x);
        rest_client := Some (Py.state y);
        is_initialized := true |},
     Py.trace y ++
       [EvLog INFO "Isaac Sim 5.0 environment initialized successfully"]).
Proof.
  intros Ha Hw Hr Hs. destruct env as [a w r i]. cbn in Ha, Hw, Hr.
  subst a w r. cbv zeta.
  unfold initialize, on_webrtc_client, on_rest_client, on_simulation_app.
  py_unfold. cbn. rewrite Hs. cbn.
  destruct (webrtc_connect_returns wc tr1) as (b & wc' & evs1 & ->).
  cbn.
  destruct b; cbn; rewrite ?app_nil_r;
    match goal with
    | |- context [RESTClient.connect O rc ?t] =>
        destruct (connect_returns O rc t) as (rc' & evs2 & -> & _)
    end; reflexivity.
Qed.


(** What the orchestrator makes of the value the control client returns:
    [True] exactly when ['error' not in result] holds; one log line
    follows the call either way. *)
Lemma start_simulation_value config env tr rc v rc' tr1 :
  is_initialized env = true ->
  rest_client env = Some rc ->
  RESTClient.start_simulation O urljoin config rc tr = (Return v, rc', tr1) ->
  exists l template,
    start_simulation O urljoin config env tr =
      (Return (no_error v),
       set_rest_client (Some rc') env, tr1 ++ [EvLog l template]).
Proof.
  intros Hi Hr Hs. destruct env as [a w r i]. cbn in Hi, Hr. subst i r.
  unfold start_simulation, on_rest_client, no_error. py_unfold. cbn.
  rewrite Hs. cbn.
  destruct v as [| | | | | |d]; cbn; eauto.
  - destruct (String.index 0 "error" s); cbn; eauto.
  - destruct (existsb _ l); cbn; eauto.
  - destruct (d !! "error"); cbn; eauto.
Qed.

Lemma stop_simulation_value env tr rc v rc' tr1 :
  rest_client env = Some rc ->
  RESTClient.stop_simulation O urljoin rc tr = (Return v, rc', tr1) ->
  exists l template,
    stop_simulation O urljoin env tr =
      (Return (no_error v),
       set_rest_client (Some rc') env, tr1 ++ [EvLog l template]).
Proof.
  intros Hr Hs. destruct env as [a w r i]. cbn in Hr. subst r.
  unfold stop_simulation, on_rest_client, no_error. py_unfold. cbn.
  rewrite Hs. cbn.
  destruct v as [| | | | | |d]; cbn; eauto.
  - destruct (String.index 0 "error" s); cbn; eauto.
  - destruct (existsb _ l); cbn; eauto.
  - destruct (d !! "error"); cbn; eauto.
Qed.

Lemma no_error_dict d : no_error (VDict d) = negb (RESTClient.has_error d).
Proof. reflexivity. Qed.

Lemma start_simulation_ready config env tr rc d rc' tr1 :
  is_initialized env = true ->
  rest_client env = Some rc ->
  RESTClient.start_simulation O urljoin config rc tr =
    (Return (VDict d), rc', tr1) ->
  exists l template,
    start_simulation O urljoin config env tr =
      (Return (negb (RESTClient.has_error d)),
       set_rest_client (Some rc') env, tr1 ++ [EvLog l template]).
Proof.
  intros Hi Hr Hs. rewrite <- no_error_dict.
  eapply start_simulation_value; eauto.
Qed.

Lemma stop_simulation_delegates env tr rc d rc' tr1 :
  rest_client env = Some rc ->
  RESTClient.stop_simulation O urljoin rc tr = (Return (VDict d), rc', tr1) ->
  exists l template,
    stop_simulation O urljoin env tr =
      (Return (negb (RESTClient.has_error d)),
       set_rest_client (Some rc') env, tr1 ++ [EvLog l template]).
Proof.
  intros Hr Hs. rewrite <- no_error_dict.
  eapply stop_simulation_value; eauto.
Qed.

(** When the call on the control client raises, the guard catches it and
    the answer is [False]. *)
Lemma start_simulation_raises config env tr rc e rc' tr1 :
  is_initialized env = true ->
  rest_client env = Some rc ->
  RESTClient.start_simulation O urljoin config rc tr = (Raise e, rc', tr1) ->
  start_simulation O urljoin config env tr =
    (Return false, set_rest_client (Some rc') env,
     tr1 ++ [EvLog ERROR "Error starting simulation: {e}"]).
Proof.
  intros Hi Hr Hs. destruct env as [a w r i]. cbn in Hi, Hr. subst i r.
  unfold start_simulation, on_rest_client. py_unfold. cbn.
  rewrite Hs. reflexivity.
Qed.

Lemma stop_simulation_raises env tr rc e rc' tr1 :
  rest_client env = Some rc ->
  RESTClient.stop_simulation O urljoin rc tr = (Raise e, rc', tr1) ->
  stop_simulation O urljoin env tr =
    (Return false, set_rest_client (Some rc') env,
     tr1 ++ [EvLog ERROR "Error stopping simulation: {e}"]).
Proof.
  intros Hr Hs. destruct env as [a w r i]. cbn in Hr. subst r.
  unfold stop_simulation, on_rest_client. py_unfold. cbn.
  rewrite Hs. reflexivity.
Qed.

Lemma start_simulation_lazy config env tr b env1 tr1 :
  is_initialized env = false ->
  initialize O env tr = (Return b, env1, tr1) ->
  start_simulation O urljoin config env tr =
    if b then start_simulation O urljoin config env1 tr1
    else (Return false, env1, tr1).
Proof.
  intros Hi Hinit.
  destruct (initialize_returns env tr) as (b' & env' & evs & Hret & Hflag).
  rewrite Hinit in Hret. injection Hret as <- <- ->.
  unfold start_simulation at 1. unfold Py.bind at 1, Py.gets.
  rewrite Hi. cbn [negb]. unfold Py.bind at 1. rewrite Hinit.
  destruct b; cbn [negb]; [|reflexivity].
  cbn in Hflag. symmetry.
  unfold start_simulation. unfold Py.bind at 1, Py.gets.
  rewrite Hflag. reflexivity.
Qed.

(** C2, as the code has it.  [start_simulation] on an environment that is
    not initialised calls [initialize] first, returns [False] if that
    fails and otherwise goes on as on an initialised environment.
    [stop_simulation] does not look at the flag and calls no
    [initialize]: it goes to the control client at once, and the
    environment changes in its control client only.  Both return [True]
    exactly when the value the control client returns has no ['error']
    key; for a value that is not a dict that is the outcome of
    ['error' not in result], [False] when the test raises; and [False]
    too when the call on the control client itself raises. *)
Theorem simulation_control_contract config env tr :
  (forall b env1 tr1,
   is_initialized env = false ->
   initialize O env tr = (Return b, env1, tr1) ->
   start_simulation O urljoin config env tr =
     if b then start_simulation O urljoin config env1 tr1
     else (Return false, env1, tr1)) /\
  (forall rc d rc' tr1,
   is_initialized env = true ->
   rest_client env = Some rc ->
   RESTClient.start_simulation O urljoin config rc tr =
     (Return (VDict d), rc', tr1) ->
   exists l template,
     start_simulation O urljoin config env tr =
       (Return (negb (RESTClient.has_error d)),
        set_rest_client (Some rc') env, tr1 ++ [EvLog l template])) /\
  (forall rc d rc' tr1,
   rest_client env = Some rc ->
   RESTClient.stop_simulation O urljoin rc tr =
     (Return (VDict d), rc', tr1) ->
   exists l template,
     stop_simulation O urljoin env tr =
       (Return (negb (RESTClient.has_error d)),
        set_rest_client (Some rc') env, tr1 ++ [EvLog l template])) /\
  (forall rc v rc' tr1,
   is_initialized env = true ->
   rest_client env = Some rc ->
   RESTClient.start_simulation O urljoin config rc tr =
     (Return v, rc', tr1) ->
   exists l template,
     start_simulation O urljoin config env tr =
       (Return (match py_in "error" v with
                | Return b => negb b
                | Raise _ => false
                end),
        set_rest_client (Some rc') env, tr1 ++ [EvLog l template])) /\
  (forall rc v rc' tr1,
   rest_client env = Some rc ->
   RESTClient.stop_simulation O urljoin rc tr = (Return v, rc', tr1) ->
   exists l template,
     stop_simulation O urljoin env tr =
       (Return (match py_in "error" v with
                | Return b => negb b
                | Raise _ => false
                end),
        set_rest_client (Some rc') env, tr1 ++ [EvLog l template])) /\
  (forall rc e rc' tr1,
   is_initialized env = true ->
   rest_client env = Some rc ->
   RESTClient.start_simulation O urljoin config rc tr =
     (Raise e, rc', tr1) ->
   start_simulation O urljoin config env tr =
     (Return false, set_rest_client (Some rc') env,
      tr1 ++ [EvLog ERROR "Error starting simulation: {e}"])) /\
  (forall rc e rc' tr1,
   rest_client env = Some rc ->
   RESTClient.stop_simulation O urljoin rc tr = (Raise e, rc', tr1) ->
   stop_simulation O urljoin env tr =
     (Return false, set_rest_client (Some rc') env,
      tr1 ++ [EvLog ERROR "Error stopping simulation: {e}"])).
Proof.
  split; [intros b env1 tr1; apply start_simulation_lazy|].
  split; [intros rc d rc' tr1; apply start_simulation_ready|].
  split; [intros rc d rc' tr1; apply stop_simulation_delegates|].
  split; [intros rc v rc' tr1; apply start_simulation_value|].
  split; [intros rc v rc' tr1; apply stop_simulation_value|].
  split; [intros rc e rc' tr1; apply start_simulation_raises|].
  intros rc e rc' tr1; apply stop_simulation_raises.
Qed.

End Orchestrator.

(** Before any [initialize] nothing is open, and [cleanup] clears the flag
    even in a world where closing a transport would raise; on the running
    environment, with no call raising, the three steps run in order; when
    closing the session, [terminate] or [wait] raises, the flag stays set
    and what comes after is skipped. *)
Lemma cleanup_contract_witness :
  IsaacSimEnvironment.is_initialized
    (Py.state (IsaacSimEnvironment.cleanup close_failing fresh_env []))
    = false /\
  Py.trace (IsaacSimEnvironment.cleanup calm ready_env []) =
    [ EvLog INFO "Cleaning up Isaac Sim 5.0 environment...";
      EvWsClose 1%nat;
      EvLog INFO "WebRTC connection closed";
      EvSessionClose 5%nat;
      EvLog INFO "REST client session closed";
      EvTerminate 42%nat;
      EvWait 42%nat;
      EvLog INFO "Isaac Sim 5.0 stopped";
      EvLog INFO "Isaac Sim 5.0 environment cleaned up" ] /\
  IsaacSimEnvironment.cleanup session_close_failing ready_env [] =
    (Return tt, stream_closed_env,
     [ EvLog INFO "Cleaning up Isaac Sim 5.0 environment...";
       EvWsClose 1%nat;
       EvLog INFO "WebRTC connection closed";
       EvSessionClose 5%nat;
       EvLog ERROR "Error during cleanup: {e}" ]) /\
  IsaacSimEnvironment.cleanup terminate_failing ready_env [] =
    (Return tt, clients_closed_env,
     [ EvLog INFO "Cleaning up Isaac Sim 5.0 environment...";
       EvWsClose 1%nat;
       EvLog INFO "WebRTC connection closed";
       EvSessionClose 5%nat;
       EvLog INFO "REST client session closed";
       EvTerminate 42%nat;
       EvLog ERROR "Error during cleanup: {e}" ]) /\
  IsaacSimEnvironment.cleanup wait_failing ready_env [] =
    (Return tt, clients_closed_env,
     [ EvLog INFO "Cleaning up Isaac Sim 5.0 environment...";
       EvWsClose 1%nat;
       EvLog INFO "WebRTC connection closed";
       EvSessionClose 5%nat;
       EvLog INFO "REST client session closed";
       EvTerminate 42%nat;
       EvWait 42%nat;
       EvLog ERROR "Error during cleanup: {e}" ]).
Proof.
  split; [|split; [|split; [|split]]].
  - destruct (cleanup_contract close_failing fresh_env [])
      as (_ & _ & H & _).
    apply H. repeat split; intros ? [= <-]; reflexivity.
  - destruct (cleanup_contract calm ready_env []) as (_ & _ & _ & H & _).
    apply (H connected_client 1%nat
             (RESTClient.set_session (Some 5%nat)
                (RESTClient.__init__ "localhost" 4000)) 5%nat
             (SimulationApp.set_is_running true
                (SimulationApp.set_process (Some 42%nat) default_app))
             42%nat); reflexivity.
  - destruct (cleanup_contract session_close_failing ready_env [])
      as (_ & _ & _ & _ & _ & H & _).
    apply (H connected_client
             (WebRTCClient.set_is_connected false
                (WebRTCClient.set_websocket None connected_client))
             [ EvLog INFO "Cleaning up Isaac Sim 5.0 environment...";
               EvWsClose 1%nat;
               EvLog INFO "WebRTC connection closed" ]
             (RESTClient.set_session (Some 5%nat)
                (RESTClient.__init__ "localhost" 4000)) 5%nat
             (OtherException "session close failed")); reflexivity.
  - destruct (cleanup_contract terminate_failing ready_env [])
      as (_ & _ & _ & _ & _ & _ & H & _).
    apply (H connected_client
             (WebRTCClient.set_is_connected false
                (WebRTCClient.set_websocket None connected_client))
             [ EvLog INFO "Cleaning up Isaac Sim 5.0 environment...";
               EvWsClose 1%nat;
               EvLog INFO "WebRTC connection closed" ]
             (RESTClient.set_session (Some 5%nat)
                (RESTClient.__init__ "localhost" 4000))
             (RESTClient.__init__ "localhost" 4000)
             [ EvLog INFO "Cleaning up Isaac Sim 5.0 environment...";
               EvWsClose 1%nat;
               EvLog INFO "WebRTC connection closed";
               EvSessionClose 5%nat;
               EvLog INFO "REST client session closed" ]
             (SimulationApp.set_is_running true
                (SimulationApp.set_process (Some 42%nat) default_app))
             42%nat (OtherException "Permission denied")); reflexivity.
  - destruct (cleanup_contract wait_failing ready_env [])
      as (_ & _ & _ & _ & _ & _ & _ & H).
    apply (H connected_client
             (WebRTCClient.set_is_connected false
                (WebRTCClient.set_websocket None connected_client))
             [ EvLog INFO "Cleaning up Isaac Sim 5.0 environment...";
               EvWsClose 1%nat;
               EvLog INFO "WebRTC connection closed" ]
             (RESTClient.set_session (Some 5%nat)
                (RESTClient.__init__ "localhost" 4000))
             (RESTClient.__init__ "localhost" 4000)
             [ EvLog INFO "Cleaning up Isaac Sim 5.0 environment...";
               EvWsClose 1%nat;
               EvLog INFO "WebRTC connection closed";
               EvSessionClose 5%nat;
               EvLog INFO "REST client session closed" ]
             (SimulationApp.set_is_running true
                (SimulationApp.set_process (Some 42%nat) default_app))
             42%nat (OtherException "No child processes")); reflexivity.
Defined.

(** C1 as stated fails.  The environment is initialised in a world where
    closing the streaming transport raises; [cleanup] then returns with
    the flag still set, the control session still open and the process
    still held: after the failed first step neither later step was
    attempted. *)
Lemma cleanup_skips_after_failure :
  Py.value initialized = Return true /\
  Py.value cleaned_up = Return tt /\
  IsaacSimEnvironment.is_initialized (Py.state cleaned_up) = true /\
  (RESTClient.session <$>
     IsaacSimEnvironment.rest_client (Py.state cleaned_up))
    = Some (Some 5%nat) /\
  (SimulationApp.process <$>
     IsaacSimEnvironment.simulation_app (Py.state cleaned_up))
    = Some (Some 42%nat) /\
  Py.trace cleaned_up =
    Py.trace initialized ++
      [ EvLog INFO "Cleaning up Isaac Sim 5.0 environment...";
        EvWsClose 7%nat;
        EvLog ERROR "Error during cleanup: {e}" ].
Proof. repeat split. Qed.


(** With a process that exits at once, the lazy [initialize] of
    [start_simulation] fails and so does [start_simulation]. *)
Lemma simulation_control_contract_witness :
  Py.value (IsaacSimEnvironment.start_simulation crashing concat_url None
              fresh_env []) = Return false.
Proof.
  destruct (simulation_control_contract crashing concat_url None fresh_env [])
    as (H & _).
  rewrite (H false _ _ eq_refl eq_refl). reflexivity.
Defined.

(** C2 as stated fails for [stop_simulation]: on the environment as
    constructed, in a world where [initialize] would succeed, it returns
    [True] without having called [initialize]: the flag is still unset and
    the trace holds the control-plane request only. *)
Lemma stop_simulation_skips_initialize :
  IsaacSimEnvironment.is_initialized fresh_env = false /\
  Py.value (IsaacSimEnvironment.initialize calm fresh_env []) = Return true /\
  Py.value (IsaacSimEnvironment.stop_simulation calm concat_url fresh_env [])
    = Return true /\
  IsaacSimEnvironment.is_initialized
    (Py.state (IsaacSimEnvironment.stop_simulation calm concat_url
                 fresh_env [])) = false /\
  Py.trace (IsaacSimEnvironment.stop_simulation calm concat_url fresh_env [])
    = [ EvSessionNew;
        EvLog INFO "REST client session created";
        EvHttpRequest 5%nat "POST" "http://localhost:4000/simulation/stop"
          None;
        EvLog INFO "Simulation stopped successfully" ].
Proof. repeat split. Qed.

(** * Further properties of the code *)

(** ** The process controller: stop, restart, status *)

Section ProcessLifecycle.
Import SimulationApp.
Variable O : oracle.

Lemma stop_no_process a tr :
  process a = None ->
  stop O a tr =
    (Return tt, set_is_running false a,
     tr ++ [EvLog INFO "Isaac Sim 5.0 stopped"]).
Proof. intros H. unfold stop. py_unfold. now rewrite H. Qed.

Lemma stop_cases a tr p :
  process a = Some p ->
  stop O a tr =
    match o_terminate O (length tr) with
    | Raise e => (Raise e, a, tr ++ [EvTerminate p])
    | Return _ =>
        match o_wait O (length tr + 1)%nat with
        | Raise e => (Raise e, a, tr ++ [EvTerminate p; EvWait p])
        | Return _ =>
            (Return tt, set_is_running false (set_process None a),
             tr ++ [EvTerminate p; EvWait p;
                    EvLog INFO "Isaac Sim 5.0 stopped"])
        end
    end.
Proof.
  intros H. unfold stop. py_unfold. rewrite H.
  destruct (o_terminate O (length tr)) as [[]|e]; [|reflexivity].
  cbn. ticks.
  destruct (o_wait O (length tr + 1)) as [[]|e]; cbn; trace_eq.
Qed.

Lemma stop_outcome a tr :
  (Py.value (stop O a tr) = Return tt ->
   process (Py.state (stop O a tr)) = None /\
   is_running (Py.state (stop O a tr)) = false) /\
  (forall e, Py.value (stop O a tr) = Raise e ->
   Py.state (stop O a tr) = a).
Proof.
  split.
  - destruct (process a) as [p|] eqn:Hp.
    + rewrite (stop_cases a tr p Hp).
      destruct (o_terminate O (length tr)); [|discriminate].
      destruct (o_wait O (length tr + 1)); [|discriminate].
      intros _. split; reflexivity.
    + rewrite (stop_no_process a tr Hp). intros _. cbn. auto.
  - intros e. destruct (process a) as [p|] eqn:Hp.
    + rewrite (stop_cases a tr p Hp).
      destruct (o_terminate O (length tr)); [|reflexivity].
      destruct (o_wait O (length tr + 1)); [discriminate|reflexivity].
    + rewrite (stop_no_process a tr Hp). discriminate.
Qed.

(** X1. A [stop] that returns leaves no process handle and the running
    flag cleared; without a handle it calls nothing outside and cannot
    raise, so a second [stop] in a row is a pure flag reset; a [stop] that
    raises (in [terminate] or [wait]) leaves the object exactly as it
    was, handle and flag included. *)
Theorem stop_contract a tr :
  (Py.value (stop O a tr) = Return tt ->
   process (Py.state (stop O a tr)) = None /\
   is_running (Py.state (stop O a tr)) = false) /\
  (process a = None ->
   stop O a tr =
     (Return tt, set_is_running false a,
      tr ++ [EvLog INFO "Isaac Sim 5.0 stopped"])) /\
  (forall e, Py.value (stop O a tr) = Raise e ->
   Py.state (stop O a tr) = a).
Proof.
  destruct (stop_outcome a tr) as (Hok & Hraise).
  split; [exact Hok|]. split; [apply stop_no_process|exact Hraise].
Qed.

(** The value [start] returns is the running flag it leaves. *)
Lemma start_value_is_flag a tr :
  Py.value (start O a tr) = Return (is_running (Py.state (start O a tr))).
Proof.
  destruct (is_running a) eqn:Hr.
  { rewrite start_running by done. cbn. now rewrite Hr. }
  assert (o_pgrep O (length tr) = Return 0 \/
          o_pgrep O (length tr) <> Return 0) as [Hp|Hp].
  { destruct (o_pgrep O (length tr)) as [z|e]; [|right; congruence].
    destruct (decide (z = 0)) as [->|Hz]; [left|right]; congruence. }
  { rewrite start_adopt by done. reflexivity. }
  destruct (o_popen O (length tr + 2)%nat) as [p|e] eqn:Hq.
  - rewrite (start_launch O a tr p) by done.
    destruct (o_poll O (length tr + 4)); cbn; [now rewrite Hr|reflexivity].
  - rewrite (start_launch_error O a tr e) by done. cbn. now rewrite Hr.
Qed.

(** X2. [start] returns the running flag it leaves behind: [True] exactly
    when the object is marked running afterwards.  Hence a [start] after
    a [start] that returned [True] calls nothing outside: no probe, no
    launch, only the warning line. *)
Theorem start_twice a tr :
  Py.value (start O a tr) = Return (is_running (Py.state (start O a tr))) /\
  (Py.value (start O a tr) = Return true ->
   start O (Py.state (start O a tr)) (Py.trace (start O a tr)) =
     (Return true, Py.state (start O a tr),
      Py.trace (start O a tr) ++
        [EvLog WARNING "Isaac Sim 5.0 is already running"])).
Proof.
  split; [apply start_value_is_flag|].
  rewrite start_value_is_flag. intros [= H].
  apply start_running. now rewrite H.
Qed.

(** X3. An instance that [start] adopts (found by [pgrep], not launched)
    gets no process handle: [start] sets the running flag and leaves the
    handle as it was.  On an object without a handle (as constructed, or
    after a [stop]) the [stop] that follows terminates nothing: the
    external simulator keeps running and only the flag is cleared.  On an
    object that still holds the handle of an earlier launch that failed,
    the [stop] that follows terminates and waits for that process, not
    the adopted instance. *)
Theorem stop_after_adoption a tr :
  is_running a = false ->
  o_pgrep O (length tr) = Return 0 ->
  let adopted := tr ++ [EvPgrep; EvLog INFO "Isaac Sim 5.0 is already running"] in
  start O a tr = (Return true, set_is_running true a, adopted) /\
  process (Py.state (start O a tr)) = process a /\
  (process a = None ->
   stop O (Py.state (start O a tr)) (Py.trace (start O a tr)) =
     (Return tt, set_is_running false a,
      adopted ++ [EvLog INFO "Isaac Sim 5.0 stopped"])) /\
  (forall p,
   process a = Some p ->
   o_terminate O (length adopted) = Return tt ->
   o_wait O (length adopted + 1)%nat = Return tt ->
   stop O (Py.state (start O a tr)) (Py.trace (start O a tr)) =
     (Return tt, set_is_running false (set_process None a),
      adopted ++ [ EvTerminate p; EvWait p;
                   EvLog INFO "Isaac Sim 5.0 stopped" ])).
Proof.
  intros Hr Hg adopted. subst adopted.
  rewrite (start_adopt O a tr Hr Hg). cbn [Py.state Py.trace fst snd].
  split; [reflexivity|]. split; [reflexivity|]. split.
  - intros Hp. rewrite stop_no_process by exact Hp. reflexivity.
  - intros p Hp Ht Hw.
    rewrite (stop_cases (set_is_running true a) _ p Hp), Ht, Hw.
    reflexivity.
Qed.

(** X4. [restart] is [stop], a pause of one second, then [start].  When
    [stop] raises, [restart] raises the same exception with the object
    untouched and makes no pause and no start.  When [stop] returns, the
    running flag is clear, so the start that follows always begins with
    the [pgrep] probe (an instance still found is adopted, not launched
    anew), and [restart] returns the flag it leaves. *)
Theorem restart_contract a tr :
  (forall e, Py.value (stop O a tr) = Raise e ->
   restart O a tr = (Raise e, a, Py.trace (stop O a tr))) /\
  (Py.value (stop O a tr) = Return tt ->
   exists evs,
     Py.trace (restart O a tr) =
       Py.trace (stop O a tr) ++ EvSleep 1 :: EvPgrep :: evs /\
     Py.value (restart O a tr) =
       Return (is_running (Py.state (restart O a tr)))).
Proof.
  destruct (stop_outcome a tr) as (Hok & Hraise).
  destruct (stop O a tr) as [[r a1] tr1] eqn:Hs. cbn in Hok, Hraise. cbn.
  split.
  - intros e ->. pose proof (Hraise e eq_refl) as ->.
    unfold restart. py_unfold. now rewrite Hs.
  - intros ->. destruct (Hok eq_refl) as (_ & Hflag).
    assert (restart O a tr = start O a1 (tr1 ++ [EvSleep 1])) as ->
      by (unfold restart; py_unfold; now rewrite Hs).
    enough (exists evs,
              Py.trace (start O a1 (tr1 ++ [EvSleep 1])) =
                tr1 ++ EvSleep 1 :: EvPgrep :: evs) as [evs Hevs]
      by (exists evs; split; [exact Hevs|apply start_value_is_flag]).
    unfold start, _is_isaac_running. py_unfold. rewrite Hflag.
    destruct (o_pgrep O (length (tr1 ++ [EvSleep 1]))) as [z|e]; cbn.
    2:{ destruct (o_popen O _); cbn; [destruct (o_poll O _); cbn|];
        rewrite <- !app_assoc; cbn [app]; eauto. }
    destruct (Z.eqb z 0); cbn.
    + rewrite <- !app_assoc. cbn [app]. eauto.
    + destruct (o_popen O _); cbn; [destruct (o_poll O _); cbn|];
        rewrite <- !app_assoc; cbn [app]; eauto.
Qed.

(** X5. [get_status] never raises and does not change the object.  Its
    value always has the five configuration entries; it has [pid] and
    [returncode] exactly when there is a process handle, and then it polls
    the process once (so a launch that failed still reports its pid and
    exit code, with [is_running] false); without a handle it calls nothing
    outside. *)
Theorem app_status_contract a tr :
  exists d,
    get_status O a tr =
      (Return d, a,
       tr ++ match process a with Some p => [EvPoll p] | None => [] end) /\
    d !! "is_running" = Some (VBool (is_running a)) /\
    d !! "webrtc_port" = Some (VInt (webrtc_port a)) /\
    d !! "rest_port" = Some (VInt (rest_port a)) /\
    d !! "headless" = Some (VBool (headless a)) /\
    d !! "livestream" = Some (VStr (livestream a)) /\
    d !! "pid" = (fun p => VInt (pid p)) <$> process a /\
    d !! "returncode" =
      (fun _ => match o_poll O (length tr) with
                | Some z => VInt z
                | None => VNone
                end) <$> process a.
Proof.
  unfold get_status. py_unfold.
  destruct (process a) as [p|]; eexists;
    (split; [rewrite ?app_nil_r; reflexivity|]);
    repeat split; vm_compute; reflexivity.
Qed.

End ProcessLifecycle.

(** ** The process controller: command line and environment *)

Section ProcessSetup.
Import SimulationApp.

Lemma str_int_truthy z : truthy_str (str_int z) = true.
Proof.
  unfold str_int. destruct (Z.to_int z) as [d|d]; [|reflexivity].
  destruct d; reflexivity.
Qed.

(** X6. The command line of [start] never holds an empty argument.  With
    a non-empty [livestream] it is the binary, [--headless] when headless,
    and the three flags each followed by its value.  With an empty
    [livestream] the filter removes the value and leaves the flag: the
    argument after [--livestream] is then [--webrtc-port]. *)
Theorem isaac_cmd_shape a :
  ("" ∉ isaac_cmd a) /\
  (livestream a <> "" ->
   isaac_cmd a =
     "/workspace/isaac-sim-5.0/_build/linux-x86_64/release/omni.isaac.sim"
       :: (if headless a then ["--headless"] else []) ++
          [ "--livestream"; livestream a;
            "--webrtc-port"; str_int (webrtc_port a);
            "--rest-port"; str_int (rest_port a) ]) /\
  (livestream a = "" ->
   isaac_cmd a =
     "/workspace/isaac-sim-5.0/_build/linux-x86_64/release/omni.isaac.sim"
       :: (if headless a then ["--headless"] else []) ++
          [ "--livestream";
            "--webrtc-port"; str_int (webrtc_port a);
            "--rest-port"; str_int (rest_port a) ]).
Proof.
  split; [|split].
  - unfold isaac_cmd. rewrite list_elem_of_In, filter_In. intros [_ H].
    discriminate.
  - intros Hl. unfold isaac_cmd. cbn [List.filter truthy_str].
    rewrite !str_int_truthy.
    destruct (livestream a) eqn:E; [congruence|].
    destruct (headless a); reflexivity.
  - intros Hl. unfold isaac_cmd. cbn [List.filter truthy_str].
    rewrite !str_int_truthy, Hl.
    destruct (headless a); reflexivity.
Qed.








Lemma add_paths_suffix ex paths sp :
  exists added, add_paths ex paths sp = added ++ sp /\
    forall p, p ∈ added -> p ∈ paths /\ ex p = true /\ p ∉ sp.
Proof.
  revert sp. induction paths as [|path rest IH]; intros sp.
  - exists []. split; [reflexivity|]. intros p Hp. inversion Hp.
  - cbn [add_paths].
    destruct (negb (bool_decide (path ∈ sp)) && ex path) eqn:E.
    + apply andb_true_iff in E as [E1 E2].
      apply negb_true_iff, bool_decide_eq_false in E1.
      destruct (IH (path :: sp)) as (added & -> & Hadd).
      exists (added ++ [path]). split; [now rewrite <- app_assoc|].
      intros p [Hp|Hp]%elem_of_app.
      * destruct (Hadd p Hp) as (H1 & H2 & H3).
        apply not_elem_of_cons in H3 as [_ H3].
        split; [now apply list_elem_of_further|]. now split.
      * apply list_elem_of_singleton in Hp as ->.
        split; [apply list_elem_of_here|]. now split.
    + destruct (IH sp) as (added & -> & Hadd).
      exists added. split; [reflexivity|].
      intros p Hp. destruct (Hadd p Hp) as (H1 & H2 & H3).
      split; [now apply list_elem_of_further|]. now split.
Qed.

Lemma add_paths_nodup ex paths sp : NoDup sp -> NoDup (add_paths ex paths sp).
Proof.
  revert sp. induction paths as [|path rest IH]; intros sp Hsp; [exact Hsp|].
  cbn [add_paths]. apply IH.
  destruct (negb (bool_decide (path ∈ sp)) && ex path) eqn:E; [|exact Hsp].
  apply andb_true_iff in E as [E1 _].
  apply negb_true_iff, bool_decide_eq_false in E1.
  now constructor.
Qed.

Lemma add_paths_noop ex paths sp :
  (forall p, p ∈ paths -> ex p = true -> p ∈ sp) ->
  add_paths ex paths sp = sp.
Proof.
  induction paths as [|path rest IH]; intros H; [reflexivity|].
  cbn [add_paths].
  destruct (negb (bool_decide (path ∈ sp)) && ex path) eqn:E.
  - apply andb_true_iff in E as [E1 E2].
    apply negb_true_iff, bool_decide_eq_false in E1.
    exfalso. apply E1, H; [set_solver|exact E2].
  - apply IH. intros p Hp. apply H. set_solver.
Qed.

Lemma add_paths_complete ex paths sp p :
  (p ∈ sp \/ (p ∈ paths /\ ex p = true)) -> p ∈ add_paths ex paths sp.
Proof.
  revert sp. induction paths as [|path rest IH]; intros sp H.
  - cbn. destruct H as [H|[H _]]; [exact H|inversion H].
  - cbn [add_paths]. apply IH.
    destruct H as [H|[H Hex]].
    + left. destruct (_ && _); set_solver.
    + apply elem_of_cons in H as [->|H]; [|right; auto].
      left. destruct (bool_decide (path ∈ sp)) eqn:E.
      * apply bool_decide_eq_true in E. exact E.
      * rewrite Hex. cbn. set_solver.
Qed.

(** X8. [_setup_isaac_paths] only puts entries in front of [sys.path]:
    the old entries stay, in their order, as the tail.  Each new entry is
    an Isaac Sim path that exists on disk and was not yet listed; a
    [sys.path] without duplicates stays without; and running it again
    on its result (a second [SimulationApp] in the same interpreter)
    changes nothing. *)
Theorem setup_isaac_paths_contract ex sp :
  (exists added, _setup_isaac_paths ex sp = added ++ sp /\
     forall p, p ∈ added -> p ∈ isaac_paths /\ ex p = true /\ p ∉ sp) /\
  (NoDup sp -> NoDup (_setup_isaac_paths ex sp)) /\
  _setup_isaac_paths ex (_setup_isaac_paths ex sp) = _setup_isaac_paths ex sp.
Proof.
  split; [apply add_paths_suffix|].
  split; [apply add_paths_nodup|].
  apply add_paths_noop. intros p Hp Hex.
  apply add_paths_complete. auto.
Qed.

End ProcessSetup.

(** ** The streaming session: teardown, outbound messages, dispatch *)

Section StreamingExtras.
Import WebRTCClient.
Variable O : oracle.

(** X9. A [disconnect] that returns leaves no transport handle and the
    client marked disconnected; without a handle it closes nothing and
    cannot raise, so a second [disconnect] in a row only logs; a
    [disconnect] that raises (in [close]) leaves the client exactly as it
    was, handle and connected flag included. *)
Theorem disconnect_contract c tr :
  (Py.value (disconnect O c tr) = Return tt ->
   websocket (Py.state (disconnect O c tr)) = None /\
   is_connected (Py.state (disconnect O c tr)) = false) /\
  (websocket c = None ->
   disconnect O c tr =
     (Return tt, set_is_connected false c,
      tr ++ [EvLog INFO "WebRTC connection closed"])) /\
  (forall e, Py.value (disconnect O c tr) = Raise e ->
   Py.state (disconnect O c tr) = c).
Proof.
  unfold disconnect. py_unfold.
  destruct (websocket c) as [ws|] eqn:Hw.
  - destruct (o_ws_close O (length tr)) as [[]|e]; cbn;
      (split; [|split]); try discriminate; auto.
  - cbn. (split; [|split]); try discriminate; auto.
Qed.

(** X10. [send_message] and [stop_streaming] never raise and never change
    the client: a failed send is logged and lost, and stopping the stream
    neither closes the transport nor marks the client disconnected.
    [send_message] hands the message to the transport exactly when the
    client is marked connected and has a handle; otherwise it only logs
    an error.  [stop_streaming] on a client that is not marked connected
    does nothing at all, not even a log line. *)
Theorem outbound_contract m c tr :
  send_message O m c tr =
    (Return tt, c,
     tr ++ match is_connected c, websocket c with
           | true, Some ws =>
               [ EvWsSend ws m;
                 match o_ws_send O (length tr) with
                 | Return _ => EvLog DEBUG "Sent message: {message}"
                 | Raise _ => EvLog ERROR "Failed to send message: {e}"
                 end ]
           | _, _ => [EvLog ERROR "Not connected to WebRTC service"]
           end) /\
  (exists evs, stop_streaming O c tr = (Return tt, c, tr ++ evs)) /\
  (is_connected c = false -> stop_streaming O c tr = (Return tt, c, tr)) /\
  (forall ws, is_connected c = true -> websocket c = Some ws ->
   exists ev,
     stop_streaming O c tr =
       (Return tt, c,
        tr ++ [EvWsSend ws stop_message; ev;
               EvLog INFO "Stopped WebRTC streaming"])).
Proof.
  assert (forall m', send_message O m' c tr =
    (Return tt, c,
     tr ++ match is_connected c, websocket c with
           | true, Some ws =>
               [ EvWsSend ws m';
                 match o_ws_send O (length tr) with
                 | Return _ => EvLog DEBUG "Sent message: {message}"
                 | Raise _ => EvLog ERROR "Failed to send message: {e}"
                 end ]
           | _, _ => [EvLog ERROR "Not connected to WebRTC service"]
           end)) as Hsend.
  { intros m'. unfold send_message. py_unfold.
    destruct (is_connected c); [destruct (websocket c) as [ws|]|];
      try reflexivity.
    destruct (o_ws_send O (length tr)) as [[]|e]; cbn; trace_eq. }
  split; [apply Hsend|].
  split; [apply stop_streaming_state|].
  split.
  - intros Hc. unfold stop_streaming. py_unfold. now rewrite Hc.
  - intros ws Hc Hw. unfold stop_streaming. unfold Py.bind at 1, Py.gets.
    rewrite Hc. unfold Py.bind at 1. rewrite Hsend, Hc, Hw. py_unfold.
    eexists. rewrite <- app_assoc. reflexivity.
Qed.

Lemma received_app evs1 evs2 :
  received (evs1 ++ evs2) = (received evs1 + received evs2)%nat.
Proof.
  induction evs1 as [|ev evs1 IH]; [reflexivity|].
  destruct ev; cbn; rewrite ?IH; reflexivity.
Qed.

Lemma on_message_events m c tr :
  exists evs, on_message O m c tr = (Return tt, c, tr ++ evs) /\
    calls evs = expected_calls c m /\ received evs = 0%nat.
Proof.
  unfold on_message, _handle_message, expected_calls, py_get. py_unfold.
  destruct m as [data|e].
  2:{ destruct e; eexists; (split; [|split]); reflexivity. }
  destruct data as [| | | | | |d];
    try solve [eexists; (split; [|split]); reflexivity].
  destruct (eq_str (default VNone (d !! "type")) "frame").
  { destruct (on_frame_callback c) as [f|].
    - destruct (o_callback O (length tr)) as [[]|e];
        [|destruct e]; eexists; (split; [|split]); try reflexivity;
        rewrite <- ?app_assoc; reflexivity.
    - exists []. rewrite app_nil_r. split; [|split]; reflexivity. }
  destruct (eq_str (default VNone (d !! "type")) "audio").
  { destruct (on_audio_callback c) as [f|].
    - destruct (o_callback O (length tr)) as [[]|e];
        [|destruct e]; eexists; (split; [|split]); try reflexivity;
        rewrite <- ?app_assoc; reflexivity.
    - exists []. rewrite app_nil_r. split; [|split]; reflexivity. }
  destruct (eq_str (default VNone (d !! "type")) "status");
    eexists; (split; [|split]); reflexivity.
Qed.

Lemma for_each_events ws msgs c tr :
  exists evs, for_each O ws msgs c tr = (Return tt, c, tr ++ evs) /\
    calls evs = flat_map (expected_calls c) msgs /\
    received evs = length msgs.
Proof.
  revert tr. induction msgs as [|m msgs IH]; intros tr.
  - exists []. rewrite app_nil_r. repeat split.
  - cbn [for_each flat_map length]. unfold Py.bind at 1 2, Py.emit.
    destruct (on_message_events m c (tr ++ [EvWsRecv ws]))
      as (evs1 & -> & H1 & R1).
    destruct (IH ((tr ++ [EvWsRecv ws]) ++ evs1)) as (evs2 & -> & H2 & R2).
    exists (EvWsRecv ws :: evs1 ++ evs2). split; [|split].
    + rewrite <- !app_assoc. reflexivity.
    + cbn. rewrite calls_app, H1, H2. reflexivity.
    + cbn. rewrite received_app, R1, R2. reflexivity.
Qed.

Lemma receive_messages_events c tr ws :
  is_connected c = true -> websocket c = Some ws ->
  exists c' evs,
    receive_messages O c tr = (Return tt, c', tr ++ EvWsIter ws :: evs) /\
    received evs = length (o_ws_inbound O (length tr)).1 /\
    calls evs = flat_map (expected_calls c) (o_ws_inbound O (length tr)).1.
Proof.
  intros Hc Hw. unfold receive_messages, async_for.
  unfold Py.bind at 1 2, Py.gets. rewrite Hc, Hw.
  unfold Py.try_except, Py.bind.
  destruct (for_each_events ws (o_ws_inbound O (length tr)).1 c
              (tr ++ [EvWsIter ws])) as (evs & -> & HC & HR).
  destruct (o_ws_inbound O (length tr)).2 as [|e].
  - exists c, evs. cbn. rewrite <- app_assoc. auto.
  - destruct e; py_unfold; cbn; eexists _, (evs ++ [_]);
      (split; [rewrite <- !app_assoc; cbn [app]; reflexivity|]);
      rewrite received_app, calls_app, HC, HR; cbn;
      rewrite ?app_nil_r, ?Nat.add_0_r; auto.
Qed.

(** X11. On a connected client the receive loop reads every message the
    transport delivers, whatever happened to the ones before: a message
    that is not JSON, a JSON value that is not an object, a consumer that
    raises, none of them ends the loop.  The consumer invocations are
    those of the dispatch table, message by message in the order of
    arrival.  A client that is not marked connected, or has no handle,
    does not iterate at all. *)
Theorem receive_all c tr :
  (forall ws, is_connected c = true -> websocket c = Some ws ->
   exists evs,
     Py.value (receive_messages O c tr) = Return tt /\
     Py.trace (receive_messages O c tr) = tr ++ EvWsIter ws :: evs /\
     received evs = length (o_ws_inbound O (length tr)).1 /\
     calls evs =
       flat_map (expected_calls c) (o_ws_inbound O (length tr)).1) /\
  (is_connected c = false \/ websocket c = None ->
   receive_messages O c tr =
     (Return tt, c, tr ++ [EvLog ERROR "Not connected to WebRTC service"])).
Proof.
  split; [|apply receive_messages_not_connected].
  intros ws Hc Hw.
  destruct (receive_messages_events c tr ws Hc Hw) as (c' & evs & -> & HR & HC).
  exists evs. cbn. auto.
Qed.

(** X12. A consumer set with [set_frame_callback] takes the place of the
    one before: the next frame message invokes the new consumer only, and
    none when the callback was set to [None] (the frame is then dropped
    without a log line).  The audio consumer is not affected. *)
Theorem frame_callback_replaced cb c tr d :
  d !! "type" = Some (VStr "frame") ->
  let c' := Py.state (set_frame_callback cb c tr) in
  on_audio_callback c' = on_audio_callback c /\
  exists evs,
    on_message O (Return (VDict d)) c' tr = (Return tt, c', tr ++ evs) /\
    calls evs =
      match cb with
      | Some f => [(f, default VNone (d !! "frame"))]
      | None => []
      end /\
    (cb = None -> evs = []).
Proof.
  intros Ht. cbn. split; [reflexivity|].
  unfold on_message, _handle_message, py_get. py_unfold. rewrite Ht. cbn.
  destruct cb as [f|]; cbn.
  - destruct (o_callback O (length tr)) as [[]|e]; [|destruct e];
      eexists;
      (split; [rewrite <- ?app_assoc; reflexivity|]);
      (split; [reflexivity|discriminate]).
  - exists []. rewrite app_nil_r. auto.
Qed.

Lemma exec_same_endpoint o c tr : same_endpoint c (exec O o c tr).1.
Proof.
  unfold same_endpoint. destruct o; cbn [exec fst].
  - destruct (o_ws_connect O (length tr + 1)%nat) as [ws|e] eqn:Ho.
    + rewrite (connect_ok O c tr ws Ho). auto.
    + rewrite (connect_fail O c tr e Ho). auto.
  - unfold disconnect. py_unfold.
    destruct (websocket c); [destruct (o_ws_close O _)|]; cbn; auto.
  - destruct (send_message_frame O message c tr) as (evs & -> & _). auto.
  - unfold receive_messages, async_for.
    unfold Py.bind at 1 2, Py.gets, Py.try_except, Py.bind.
    destruct (is_connected c); [destruct (websocket c) as [ws|]|];
      try (cbn; auto; fail).
    destruct (for_each_calls O ws (o_ws_inbound O (length tr)).1 c
                (tr ++ [EvWsIter ws])) as (evs & -> & _).
    destruct (o_ws_inbound O (length tr)).2 as [|[]]; cbn; auto.
  - destruct (is_connected c) eqn:Hc.
    + destruct (start_streaming_connected O c tr Hc) as (evs & -> & _). auto.
    + destruct (o_ws_connect O (length tr + 1)%nat) as [ws|e] eqn:Ho.
      * destruct (start_streaming_connects O c tr ws Hc Ho) as (evs & ->).
        auto.
      * rewrite (start_streaming_connect_fails O c tr e Hc Ho). auto.
  - destruct (stop_streaming_state O c tr) as (evs & ->). auto.
  - cbn. auto.
  - cbn. auto.
Qed.

Lemma run_same_endpoint ops c tr : same_endpoint c (run O ops c tr).1.
Proof.
  revert c tr. induction ops as [|o ops IH]; intros c tr.
  - unfold same_endpoint. cbn. auto.
  - cbn [run].
    destruct (exec_same_endpoint o c tr) as (H1 & H2 & H3 & H4).
    destruct (IH (exec O o c tr).1 (exec O o c tr).2) as (G1 & G2 & G3 & G4).
    unfold same_endpoint. rewrite G1, G2, G3, G4. auto.
Qed.

(** X13. No operation changes the endpoint of a streaming client: after
    every sequence of operations [get_status] still reports the host and
    port given to the constructor and the URLs built from them, and the
    connected flag as it then is.  [get_status] itself calls nothing
    outside and changes nothing. *)
Theorem client_status_contract host port ops tr :
  let c := (run O ops (__init__ host port) []).1 in
  exists d,
    get_status c tr = (Return d, c, tr) /\
    d !! "is_connected" = Some (VBool (is_connected c)) /\
    d !! "host" = Some (VStr host) /\
    d !! "port" = Some (VInt port) /\
    d !! "base_url" =
      Some (VStr ("http://" +:+ host +:+ ":" +:+ str_int port)) /\
    d !! "stream_url" =
      Some (VStr (("http://" +:+ host +:+ ":" +:+ str_int port) +:+
                  "/streaming/webrtc-client")).
Proof.
  cbv zeta.
  destruct (run_same_endpoint ops (__init__ host port) [])
    as (H1 & H2 & H3 & _).
  cbn [__init__ WebRTCClient.host WebRTCClient.port base_url] in H1, H2, H3.
  unfold get_status, get_stream_url. py_unfold.
  eexists. split; [reflexivity|]. rewrite H1, H2, H3.
  repeat split; vm_compute; reflexivity.
Qed.

End StreamingExtras.

(** ** The control session: session lifecycle and the API calls *)

Section ControlExtras.
Import RESTClient.
Variable O : oracle.
Variable urljoin : string -> string -> result string.

Lemma requests_app evs1 evs2 :
  requests (evs1 ++ evs2) = (requests evs1 + requests evs2)%nat.
Proof.
  induction evs1 as [|ev evs1 IH]; [reflexivity|].
  destruct ev; cbn; rewrite ?IH; reflexivity.
Qed.

Lemma sessions_created_app evs1 evs2 :
  sessions_created (evs1 ++ evs2) =
    (sessions_created evs1 + sessions_created evs2)%nat.
Proof.
  induction evs1 as [|ev evs1 IH]; [reflexivity|].
  destruct ev; cbn; rewrite ?IH; reflexivity.
Qed.

Lemma rest_connect_noop c tr :
  is_Some (session c) -> connect O c tr = (Return tt, c, tr).
Proof.
  intros [h Hs]. unfold connect. py_unfold. now rewrite Hs.
Qed.

Lemma rest_disconnect_returns c tr :
  Py.value (disconnect O c tr) = Return tt ->
  session (Py.state (disconnect O c tr)) = None.
Proof.
  unfold disconnect. py_unfold.
  destruct (session c) as [h|] eqn:Hs; cbn; [|now intros _].
  destruct (o_session_close O (length tr)) as [[]|e]; cbn; [done|].
  discriminate.
Qed.

(** X14. [connect] creates a session only when there is none: with a
    session it does nothing at all, so a [connect] right after a
    [connect] changes nothing.  [disconnect] without a session does
    nothing at all; a [disconnect] that returns leaves no session; one
    that raises (in [close]) leaves the client as it was, session
    included. *)
Theorem session_lifecycle c tr :
  (is_Some (session c) -> connect O c tr = (Return tt, c, tr)) /\
  (session c = None ->
   connect O c tr =
     (Return tt, set_session (Some (o_session_new O (length tr))) c,
      tr ++ [EvSessionNew; EvLog INFO "REST client session created"])) /\
  connect O (Py.state (connect O c tr)) (Py.trace (connect O c tr)) =
    (Return tt, Py.state (connect O c tr), Py.trace (connect O c tr)) /\
  (session c = None -> disconnect O c tr = (Return tt, c, tr)) /\
  (Py.value (disconnect O c tr) = Return tt ->
   session (Py.state (disconnect O c tr)) = None) /\
  (forall e, Py.value (disconnect O c tr) = Raise e ->
   Py.state (disconnect O c tr) = c).
Proof.
  unfold connect, disconnect. py_unfold.
  destruct (session c) as [h|] eqn:Hs; cbn.
  - rewrite Hs. split_and!; try done.
    + destruct (o_session_close O (length tr)) as [[]|e]; cbn; [done|].
      discriminate.
    + intros e. destruct (o_session_close O (length tr)) as [[]|e'];
        cbn; [discriminate|done].
  - split_and!; try done; try (intros [? [=]]; fail).
    now rewrite <- app_assoc.
Qed.

(** What one [_make_request] does, whatever its arguments. *)
Lemma _make_request_summary method endpoint data c tr :
  let c1 := (session_ready O c tr).1 in
  let tr1 := (session_ready O c tr).2 in
  exists h, session c1 = Some h /\
    match urljoin (base_url c) endpoint with
    | Raise e =>
        _make_request O urljoin method endpoint data c tr = (Raise e, c1, tr1)
    | Return url =>
        exists v evs,
          _make_request O urljoin method endpoint data c tr =
            (Return v, c1, tr1 ++ EvHttpRequest h method url data :: evs) /\
          requests evs = 0%nat /\ sessions_created evs = 0%nat /\
          match http_body (o_http O (length tr1)) with
          | Some body => v = body
          | None => exists reason, v = VDict {[ "error" := VStr reason ]}
          end
    end.
Proof.
  cbv zeta.
  destruct (_make_request_unfold O urljoin method endpoint data c tr)
    as (h & Hh & ->).
  cbv zeta. exists h. split; [exact Hh|].
  destruct (urljoin (base_url c) endpoint) as [url|e]; [|reflexivity].
  unfold http_body.
  destruct (o_http O _) as [resp|e].
  - destruct (Z.eqb (status resp) 200).
    + destruct (body_json resp); eexists _, _;
        (split; [reflexivity|]); split_and!; try done; eexists; reflexivity.
    + destruct (body_text resp); eexists _, _;
        (split; [reflexivity|]); split_and!; try done; eexists; reflexivity.
  - eexists _, _. split; [reflexivity|]. split_and!; try done.
    eexists; reflexivity.
Qed.

Lemma session_ready_events c tr :
  exists evs, (session_ready O c tr).2 = tr ++ evs /\
    requests evs = 0%nat /\
    sessions_created evs = match session c with Some _ => 0 | None => 1 end%nat /\
    is_Some (session (session_ready O c tr).1) /\
    (is_Some (session c) -> (session_ready O c tr).1 = c) /\
    base_url (session_ready O c tr).1 = base_url c.
Proof.
  unfold session_ready. destruct (session c) as [h|] eqn:Hs; cbn.
  - exists []. rewrite app_nil_r, Hs. split_and!; eauto.
  - eexists. split; [reflexivity|]. cbn. split_and!; eauto.
    intros [? [=]].
Qed.

(** One request, whatever its arguments: the outcome and the events. *)
Lemma make_request_contract method endpoint data c tr :
  exists r c' evs,
    _make_request O urljoin method endpoint data c tr = (r, c', tr ++ evs) /\
    sessions_created evs = match session c with Some _ => 0 | None => 1 end%nat /\
    is_Some (session c') /\
    (is_Some (session c) -> c' = c) /\
    match urljoin (base_url c) endpoint with
    | Raise e => r = Raise e /\ requests evs = 0%nat
    | Return url =>
        requests evs = 1%nat /\
        (exists h, session c' = Some h /\
           EvHttpRequest h method url data ∈ evs) /\
        exists v, r = Return v /\
          match http_body (o_http O (length (session_ready O c tr).2)) with
          | Some body => v = body
          | None => exists reason, v = VDict {[ "error" := VStr reason ]}
          end
    end.
Proof.
  destruct (_make_request_summary method endpoint data c tr) as (h & Hh & H).
  destruct (session_ready_events c tr)
    as (evs0 & E0 & R0 & S0 & Hs & Hc & _).
  destruct (urljoin (base_url c) endpoint) as [url|e].
  - destruct H as (v & evs & -> & R & S & Hv).
    eexists (Return v), _, (evs0 ++ _ :: evs).
    split; [rewrite E0; now rewrite <- app_assoc|].
    rewrite requests_app, sessions_created_app, R0, S0.
    cbn [requests sessions_created]. rewrite R, S.
    split_and!; auto.
    + exists h. split; [exact Hh|].
      apply elem_of_app. right. apply list_elem_of_here.
    + eauto.
  - rewrite H. eexists (Raise e), _, evs0.
    split; [now rewrite E0|]. split_and!; auto.
Qed.

Lemma perform_route call :
  perform O urljoin call =
    _make_request O urljoin (api_method call) (api_endpoint call)
      (api_body call).
Proof. destruct call; reflexivity. Qed.

Lemma perform_summary call c tr :
  exists r c' evs,
    perform O urljoin call c tr = (r, c', tr ++ evs) /\
    sessions_created evs = match session c with Some _ => 0 | None => 1 end%nat /\
    is_Some (session c') /\
    (is_Some (session c) -> c' = c) /\
    match urljoin (base_url c) (api_endpoint call) with
    | Raise e => r = Raise e /\ requests evs = 0%nat
    | Return url =>
        requests evs = 1%nat /\
        (exists h, session c' = Some h /\
           EvHttpRequest h (api_method call) url (api_body call) ∈ evs) /\
        exists v, r = Return v /\
          match http_body (o_http O (length (session_ready O c tr).2)) with
          | Some body => v = body
          | None => exists reason, v = VDict {[ "error" := VStr reason ]}
          end
    end.
Proof. rewrite perform_route. apply make_request_contract. Qed.

(** X15. Every call of the control client on the remote API (the twenty
    of them) creates a session when the client has none and only then,
    and leaves the client with a session; then it builds the URL from the
    base URL and its endpoint.  When [urljoin] raises, the call raises the
    same exception and sends nothing.  Otherwise it returns a value and
    does not raise, having made exactly one HTTP request, with its method,
    that URL and its payload, and no retry.  The value is the decoded
    body, whatever JSON value that is, when the response has status 200
    and a readable JSON body, and a dict with the single key ['error']
    for every other outcome. *)
Theorem api_call_contract call c tr :
  exists r c' evs,
    perform O urljoin call c tr = (r, c', tr ++ evs) /\
    sessions_created evs = match session c with Some _ => 0 | None => 1 end%nat /\
    is_Some (session c') /\
    (is_Some (session c) -> c' = c) /\
    match urljoin (base_url c) (api_endpoint call) with
    | Raise e => r = Raise e /\ requests evs = 0%nat
    | Return url =>
        requests evs = 1%nat /\
        (exists h, session c' = Some h /\
           EvHttpRequest h (api_method call) url (api_body call) ∈ evs) /\
        exists v, r = Return v /\
          match http_body (o_http O (length (session_ready O c tr).2)) with
          | Some body => v = body
          | None => exists reason, v = VDict {[ "error" := VStr reason ]}
          end
    end.
Proof. rewrite perform_route. apply make_request_contract. Qed.

(** X16. Two calls in a row share one session: whatever the first call
    was and however it ended (a value or an exception of [urljoin]), the
    client holds a session afterwards; the second call creates no session
    and leaves the client as the first left it; when its URL is built it
    sends its request, first thing, over that session, and when [urljoin]
    raises it raises and does nothing at all. *)
Theorem session_reused call1 call2 c tr :
  let x := perform O urljoin call1 c tr in
  let y := perform O urljoin call2 (Py.state x) (Py.trace x) in
  exists h evs,
    session (Py.state x) = Some h /\
    (forall url1, urljoin (base_url c) (api_endpoint call1) = Return url1 ->
       EvHttpRequest h (api_method call1) url1 (api_body call1)
         ∈ Py.trace x) /\
    Py.state y = Py.state x /\
    Py.trace y = Py.trace x ++ evs /\
    sessions_created evs = 0%nat /\
    match urljoin (base_url c) (api_endpoint call2) with
    | Return url2 =>
        exists evs',
          evs = EvHttpRequest h (api_method call2) url2 (api_body call2)
                  :: evs' /\
          requests evs' = 0%nat /\
          exists v, Py.value y = Return v
    | Raise e => evs = [] /\ Py.value y = Raise e
    end.
Proof.
  cbv zeta. rewrite !perform_route.
  destruct (_make_request_summary (api_method call1) (api_endpoint call1)
              (api_body call1) c tr) as (h & Hh & H1).
  destruct (session_ready_events c tr) as (evs0 & E0 & _ & _ & _ & _ & Hb).
  set (c1 := (session_ready O c tr).1) in *.
  assert (exists tr1,
            _make_request O urljoin (api_method call1) (api_endpoint call1)
              (api_body call1) c tr =
              (Py.value (_make_request O urljoin (api_method call1)
                           (api_endpoint call1) (api_body call1) c tr),
               c1, tr1) /\
            forall url1,
              urljoin (base_url c) (api_endpoint call1) = Return url1 ->
              EvHttpRequest h (api_method call1) url1 (api_body call1) ∈ tr1)
    as (tr1 & -> & Hin).
  { destruct (urljoin (base_url c) (api_endpoint call1)) as [url|e].
    - destruct H1 as (v & evs & -> & _). eexists. split; [reflexivity|].
      intros url1 [= <-]. apply elem_of_app. right. apply list_elem_of_here.
    - rewrite H1. eexists. split; [reflexivity|]. discriminate. }
  cbn [Py.state Py.trace fst snd].
  destruct (_make_request_summary (api_method call2) (api_endpoint call2)
              (api_body call2) c1 tr1) as (h' & Hh' & H2).
  assert (session_ready O c1 tr1 = (c1, tr1)) as E
    by (unfold session_ready; now rewrite Hh).
  rewrite E in Hh', H2. cbn [fst snd] in *.
  assert (h' = h) as -> by congruence.
  rewrite Hb in H2.
  destruct (urljoin (base_url c) (api_endpoint call2)) as [url2|e].
  - destruct H2 as (v & evs & -> & R & S & _).
    exists h, (EvHttpRequest h (api_method call2) url2 (api_body call2) :: evs).
    cbn [Py.state Py.trace Py.value fst snd].
    split_and!; eauto.
  - rewrite H2. exists h, []. cbn [Py.state Py.trace Py.value fst snd].
    rewrite app_nil_r. split_and!; eauto.
Qed.

(** X17. [get_status_info] calls nothing outside and changes nothing; its
    [session_active] entry tells whether the client holds a session: it
    is [False] on a client as constructed, [True] after any call on the
    remote API, and [False] again after a [disconnect] that returned. *)
Theorem status_info_contract call host port c tr :
  (exists d, get_status_info c tr = (Return d, c, tr) /\
     d !! "session_active" =
       Some (VBool (bool_decide (is_Some (session c))))) /\
  (exists d, Py.value (get_status_info (__init__ host port) tr) = Return d /\
     d !! "session_active" = Some (VBool false)) /\
  (exists d,
     Py.value (get_status_info (Py.state (perform O urljoin call c tr)) tr)
       = Return d /\
     d !! "session_active" = Some (VBool true)) /\
  (Py.value (disconnect O c tr) = Return tt ->
   exists d,
     Py.value (get_status_info (Py.state (disconnect O c tr)) tr)
       = Return d /\
     d !! "session_active" = Some (VBool false)).
Proof.
  assert (forall c0 tr0, exists d,
            get_status_info c0 tr0 = (Return d, c0, tr0) /\
            d !! "session_active" =
              Some (VBool (bool_decide (is_Some (session c0))))) as H.
  { intros c0 tr0. unfold get_status_info. py_unfold.
    eexists. split; [reflexivity|]. vm_compute. reflexivity. }
  split; [apply H|]. split; [|split].
  - destruct (H (__init__ host port) tr) as (d & -> & Hd).
    exists d. split; [reflexivity|]. rewrite Hd. reflexivity.
  - destruct (perform_summary call c tr)
      as (r0 & c' & evs & -> & _ & Hs & _).
    change (Py.state (r0, c', tr ++ evs)) with c'.
    destruct (H c' tr) as (d & -> & Hd). exists d. split; [reflexivity|].
    rewrite Hd. now rewrite bool_decide_eq_true_2.
  - intros Hv. pose proof (rest_disconnect_returns c tr Hv) as Hn.
    destruct (H (Py.state (disconnect O c tr)) tr) as (d & -> & Hd).
    exists d. split; [reflexivity|]. rewrite Hd, Hn.
    rewrite bool_decide_eq_false_2; [reflexivity|]. intros [? [=]].
Qed.

End ControlExtras.

(** ** The orchestrator: delegation, status, streaming, scope *)

Arguments RESTClient.load_scene : simpl never.
Arguments RESTClient.create_entity : simpl never.
Arguments RESTClient.delete_entity : simpl never.
Arguments RESTClient.get_simulation_status : simpl never.
Arguments RESTClient.get_status_info : simpl never.
Arguments WebRTCClient.get_status : simpl never.
Arguments WebRTCClient.start_streaming : simpl never.
Arguments WebRTCClient.stop_streaming : simpl never.
Arguments SimulationApp.get_status : simpl never.
Arguments IsaacSimEnvironment.initialize : simpl never.
Arguments IsaacSimEnvironment.cleanup : simpl never.

Section OrchestratorExtras.
Import IsaacSimEnvironment.
Variable O : oracle.
Variable urljoin : string -> string -> result string.

(** What each of the four makes of the outcome of its call on the control
    client. *)
Lemma issue_value call env tr rc r rc' tr1 :
  rest_client env = Some rc ->
  perform O urljoin (api_of call) rc tr = (r, rc', tr1) ->
  exists l template,
    issue O urljoin call env tr =
      (Return (match r with Return v => no_error v | Raise _ => false end),
       set_rest_client (Some rc') env, tr1 ++ [EvLog l template]).
Proof.
  intros Hr Hp. destruct env as [a w r0 i]. cbn in Hr. subst r0.
  destruct call; cbn [api_of perform] in Hp;
    unfold issue, stop_simulation, load_scene, create_entity,
      delete_entity, on_rest_client, no_error;
    py_unfold; cbn; rewrite Hp; cbn;
    (destruct r as [v|e]; [|eauto]);
    (destruct v as [| | | |s|l|d]; cbn; eauto;
     [destruct (String.index 0 "error" s)
     |destruct (existsb _ l)
     |destruct (d !! "error")]; cbn; eauto).
Qed.

Lemma perform_requests call c tr :
  exists r c' evs,
    perform O urljoin call c tr = (r, c', tr ++ evs) /\
    (requests evs <= 1)%nat.
Proof.
  destruct (perform_summary O urljoin call c tr)
    as (r & c' & evs & Hp & _ & _ & _ & H).
  exists r, c', evs. split; [exact Hp|].
  destruct (urljoin _ _); [destruct H as (-> & _)|destruct H as (_ & ->)];
    lia.
Qed.

(** X18. [stop_simulation], [load_scene], [create_entity] and
    [delete_entity] never raise and never call [initialize]; they leave
    the flag and the other components alone.  With a control client, and
    a URL that [urljoin] builds, they make exactly one HTTP request and
    return [True] exactly when the response has status 200 and a JSON
    body for which ['error' not in result] holds: a dict without the key,
    or a list or string that does not contain it.  Any other status, an
    unreadable body, a transport failure, or a body that is [null], a
    boolean or a number (the test raises) gives [False].  When [urljoin]
    raises they return [False] having requested nothing.  Without a
    control client they return [False] and request nothing. *)
Theorem control_call_contract call env tr :
  (forall rc, rest_client env = Some rc ->
   exists rc' evs,
     issue O urljoin call env tr =
       (Return match urljoin (RESTClient.base_url rc)
                       (api_endpoint (api_of call)) with
               | Raise _ => false
               | Return _ =>
                   match http_body
                           (o_http O (length (session_ready O rc tr).2)) with
                   | Some body =>
                       match py_in "error" body with
                       | Return b => negb b
                       | Raise _ => false
                       end
                   | None => false
                   end
               end,
        set_rest_client (Some rc') env, tr ++ evs) /\
     requests evs =
       match urljoin (RESTClient.base_url rc)
               (api_endpoint (api_of call)) with
       | Raise _ => 0%nat
       | Return _ => 1%nat
       end) /\
  (rest_client env = None ->
   exists ev, issue O urljoin call env tr = (Return false, env, tr ++ [ev])).
Proof.
  split.
  - intros rc Hr.
    destruct (perform_summary O urljoin (api_of call) rc tr)
      as (r & rc' & evs & Hp & _ & _ & _ & H).
    destruct (issue_value call env tr rc r rc' _ Hr Hp)
      as (l & template & ->).
    exists rc', (evs ++ [EvLog l template]).
    rewrite requests_app, app_assoc. cbn [requests]. rewrite Nat.add_0_r.
    destruct (urljoin (RESTClient.base_url rc) (api_endpoint (api_of call)))
      as [url|e].
    + destruct H as (R & _ & v & -> & Hv). split; [|exact R].
      destruct (http_body _) as [body|].
      * subst v. reflexivity.
      * destruct Hv as (reason & ->). reflexivity.
    + destruct H as (-> & R). split; [reflexivity|exact R].
  - intros Hr. destruct env as [a w r i]. cbn in Hr. subst r.
    destruct call;
      unfold issue, stop_simulation, load_scene, create_entity,
        delete_entity, on_rest_client;
      py_unfold; cbn; eexists; reflexivity.
Qed.

Lemma webrtc_status_pure c tr :
  exists d, WebRTCClient.get_status c tr = (Return d, c, tr).
Proof.
  unfold WebRTCClient.get_status, WebRTCClient.get_stream_url. py_unfold.
  eauto.
Qed.

Lemma rest_status_pure c tr :
  exists d, RESTClient.get_status_info c tr = (Return d, c, tr).
Proof. unfold RESTClient.get_status_info. py_unfold. eauto. Qed.

Lemma app_status_events a tr :
  exists d evs,
    SimulationApp.get_status O a tr = (Return d, a, tr ++ evs) /\
    requests evs = 0%nat /\ sessions_created evs = 0%nat.
Proof.
  unfold SimulationApp.get_status, SimulationApp.poll. py_unfold.
  destruct (SimulationApp.process a) as [p|].
  - eexists _, [EvPoll p]. repeat split.
  - eexists _, []. rewrite app_nil_r. repeat split.
Qed.

(** X19. The composite [get_status] never raises and leaves the flag as it
    is.  Its value always has the entries [is_initialized] (the flag),
    [simulation_app], [webrtc_client] and [rest_client]; it has
    [simulation_status] exactly when the environment is initialised.  On
    an environment that is not initialised it makes no HTTP request and
    creates no session; on an initialised one it makes at most one
    request. *)
Theorem env_status_contract env tr :
  exists d env' evs,
    get_status O urljoin env tr = (Return d, env', tr ++ evs) /\
    is_initialized env' = is_initialized env /\
    d !! "is_initialized" = Some (VBool (is_initialized env)) /\
    is_Some (d !! "simulation_app") /\
    is_Some (d !! "webrtc_client") /\
    is_Some (d !! "rest_client") /\
    (is_Some (d !! "simulation_status") <-> is_initialized env = true) /\
    (is_initialized env = false ->
     requests evs = 0%nat /\ sessions_created evs = 0%nat) /\
    (requests evs <= 1)%nat.
Proof.
  assert (forall (a b c e x : pyval),
            is_Some ((<["simulation_status" := x]>
                        ({[ "is_initialized" := a; "simulation_app" := b;
                            "webrtc_client" := c; "rest_client" := e ]}
                         : gmap string pyval)) !! "simulation_status"))
    as Hsim by (intros; eexists; vm_compute; reflexivity).
  assert (forall (a b c e : pyval),
            ¬ is_Some (({[ "is_initialized" := a; "simulation_app" := b;
                           "webrtc_client" := c; "rest_client" := e ]}
                        : gmap string pyval) !! "simulation_status"))
    as Hnosim by (intros a b c e [x Hx]; vm_compute in Hx; discriminate).
  destruct env as [a w r i].
  unfold get_status, status_of, get_simulation_status, on_rest_client.
  py_unfold. cbn.
  destruct a as [a|]; cbn.
  - destruct (app_status_events a tr) as (da & evs & -> & R & S). cbn.
    destruct w as [w|]; cbn;
      [destruct (webrtc_status_pure w (tr ++ evs)) as (dw & ->); cbn|];
      (destruct r as [r|]; cbn;
       [destruct (rest_status_pure r (tr ++ evs)) as (dr & ->); cbn|]);
      (destruct i; cbn;
       [|eexists _, _, evs; split; [reflexivity|];
         split_and!; try (eexists; vm_compute; reflexivity);
         try reflexivity; try (rewrite R; lia); auto;
         split; [intros H; now apply Hnosim in H|discriminate]]).
    all: try (destruct (perform_requests GetSimulationStatus r (tr ++ evs))
                as (ds & r' & evs2 & Hp & R2);
              cbn [perform] in Hp; rewrite Hp; destruct ds; cbn;
              eexists _, _, (evs ++ evs2); rewrite <- app_assoc;
              (split; [reflexivity|]);
              split_and!; try (eexists; vm_compute; reflexivity);
              try reflexivity; try discriminate;
              try (rewrite requests_app, R; lia);
              (split; [reflexivity|intros _; apply Hsim])).
    all: eexists _, _, evs; (split; [reflexivity|]);
      split_and!; try (eexists; vm_compute; reflexivity);
      try reflexivity; try discriminate; try (rewrite R; lia);
      split; [reflexivity|intros _; apply Hsim].
  - destruct w as [w|]; cbn;
      [destruct (webrtc_status_pure w tr) as (dw & ->); cbn|];
      (destruct r as [r|]; cbn;
       [destruct (rest_status_pure r tr) as (dr & ->); cbn|]);
      (destruct i; cbn;
       [|eexists _, _, []; rewrite app_nil_r; split; [reflexivity|];
         split_and!; try (eexists; vm_compute; reflexivity);
         try reflexivity; try (cbn; lia); auto;
         split; [intros H; now apply Hnosim in H|discriminate]]).
    all: try (destruct (perform_requests GetSimulationStatus r tr)
                as (ds & r' & evs2 & Hp & R2);
              cbn [perform] in Hp; rewrite Hp; destruct ds; cbn;
              eexists _, _, evs2;
              (split; [reflexivity|]);
              split_and!; try (eexists; vm_compute; reflexivity);
              try reflexivity; try discriminate;
              try lia;
              (split; [reflexivity|intros _; apply Hsim])).
    all: eexists _, _, []; rewrite app_nil_r; (split; [reflexivity|]);
      split_and!; try (eexists; vm_compute; reflexivity);
      try reflexivity; try discriminate; try (cbn; lia);
      split; [reflexivity|intros _; apply Hsim].
Qed.

Lemma ws_start_streaming_returns c tr :
  exists b c' evs,
    WebRTCClient.start_streaming O c tr = (Return b, c', tr ++ evs).
Proof.
  destruct (WebRTCClient.is_connected c) eqn:Hc.
  - destruct (start_streaming_connected O c tr Hc) as (evs & -> & _). eauto.
  - destruct (o_ws_connect O (length tr + 1)%nat) as [ws|e] eqn:Ho.
    + destruct (start_streaming_connects O c tr ws Hc Ho) as (evs & ->).
      eauto.
    + rewrite (start_streaming_connect_fails O c tr e Hc Ho). eauto.
Qed.

(** X20. The orchestrator's [start_streaming] and [stop_streaming] never
    raise.  [start_streaming] returns what the streaming client's
    [start_streaming] returns and changes the streaming client only: it
    neither needs nor sets the initialised flag, so streaming can be
    started on an environment that was never initialised.  Without a
    streaming client it returns [False].  [stop_streaming] leaves the
    whole environment as it is. *)
Theorem env_streaming_contract env tr :
  (forall wc, webrtc_client env = Some wc ->
   exists evs,
     start_streaming O env tr =
       (Py.value (WebRTCClient.start_streaming O wc tr),
        set_webrtc_client
          (Some (Py.state (WebRTCClient.start_streaming O wc tr))) env,
        tr ++ evs) /\
     exists b, Py.value (WebRTCClient.start_streaming O wc tr) = Return b) /\
  (webrtc_client env = None ->
   start_streaming O env tr =
     (Return false, env, tr ++ [EvLog ERROR "Error starting streaming: {e}"])) /\
  (exists evs, stop_streaming O env tr = (Return tt, env, tr ++ evs)).
Proof.
  destruct env as [a w r i]. split; [|split].
  - intros wc Hw. cbn in Hw. subst w.
    unfold start_streaming, on_webrtc_client. py_unfold. cbn.
    destruct (ws_start_streaming_returns wc tr) as (b & c' & evs & ->).
    cbn. eauto.
  - intros Hw. cbn in Hw. subst w.
    unfold start_streaming, on_webrtc_client. py_unfold. reflexivity.
  - unfold stop_streaming, on_webrtc_client. py_unfold. cbn.
    destruct w as [wc|]; cbn.
    + destruct (stop_streaming_state O wc tr) as (evs & ->). eauto.
    + eauto.
Qed.

(** X21. [async with env: body] runs [initialize], then the body whatever
    [initialize] returned (also when it returned [False]), then
    [cleanup], whether the body returned or raised.  The outcome of the
    whole is the outcome of the body: its value, or its exception raised
    again after [cleanup]. *)
Theorem scope_contract {A} (body : Py.t t A) env tr :
  let x := initialize O env tr in
  let y := body (Py.state x) (Py.trace x) in
  let z := cleanup O (Py.state y) (Py.trace y) in
  async_with O body env tr = (Py.value y, Py.state z, Py.trace z).
Proof.
  cbv zeta. unfold async_with, __aenter__, __aexit__.
  destruct (initialize_returns O env tr) as (b & env1 & evs1 & Hi & _).
  unfold Py.bind at 1 2. rewrite Hi. unfold Py.ret at 1.
  cbn [Py.state Py.trace fst snd].
  destruct (body env1 (tr ++ evs1)) as [[r env2] tr2].
  cbn [Py.state Py.trace Py.value fst snd].
  destruct (cleanup_returns O env2 tr2) as (env3 & evs3 & Hc & _).
  destruct r; py_unfold; rewrite Hc; reflexivity.
Qed.

(** X22. [initialize] on an environment that is already up (process
    marked running, control session open) launches nothing and creates
    no session, but it does connect again: the streaming client gets a
    new transport in place of the one it had, and the old one is not
    closed. *)
Theorem reinitialize_opens_transport env tr app wc rc ws h :
  simulation_app env = Some app ->
  SimulationApp.is_running app = true ->
  webrtc_client env = Some wc ->
  rest_client env = Some rc ->
  RESTClient.session rc = Some h ->
  o_ws_connect O (length tr + 3)%nat = Return ws ->
  initialize O env tr =
    (Return true,
     {| simulation_app := Some app;
        webrtc_client :=
          Some (WebRTCClient.set_is_connected true
                  (WebRTCClient.set_websocket (Some ws) wc));
        rest_client := Some rc;
        is_initialized := true |},
     tr ++ [ EvLog INFO "Initializing Isaac Sim 5.0 environment...";
             EvLog WARNING "Isaac Sim 5.0 is already running";
             EvLog INFO "Connecting to WebRTC service at {self.webrtc_url}";
             EvWsConnect (WebRTCClient.webrtc_url wc);
             EvLog INFO "WebRTC connection established";
             EvLog INFO "Isaac Sim 5.0 environment initialized successfully" ]).
Proof.
  intros Ha Hrun Hw Hr Hs Ho.
  rewrite (initialize_start_ok O env tr app app
             ((tr ++ [EvLog INFO "Initializing Isaac Sim 5.0 environment..."])
                ++ [EvLog WARNING "Isaac Sim 5.0 is already running"])
             wc rc Ha Hw Hr (start_running O app _ Hrun)).
  rewrite (connect_ok O wc _ ws) by (ticks; exact Ho).
  cbn [Py.value Py.state Py.trace fst snd].
  assert (forall t, RESTClient.connect O rc t = (Return tt, rc, t)) as Hc.
  { intros t. apply rest_connect_noop. rewrite Hs. eauto. }
  rewrite Hc.
  cbn [Py.value Py.state Py.trace fst snd].
  rewrite app_nil_r, <- !app_assoc. reflexivity.
Qed.

End OrchestratorExtras.

(** ** Construction from a configuration *)


(** ** Instances of the further properties *)

(** [stop] on an app as constructed only clears the flag. *)
Lemma stop_contract_witness :
  SimulationApp.stop calm default_app [] =
    (Return tt, SimulationApp.set_is_running false default_app,
     [] ++ [EvLog INFO "Isaac Sim 5.0 stopped"]).
Proof.
  destruct (stop_contract calm default_app []) as (_ & H & _).
  apply H. reflexivity.
Defined.

(** A second [start] after a launch that succeeded only warns. *)
Lemma start_twice_witness :
  SimulationApp.start calm
    (Py.state (SimulationApp.start calm default_app []))
    (Py.trace (SimulationApp.start calm default_app [])) =
    (Return true, Py.state (SimulationApp.start calm default_app []),
     Py.trace (SimulationApp.start calm default_app []) ++
       [EvLog WARNING "Isaac Sim 5.0 is already running"]).
Proof.
  destruct (start_twice calm default_app []) as (_ & H).
  apply H. reflexivity.
Defined.

(** Adopt, then stop: on an app as constructed nothing is terminated; on
    one that holds process 42 from a launch that failed, that process
    is. *)
Lemma stop_after_adoption_witness :
  SimulationApp.stop found_running
    (Py.state (SimulationApp.start found_running default_app []))
    (Py.trace (SimulationApp.start found_running default_app [])) =
    (Return tt, SimulationApp.set_is_running false default_app,
     ([] ++ [EvPgrep; EvLog INFO "Isaac Sim 5.0 is already running"]) ++
       [EvLog INFO "Isaac Sim 5.0 stopped"]) /\
  SimulationApp.stop found_running
    (Py.state (SimulationApp.start found_running failed_app []))
    (Py.trace (SimulationApp.start found_running failed_app [])) =
    (Return tt,
     SimulationApp.set_is_running false
       (SimulationApp.set_process None failed_app),
     ([] ++ [EvPgrep; EvLog INFO "Isaac Sim 5.0 is already running"]) ++
       [ EvTerminate 42%nat; EvWait 42%nat;
         EvLog INFO "Isaac Sim 5.0 stopped" ]).
Proof.
  split.
  - destruct (stop_after_adoption found_running default_app []
                eq_refl eq_refl) as (_ & _ & H & _).
    apply H. reflexivity.
  - destruct (stop_after_adoption found_running failed_app []
                eq_refl eq_refl) as (_ & _ & _ & H).
    apply (H 42%nat); reflexivity.
Defined.

(** [restart] of an app as constructed: pause, probe, and the flag as
    result. *)
Lemma restart_contract_witness :
  exists evs,
    Py.trace (SimulationApp.restart calm default_app []) =
      Py.trace (SimulationApp.stop calm default_app []) ++
        EvSleep 1 :: EvPgrep :: evs /\
    Py.value (SimulationApp.restart calm default_app []) =
      Return (SimulationApp.is_running
                (Py.state (SimulationApp.restart calm default_app []))).
Proof.
  destruct (restart_contract calm default_app []) as (_ & H).
  apply H. reflexivity.
Defined.

(** The command line of the default configuration. *)
Lemma isaac_cmd_shape_witness :
  SimulationApp.isaac_cmd default_app =
    [ "/workspace/isaac-sim-5.0/_build/linux-x86_64/release/omni.isaac.sim";
      "--headless"; "--livestream"; "webrtc";
      "--webrtc-port"; "8211"; "--rest-port"; "3009" ].
Proof.
  destruct (isaac_cmd_shape default_app) as (_ & H & _).
  apply H. discriminate.
Defined.


(** With every path on disk and an empty [sys.path], the result has no
    duplicates. *)
Lemma setup_isaac_paths_contract_witness :
  NoDup (SimulationApp._setup_isaac_paths (fun _ => true) []).
Proof.
  destruct (setup_isaac_paths_contract (fun _ => true) []) as (_ & H & _).
  apply H. constructor.
Defined.

(** [disconnect] on a client as constructed closes nothing. *)
Lemma disconnect_contract_witness :
  WebRTCClient.disconnect calm (WebRTCClient.__init__ "localhost" 9000) [] =
    (Return tt,
     WebRTCClient.set_is_connected false
       (WebRTCClient.__init__ "localhost" 9000),
     [] ++ [EvLog INFO "WebRTC connection closed"]).
Proof.
  destruct (disconnect_contract calm
              (WebRTCClient.__init__ "localhost" 9000) []) as (_ & H & _).
  apply H. reflexivity.
Defined.

(** [stop_streaming] on a client as constructed does nothing. *)
Lemma outbound_contract_witness :
  WebRTCClient.stop_streaming calm (WebRTCClient.__init__ "localhost" 9000) []
    = (Return tt, WebRTCClient.__init__ "localhost" 9000, []).
Proof.
  destruct (outbound_contract calm WebRTCClient.stop_message
              (WebRTCClient.__init__ "localhost" 9000) [])
    as (_ & _ & H & _).
  apply H. reflexivity.
Defined.

(** Four messages, every consumer raising: all four are read. *)
Lemma receive_all_witness :
  exists evs,
    Py.value (WebRTCClient.receive_messages four_messages listening_client [])
      = Return tt /\
    Py.trace (WebRTCClient.receive_messages four_messages listening_client [])
      = [] ++ EvWsIter 1%nat :: evs /\
    received evs = 4%nat /\
    calls evs = [(11%nat, VStr "f0"); (12%nat, VStr "a0")].
Proof.
  destruct (receive_all four_messages listening_client []) as (H & _).
  apply (H 1%nat); reflexivity.
Defined.

(** Consumer 13 takes the place of consumer 11. *)
Lemma frame_callback_replaced_witness :
  exists evs,
    WebRTCClient.on_message calm (Return (VDict frame_msg))
      (WebRTCClient.set_on_frame_callback (Some 13%nat) listening_client) []
      = (Return tt,
         WebRTCClient.set_on_frame_callback (Some 13%nat) listening_client,
         [] ++ evs) /\
    calls evs = [(13%nat, VStr "f0")].
Proof.
  destruct (frame_callback_replaced calm (Some 13%nat) listening_client []
              frame_msg eq_refl) as (_ & evs & H1 & H2 & _).
  exists evs. split; [exact H1|exact H2].
Defined.

(** The first [connect] of a control client creates session 5. *)
Lemma session_lifecycle_witness :
  RESTClient.connect calm (RESTClient.__init__ "localhost" 4000) [] =
    (Return tt, open_client,
     [] ++ [EvSessionNew; EvLog INFO "REST client session created"]).
Proof.
  destruct (session_lifecycle calm (RESTClient.__init__ "localhost" 4000) [])
    as (_ & H & _).
  apply H. reflexivity.
Defined.

(** A health query on a client with a session: one GET on the health
    URL over session 5, and the client as it was. *)
Lemma api_call_contract_witness :
  exists r evs,
    perform calm concat_url GetHealth open_client [] =
      (r, open_client, [] ++ evs) /\
    requests evs = 1%nat /\
    EvHttpRequest 5%nat "GET" "http://localhost:4000/health" None ∈ evs.
Proof.
  destruct (api_call_contract calm concat_url GetHealth open_client [])
    as (r & c' & evs & Hp & _ & _ & Hc & R & (h & Hh & Hin) & _).
  pose proof (Hc (ex_intro _ 5%nat eq_refl)) as E.
  exists r, evs. rewrite E in Hp, Hh. injection Hh as <-.
  split; [exact Hp|]. split; [exact R|exact Hin].
Defined.

(** Two health queries in a row on a client as constructed: the second
    goes over the session the first created. *)
Lemma session_reused_witness :
  exists evs,
    Py.trace (perform calm concat_url GetHealth
                (Py.state (perform calm concat_url GetHealth
                             (RESTClient.__init__ "localhost" 4000) []))
                (Py.trace (perform calm concat_url GetHealth
                             (RESTClient.__init__ "localhost" 4000) []))) =
      Py.trace (perform calm concat_url GetHealth
                  (RESTClient.__init__ "localhost" 4000) []) ++ evs /\
    sessions_created evs = 0%nat.
Proof.
  destruct (session_reused calm concat_url GetHealth GetHealth
              (RESTClient.__init__ "localhost" 4000) [])
    as (h & evs & _ & _ & _ & Ht & S & _).
  exists evs. split; [exact Ht|exact S].
Defined.

(** After a [disconnect] that returned, no session is reported. *)
Lemma status_info_contract_witness :
  exists d,
    Py.value (RESTClient.get_status_info
                (Py.state (RESTClient.disconnect calm open_client [])) [])
      = Return d /\
    d !! "session_active" = Some (VBool false).
Proof.
  destruct (status_info_contract calm concat_url GetHealth "localhost" 4000
              open_client []) as (_ & _ & _ & H).
  apply H. reflexivity.
Defined.

(** A 500 from the control plane: [stop_simulation] returns [False]
    after one request. *)
Lemma control_call_contract_witness :
  exists rc' evs,
    IsaacSimEnvironment.stop_simulation server_error concat_url ready_env []
      = (Return false,
         IsaacSimEnvironment.set_rest_client (Some rc') ready_env,
         [] ++ evs) /\
    requests evs = 1%nat.
Proof.
  destruct (control_call_contract server_error concat_url CallStopSimulation
              ready_env []) as (H & _).
  exact (H open_client eq_refl).
Defined.

(** A status query before [initialize] contacts nobody. *)
Lemma env_status_contract_witness :
  exists d env' evs,
    IsaacSimEnvironment.get_status calm concat_url fresh_env [] =
      (Return d, env', [] ++ evs) /\
    requests evs = 0%nat /\ sessions_created evs = 0%nat.
Proof.
  destruct (env_status_contract calm concat_url fresh_env [])
    as (d & env' & evs & Hg & _ & _ & _ & _ & _ & _ & H & _).
  exists d, env', evs. split; [exact Hg|]. apply H. reflexivity.
Defined.

(** Streaming is started on an environment that was never initialised. *)
Lemma env_streaming_contract_witness :
  exists evs,
    IsaacSimEnvironment.start_streaming calm fresh_env [] =
      (Return true,
       IsaacSimEnvironment.set_webrtc_client
         (Some (Py.state (WebRTCClient.start_streaming calm
                            (WebRTCClient.__init__ "localhost" 9000) [])))
         fresh_env,
       [] ++ evs).
Proof.
  destruct (env_streaming_contract calm fresh_env []) as (H & _).
  destruct (H (WebRTCClient.__init__ "localhost" 9000) eq_refl)
    as (evs & Hs & _).
  exists evs. exact Hs.
Defined.

(** [initialize] on the running environment: transport 7 in place of
    transport 1, and no close. *)
Lemma reinitialize_opens_transport_witness :
  Py.value (IsaacSimEnvironment.initialize calm ready_env []) = Return true /\
  Py.trace (IsaacSimEnvironment.initialize calm ready_env []) =
    [] ++ [ EvLog INFO "Initializing Isaac Sim 5.0 environment...";
            EvLog WARNING "Isaac Sim 5.0 is already running";
            EvLog INFO "Connecting to WebRTC service at {self.webrtc_url}";
            EvWsConnect "ws://localhost:9000/streaming/webrtc";
            EvLog INFO "WebRTC connection established";
            EvLog INFO "Isaac Sim 5.0 environment initialized successfully" ].
Proof.
  rewrite (reinitialize_opens_transport calm ready_env []
             (SimulationApp.set_is_running true
                (SimulationApp.set_process (Some 42%nat) default_app))
             connected_client open_client 7%nat 5%nat
             eq_refl eq_refl eq_refl eq_refl eq_refl eq_refl).
  split; reflexivity.
Defined.

